(** * MotionObserver: a shallow embedding of [src/index.ts]

    The development follows the layout of the source file: the math kernel
    (vectors, quaternions, matrices over the reals), the synthesis of the
    outward-facing events, and the [MotionObserver] class as a state record
    with one function per method.

    Conventions.
    - JavaScript numbers are modelled by the real numbers [R]; timestamps
      ([Date.now()]) by [Z].  The rounding of doubles is not modelled: an
      equation between computed numbers is a statement of exact real
      arithmetic.
    - A JavaScript [Set] is an insertion-ordered list without duplicates, a
      [Map<MotionType, Set>] is a [gmap] from motion types to such lists.
    - A method that can throw returns a [Result] next to the state it leaves
      behind: an exception does not undo the mutations made before it.
    - Listeners are user code.  A listener is known by its identity and by a
      behaviour oracle that tells, from the calls made so far and the call at
      hand, how the call ends: the listener returns, having set the
      propagation-stop signal of the event it receives or not, or it throws.
      Listeners that call back into the observer while a pass is running are
      outside the model. *)

From Stdlib Require Import Reals Lra RNsatz ZArith List.
From stdpp Require Import gmap strings.
Import ListNotations.

(** ** Math kernel *)

Module Math.

Local Open Scope R_scope.

(** Represents a quaternion in xyzw order. *)
Definition Quaternion : Type := R * R * R * R.
(** Represents a 3D vector. *)
Definition Vector : Type := R * R * R.
(** Represents a row-major 4x4 matrix. *)
Definition Matrix : Type := (R * R * R * R) * (R * R * R * R) * (R * R * R * R) * (R * R * R * R).

(** Coefficient to multiply degree measurements by to convert to radians. *)
Definition DEG_TO_RAD : R := PI / 180.
(** Constant of gravity, 9.80665. *)
Definition GRAVITY : R := 980665 / 100000.

(** Subtracts vector [b] from [a]. *)
Definition vecSub (a b : Vector) : Vector :=
  let '(aX, aY, aZ) := a in
  let '(bX, bY, bZ) := b in
  (aX - bX, aY - bY, aZ - bZ).

(** Applies a quaternion rotation to the provided vector. *)
Definition vecApplyQuat (v : Vector) (q : Quaternion) : Vector :=
  let '(vX, vY, vZ) := v in
  let '(qX, qY, qZ, qW) := q in
  let tX := 2 * (qY * vZ - qZ * vY) in
  let tY := 2 * (qZ * vX - qX * vZ) in
  let tZ := 2 * (qX * vY - qY * vX) in
  (vX + qW * tX + qY * tZ - qZ * tY,
   vY + qW * tY + qZ * tX - qX * tZ,
   vZ + qW * tZ + qX * tY - qY * tX).

(** Converts an euler to a quaternion, processing its properties in YXZ order. *)
Definition quatFromEulerYXZ (v : Vector) : Quaternion :=
  let '(x, y, z) := v in
  let c1 := cos (x / 2) in
  let c2 := cos (y / 2) in
  let c3 := cos (z / 2) in
  let s1 := sin (x / 2) in
  let s2 := sin (y / 2) in
  let s3 := sin (z / 2) in
  (s1 * c2 * c3 + c1 * s2 * s3,
   c1 * s2 * c3 - s1 * c2 * s3,
   c1 * c2 * s3 - s1 * s2 * c3,
   c1 * c2 * c3 + s1 * s2 * s3).

(** Multiplies two quaternions. *)
Definition quatMultiply (a b : Quaternion) : Quaternion :=
  let '(qax, qay, qaz, qaw) := a in
  let '(qbx, qby, qbz, qbw) := b in
  (qax * qbw + qaw * qbx + qay * qbz - qaz * qby,
   qay * qbw + qaw * qby + qaz * qbx - qax * qbz,
   qaz * qbw + qaw * qbz + qax * qby - qay * qbx,
   qaw * qbw - qax * qbx - qay * qby - qaz * qbz).

(** The fixed correction: the camera looks out the back of the device. *)
Definition backFacing : Quaternion := (- sqrt (1 / 2), 0, 0, sqrt (1 / 2)).

(** Converts the [alpha], [beta], [gamma] of a device orientation event
    (already in radians) to a quaternion. *)
Definition orientationToQuat (alpha beta gamma : R) : Quaternion :=
  quatMultiply (quatFromEulerYXZ (beta, alpha, - gamma)) backFacing.

(** Creates a 4x4 row-major matrix from a quaternion. *)
Definition matFromQuat (q : Quaternion) : Matrix :=
  let '(x, y, z, w) := q in
  let x2 := x + x in let y2 := y + y in let z2 := z + z in
  let xx := x * x2 in let xy := x * y2 in let xz := x * z2 in
  let yy := y * y2 in let yz := y * z2 in let zz := z * z2 in
  let wx := w * x2 in let wy := w * y2 in let wz := w * z2 in
  ((1 - (yy + zz), xy - wz, xz + wy, 0),
   (xy + wz, 1 - (xx + zz), yz - wx, 0),
   (xz - wy, yz + wx, 1 - (xx + yy), 0),
   (0, 0, 0, 1)).

(** The sum of the squared components of a quaternion. *)
Definition quatNormSq (q : Quaternion) : R :=
  let '(x, y, z, w) := q in x * x + y * y + z * z + w * w.

(** The identity rotation. *)
Definition quatIdentity : Quaternion := (0, 0, 0, 1).

(** Componentwise closeness of two vectors, within [eps]. *)
Definition vecNear (eps : R) (a b : Vector) : Prop :=
  let '(aX, aY, aZ) := a in
  let '(bX, bY, bZ) := b in
  Rabs (aX - bX) <= eps /\ Rabs (aY - bY) <= eps /\ Rabs (aZ - bZ) <= eps.

(** The sum of the squared components of a vector. *)
Definition vecNormSq (v : Vector) : R :=
  let '(x, y, z) := v in x * x + y * y + z * z.

(** A row-major 4x4 matrix applied to the point [v], as a caller of
    [mat()] does: the first three rows against [(x, y, z, 1)]. *)
Definition matApplyVec (m : Matrix) (v : Vector) : Vector :=
  let '((r1c1, r1c2, r1c3, r1c4),
        (r2c1, r2c2, r2c3, r2c4),
        (r3c1, r3c2, r3c3, r3c4),
        _) := m in
  let '(x, y, z) := v in
  (r1c1 * x + r1c2 * y + r1c3 * z + r1c4,
   r2c1 * x + r2c2 * y + r2c3 * z + r2c4,
   r3c1 * x + r3c2 * y + r3c3 * z + r3c4).

End Math.

(** ** Motion types and events *)

(** Represents a type of motion the MotionObserver can listen to.  The
    constructors are in the order of [Object.values(MotionType)]. *)
Inductive MotionType : Type :=
  | Orientation
  | AccelerationInclGravity
  | Acceleration.

Inductive NativeEventType : Type :=
  | NativeOrientation
  | NativeOrientationAbsolute
  | NativeMotion.

#[global] Instance MotionType_eq_dec : EqDecision MotionType.
Proof. solve_decision. Defined.

#[global] Instance NativeEventType_eq_dec : EqDecision NativeEventType.
Proof. solve_decision. Defined.

#[global] Instance MotionType_countable : Countable MotionType.
Proof.
  refine (inj_countable'
            (fun t => match t with
                      | Orientation => 0%nat
                      | AccelerationInclGravity => 1%nat
                      | Acceleration => 2%nat
                      end)
            (fun n => match n with
                      | 0%nat => Orientation
                      | 1%nat => AccelerationInclGravity
                      | _ => Acceleration
                      end) _).
  intros []; reflexivity.
Defined.

(** [Object.values(MotionType)]. *)
Definition MotionType_values : list MotionType :=
  [Orientation; AccelerationInclGravity; Acceleration].

Module Events.

Import Math.
Local Open Scope R_scope.

(** The readings of a [DeviceOrientationEvent]; [None] is JavaScript's
    [null].  [d_webkit] is present when ["webkitCompassHeading" in e]. *)
Record DeviceOrientationEvent : Type := {
  d_alpha : option R;
  d_beta : option R;
  d_gamma : option R;
  d_absolute : bool;
  d_webkit : option (option R * option R)
}.

(** A [DeviceMotionEventAcceleration]. *)
Record DeviceAcceleration : Type := {
  a_x : option R;
  a_y : option R;
  a_z : option R
}.

Record DeviceMotionEvent : Type := {
  m_acceleration : option DeviceAcceleration;
  m_accelerationIncludingGravity : option DeviceAcceleration;
  m_interval : R
}.

Record AccelerationDetail : Type := {
  acc : Vector;
  interval : R;
  inaccurate : bool
}.

Record OrientationDetail : Type := {
  alpha : R;
  beta : R;
  gamma : R;
  quat : Quaternion;
  mat : unit -> Matrix;
  absolute : bool;
  webkitCompassHeading : option R;
  webkitCompassAccuracy : option R
}.

(** A [CustomEvent<T>]: its name, its detail and the propagation-stop signal
    [cancelBubble]. *)
Record CustomEvent (T : Type) : Type := {
  name : string;
  detail : T;
  cancelBubble : bool
}.
Arguments name {T} _.
Arguments detail {T} _.
Arguments cancelBubble {T} _.

Definition AccelerationEvent : Type := CustomEvent AccelerationDetail.
Definition OrientationEvent : Type := CustomEvent OrientationDetail.

Inductive MotionObserverEvent : Type :=
  | OfAcceleration (e : AccelerationEvent)
  | OfOrientation (e : OrientationEvent).

Definition eventCancelBubble (e : MotionObserverEvent) : bool :=
  match e with
  | OfAcceleration e => cancelBubble e
  | OfOrientation e => cancelBubble e
  end.

(** Equality of two numbers ([===], [!==]) is decided, not computed. *)
#[global] Instance R_eq_dec : EqDecision R := Req_dec_T.

(** [a ?? d]. *)
Definition nullish (a : option R) (d : R) : R :=
  match a with Some v => v | None => d end.

(** [o?.f ?? d]. *)
Definition reading (o : option DeviceAcceleration) (f : DeviceAcceleration -> option R)
    (d : R) : R :=
  match o with Some a => nullish (f a) d | None => d end.

(** [IS_IOS ? -1 : 1]. *)
Definition axisSign (IS_IOS : bool) : R := if IS_IOS then -1 else 1.

(** Create a custom event with the detail provided; a new event has not
    had its propagation stopped. *)
Definition createEvent {T : Type} (name : string) (detail : T) : CustomEvent T :=
  {| name := name; detail := detail; cancelBubble := false |}.

Definition orientationEventFromDevice (e : DeviceOrientationEvent) : OrientationEvent :=
  let alpha := nullish (d_alpha e) 0 * DEG_TO_RAD in
  let beta := nullish (d_beta e) 0 * DEG_TO_RAD in
  let gamma := nullish (d_gamma e) 0 * DEG_TO_RAD in
  let quat := orientationToQuat alpha beta gamma in
  createEvent "orientation"
    {| alpha := alpha;
       beta := beta;
       gamma := gamma;
       quat := quat;
       mat := fun _ => matFromQuat quat;
       absolute := d_absolute e;
       webkitCompassHeading :=
         match d_webkit e with
         | Some (heading, _) => Some (nullish heading 0 * DEG_TO_RAD)
         | None => None
         end;
       webkitCompassAccuracy :=
         match d_webkit e with
         | Some (_, accuracy) => Some (nullish accuracy 0 * DEG_TO_RAD)
         | None => None
         end |}.

Definition accelerationEventFromDevice (IS_IOS : bool) (e : DeviceMotionEvent)
    : AccelerationEvent :=
  createEvent "acceleration"
    {| acc := (reading (m_acceleration e) a_x 0 * axisSign IS_IOS,
               reading (m_acceleration e) a_y 0 * axisSign IS_IOS,
               reading (m_acceleration e) a_z 0 * axisSign IS_IOS);
       interval := m_interval e;
       inaccurate := false |}.

Definition accelerationInclGravityEventFromDevice (IS_IOS : bool) (e : DeviceMotionEvent)
    : AccelerationEvent :=
  createEvent "accelerationInclGravity"
    {| acc := (reading (m_accelerationIncludingGravity e) a_x 0 * axisSign IS_IOS,
               reading (m_accelerationIncludingGravity e) a_y GRAVITY * axisSign IS_IOS,
               reading (m_accelerationIncludingGravity e) a_z 0 * axisSign IS_IOS);
       interval := m_interval e;
       inaccurate := false |}.

Definition accelerationEventFromAccInclGravityEventAndOrientationQuat
    (e : AccelerationEvent) (q : Quaternion) : AccelerationEvent :=
  createEvent "acceleration"
    {| acc := vecSub (acc (detail e)) (vecApplyQuat (0, - GRAVITY, 0) q);
       interval := interval (detail e);
       inaccurate := true |}.

(** The test of [#handleMotion] on the gravity-exclusive reading:
    [(e.acceleration?.x ?? 0) !== 0 || ... y ... || ... z ...]. *)
Definition accelerationNonZero (e : DeviceMotionEvent) : bool :=
  negb (bool_decide (reading (m_acceleration e) a_x 0 = 0))
  || negb (bool_decide (reading (m_acceleration e) a_y 0 = 0))
  || negb (bool_decide (reading (m_acceleration e) a_z 0 = 0)).

End Events.

(** ** The MotionObserver class *)

Module Observer.

Import Math Events.

(** Maximum number of ms to wait for more precise events before determining
    that they are unsupported. *)
Definition MEASUREMENT_EPSILON : Z := 20.

(** *** JavaScript sets: insertion-ordered, without duplicates *)

Section JsSet.
Context {A : Type} `{EqDecision A}.

(** [s.has(x)]. *)
Definition js_has (x : A) (s : list A) : bool := bool_decide (x ∈ s).

(** [s.add(x)]: an element already present keeps its place. *)
Definition js_add (x : A) (s : list A) : list A :=
  if js_has x s then s else s ++ [x].

(** [s.delete(x)]: whether [x] was present, and the set without it. *)
Definition js_delete (x : A) (s : list A) : bool * list A :=
  (js_has x s, filter (fun y => y ≠ x) s).
End JsSet.

(** *** Listeners and the calls made to them *)

(** A listener is a function object; sets compare them by identity. *)
Definition Listener : Type := nat.

(** The loop of [#triggerCallbacks] a listener is called from. *)
Inductive Phase : Type :=
  | Persistent
  | OneShot.

#[global] Instance Phase_eq_dec : EqDecision Phase.
Proof. solve_decision. Defined.

(** One invocation [cb(event)]. *)
Record Call : Type := {
  call_phase : Phase;
  call_type : MotionType;
  call_listener : Listener;
  call_event : MotionObserverEvent
}.

(** The call [cb(event)] made by the loop [phase] of a pass for [type]. *)
Definition callOf (phase : Phase) (type : MotionType) (event : MotionObserverEvent)
    (cb : Listener) : Call :=
  {| call_phase := phase; call_type := type; call_listener := cb; call_event := event |}.

(** The calls to the listeners [cbs], one after the other. *)
Definition callsTo (phase : Phase) (type : MotionType) (event : MotionObserverEvent)
    (cbs : list Listener) : list Call :=
  map (callOf phase type event) cbs.

(** How a call to a listener ends: the listener returns, and has or has
    not stopped the propagation of the event, or it throws. *)
Inductive Outcome : Type :=
  | Returns (stopped : bool)
  | Throws.

(** What the listeners do: [outcome stops history c] is how the call [c],
    made after the calls of [history], ends. *)
Record Behaviour : Type := {
  outcome : list Call -> Call -> Outcome
}.

(** [stops history c = true] reads: the call [c], made after the calls of
    [history], returns and leaves the event with its propagation stopped. *)
Definition stopSignal (stops : Behaviour) (history : list Call) (c : Call) : bool :=
  match outcome stops history c with
  | Returns stopped => stopped
  | Throws => false
  end.

Coercion stopSignal : Behaviour >-> Funclass.

(** How a loop over a set of listeners is left: it ran to its end, it was
    left through its [return] or [break], or a listener threw. *)
Inductive LoopExit : Type :=
  | Completed
  | Left
  | Threw.

(** The platform constants: [IS_IOS] is
    [isIOSPermissionGated(DeviceOrientationEvent)], [motionGated] is
    [isIOSPermissionGated(DeviceMotionEvent)]. *)
Record Platform : Type := {
  IS_IOS : bool;
  motionGated : bool
}.

(** *** State *)

(** The values of a capability field, [number | boolean | null]: a number is
    the deadline of the measurement window. *)
Inductive Capability : Type :=
  | CapNull
  | CapNumber (deadline : Z)
  | CapBool (b : bool).

(** The private fields of a [MotionObserver], the handlers it has on
    [window] (each handler serves one native event type) and the calls made
    to listeners so far. *)
Record MotionObserver : Type := {
  observed : list MotionType;
  hasAbsoluteOrientation : Capability;
  hasAccelerationWithoutGravity : Capability;
  lastOrientationQuat : option Quaternion;
  callbacks : gmap MotionType (list Listener);
  onceCallbacks : gmap MotionType (list Listener);
  window : list NativeEventType;
  log : list Call
}.

Definition with_observed (v : list MotionType) (s : MotionObserver) : MotionObserver :=
  {| observed := v;
     hasAbsoluteOrientation := hasAbsoluteOrientation s;
     hasAccelerationWithoutGravity := hasAccelerationWithoutGravity s;
     lastOrientationQuat := lastOrientationQuat s;
     callbacks := callbacks s;
     onceCallbacks := onceCallbacks s;
     window := window s;
     log := log s |}.

Definition with_hasAbsoluteOrientation (v : Capability) (s : MotionObserver) : MotionObserver :=
  {| observed := observed s;
     hasAbsoluteOrientation := v;
     hasAccelerationWithoutGravity := hasAccelerationWithoutGravity s;
     lastOrientationQuat := lastOrientationQuat s;
     callbacks := callbacks s;
     onceCallbacks := onceCallbacks s;
     window := window s;
     log := log s |}.

Definition with_hasAccelerationWithoutGravity (v : Capability) (s : MotionObserver)
    : MotionObserver :=
  {| observed := observed s;
     hasAbsoluteOrientation := hasAbsoluteOrientation s;
     hasAccelerationWithoutGravity := v;
     lastOrientationQuat := lastOrientationQuat s;
     callbacks := callbacks s;
     onceCallbacks := onceCallbacks s;
     window := window s;
     log := log s |}.

Definition with_lastOrientationQuat (v : option Quaternion) (s : MotionObserver) : MotionObserver :=
  {| observed := observed s;
     hasAbsoluteOrientation := hasAbsoluteOrientation s;
     hasAccelerationWithoutGravity := hasAccelerationWithoutGravity s;
     lastOrientationQuat := v;
     callbacks := callbacks s;
     onceCallbacks := onceCallbacks s;
     window := window s;
     log := log s |}.

Definition with_callbacks (v : gmap MotionType (list Listener)) (s : MotionObserver)
    : MotionObserver :=
  {| observed := observed s;
     hasAbsoluteOrientation := hasAbsoluteOrientation s;
     hasAccelerationWithoutGravity := hasAccelerationWithoutGravity s;
     lastOrientationQuat := lastOrientationQuat s;
     callbacks := v;
     onceCallbacks := onceCallbacks s;
     window := window s;
     log := log s |}.

Definition with_onceCallbacks (v : gmap MotionType (list Listener)) (s : MotionObserver)
    : MotionObserver :=
  {| observed := observed s;
     hasAbsoluteOrientation := hasAbsoluteOrientation s;
     hasAccelerationWithoutGravity := hasAccelerationWithoutGravity s;
     lastOrientationQuat := lastOrientationQuat s;
     callbacks := callbacks s;
     onceCallbacks := v;
     window := window s;
     log := log s |}.

Definition with_window (v : list NativeEventType) (s : MotionObserver) : MotionObserver :=
  {| observed := observed s;
     hasAbsoluteOrientation := hasAbsoluteOrientation s;
     hasAccelerationWithoutGravity := hasAccelerationWithoutGravity s;
     lastOrientationQuat := lastOrientationQuat s;
     callbacks := callbacks s;
     onceCallbacks := onceCallbacks s;
     window := v;
     log := log s |}.

Definition with_log (v : list Call) (s : MotionObserver) : MotionObserver :=
  {| observed := observed s;
     hasAbsoluteOrientation := hasAbsoluteOrientation s;
     hasAccelerationWithoutGravity := hasAccelerationWithoutGravity s;
     lastOrientationQuat := lastOrientationQuat s;
     callbacks := callbacks s;
     onceCallbacks := onceCallbacks s;
     window := window s;
     log := v |}.

(** [new MotionObserver()]: nothing observed, both capabilities unknown, an
    empty set of listeners under every motion type. *)
Definition new_MotionObserver : MotionObserver :=
  {| observed := [];
     hasAbsoluteOrientation := CapNull;
     hasAccelerationWithoutGravity := CapNull;
     lastOrientationQuat := None;
     callbacks := list_to_map (map (fun name => (name, [])) MotionType_values);
     onceCallbacks := list_to_map (map (fun name => (name, [])) MotionType_values);
     window := [];
     log := [] |}.

(** *** Exceptions *)

Inductive Error : Type :=
  | TypeError          (* a method called on [undefined] *)
  | PermissionRejected (* the promise of [requestPermissions] rejected *)
  | ListenerError      (* what a listener threw *).

Inductive Result (A : Type) : Type :=
  | Ok (a : A)
  | Throw (e : Error).
Arguments Ok {A} _.
Arguments Throw {A} _.

(** A method: its outcome and the state it leaves. *)
Definition M (A : Type) : Type := MotionObserver -> Result A * MotionObserver.

Definition ret {A : Type} (a : A) : M A := fun s => (Ok a, s).

(** [m1; m2]: the second statement runs in the state left by the first,
    unless the first threw. *)
Definition seq {A : Type} (m1 : M unit) (m2 : M A) : M A :=
  fun s =>
    match m1 s with
    | (Ok _, s') => m2 s'
    | (Throw e, s') => (Throw e, s')
    end.

(** [if (c) m]. *)
Definition when (c : bool) (m : M unit) : M unit :=
  if c then m else ret tt.

(** *** Methods *)

(** The outcome of one [requestPermission()] prompt: the promise resolves to
    ["granted"] or ["denied"], or it rejects (no user gesture). *)
Inductive PermissionAnswer : Type :=
  | Granted
  | Denied
  | Rejected.

(** One entry of the [Promise.all] of [requestPermissions]: resolved at once
    where the event class is not permission gated. *)
Definition permissionGranted (gated : bool) (answer : PermissionAnswer) : bool :=
  if gated
  then match answer with Granted => true | _ => false end
  else true.

Section Methods.

Variable platform : Platform.
Variable stops : Behaviour.

(** [MotionObserver.requestPermissions()], given the answers of the two
    prompts. *)
Definition requestPermissions (orientationAnswer motionAnswer : PermissionAnswer) : Result unit :=
  if permissionGranted (IS_IOS platform) orientationAnswer
     && permissionGranted (motionGated platform) motionAnswer
  then Ok tt
  else Throw PermissionRejected.

(** One [for (let cb of set) { cb(event); if (event.cancelBubble) ... }]
    loop: [cancel] is the event's signal when the loop starts; the result
    tells how the loop was left.  A call is logged when it is made; a
    listener that throws ends the loop before the signal is read. *)
Fixpoint runListeners (phase : Phase) (type : MotionType) (event : MotionObserverEvent)
    (cancel : bool) (cbs : list Listener) (lg : list Call) : LoopExit * list Call :=
  match cbs with
  | [] => (Completed, lg)
  | cb :: rest =>
      let c := callOf phase type event cb in
      match outcome stops lg c with
      | Throws => (Threw, lg ++ [c])
      | Returns stopped =>
          if cancel || stopped
          then (Left, lg ++ [c])
          else runListeners phase type event cancel rest (lg ++ [c])
      end
  end.

(** [#triggerCallbacks]: there is no [try] around the loops, so what a
    listener throws leaves the method at once, before the one-shot set is
    cleared. *)
Definition triggerCallbacks (type : MotionType) (event : MotionObserverEvent) : M unit :=
  fun s =>
    match callbacks s !! type with
    | None => (Throw TypeError, s)
    | Some cbs =>
        let '(exit, lg) :=
          runListeners Persistent type event (eventCancelBubble event) cbs (log s) in
        let s := with_log lg s in
        match exit with
        | Threw => (Throw ListenerError, s)
        | Left => (Ok tt, s)
        | Completed =>
            match onceCallbacks s !! type with
            | None => (Throw TypeError, s)
            | Some onceCbs =>
                let '(exit, lg) :=
                  runListeners OneShot type event (eventCancelBubble event) onceCbs (log s) in
                let s := with_log lg s in
                match exit with
                | Threw => (Throw ListenerError, s)
                | _ => (Ok tt, with_onceCallbacks (<[type := []]> (onceCallbacks s)) s)
                end
            end
        end
    end.

(** The last three statements of [#handleOrientation]: build the event,
    keep its quaternion, dispatch it if orientation is observed. *)
Definition dispatchOrientation (e : DeviceOrientationEvent) : M unit :=
  fun s =>
    let event := orientationEventFromDevice e in
    let s := with_lastOrientationQuat (Some (quat (detail event))) s in
    when (js_has Orientation (observed s))
         (triggerCallbacks Orientation (OfOrientation event)) s.

(** [#handleOrientation]; [now] is what [Date.now()] returns.  The event
    that finds the deadline passed, and every event after the capability
    is [false], goes on to the dispatch. *)
Definition handleOrientation (now : Z) (e : DeviceOrientationEvent) : M unit :=
  fun s =>
    match hasAbsoluteOrientation s with
    | CapNull =>
        (Ok tt, with_hasAbsoluteOrientation (CapNumber (now + MEASUREMENT_EPSILON)) s)
    | CapNumber deadline =>
        if (deadline <? now)%Z
        then dispatchOrientation e (with_hasAbsoluteOrientation (CapBool false) s)
        else (Ok tt, s)
    | CapBool true => (Ok tt, s)
    | CapBool false => dispatchOrientation e s
    end.

(** [window.removeEventListener(type, handler)]. *)
Definition removeEventListenerFromWindow (type : NativeEventType) (s : MotionObserver)
    : MotionObserver :=
  with_window (snd (js_delete type (window s))) s.

(** [window.addEventListener(type, handler)]. *)
Definition addEventListenerToWindow (type : NativeEventType) (s : MotionObserver)
    : MotionObserver :=
  with_window (js_add type (window s)) s.

Definition handleOrientationAbsolute (e : DeviceOrientationEvent) : M unit :=
  fun s =>
    let s :=
      match hasAbsoluteOrientation s with
      | CapBool true => s
      | _ => removeEventListenerFromWindow NativeOrientation
               (with_hasAbsoluteOrientation (CapBool true) s)
      end in
    if js_has Orientation (observed s)
    then
      let event := orientationEventFromDevice e in
      let s := with_lastOrientationQuat (Some (quat (detail event))) s in
      triggerCallbacks Orientation (OfOrientation event) s
    else (Ok tt, s).

(** [#handleMotion]: an event that arrives while the capability is not
    yet a boolean only takes part in resolving it. *)
Definition handleMotion (now : Z) (e : DeviceMotionEvent) : M unit :=
  fun s =>
    match hasAccelerationWithoutGravity s with
    | CapNull =>
        if accelerationNonZero e
        then (Ok tt, with_hasAccelerationWithoutGravity (CapBool true) s)
        else
          (Ok tt, with_hasAccelerationWithoutGravity (CapNumber (now + MEASUREMENT_EPSILON)) s)
    | CapNumber deadline =>
        if accelerationNonZero e
        then (Ok tt, with_hasAccelerationWithoutGravity (CapBool true) s)
        else if (deadline <? now)%Z
        then (Ok tt, with_hasAccelerationWithoutGravity (CapBool false) s)
        else (Ok tt, s)
    | CapBool true =>
        seq (when (js_has Acceleration (observed s))
               (triggerCallbacks Acceleration
                  (OfAcceleration (accelerationEventFromDevice (IS_IOS platform) e))))
            (fun s =>
               when (js_has AccelerationInclGravity (observed s))
                 (triggerCallbacks AccelerationInclGravity
                    (OfAcceleration
                       (accelerationInclGravityEventFromDevice (IS_IOS platform) e))) s)
            s
    | CapBool false =>
        let sendAdjustedEvent :=
          js_has Acceleration (observed s) && bool_decide (is_Some (lastOrientationQuat s)) in
        if js_has AccelerationInclGravity (observed s) || sendAdjustedEvent
        then
          let event := accelerationInclGravityEventFromDevice (IS_IOS platform) e in
          seq (when (js_has AccelerationInclGravity (observed s))
                 (triggerCallbacks AccelerationInclGravity (OfAcceleration event)))
              (fun s =>
                 if sendAdjustedEvent
                 then
                   match lastOrientationQuat s with
                   | Some q =>
                       triggerCallbacks Acceleration
                         (OfAcceleration
                            (accelerationEventFromAccInclGravityEventAndOrientationQuat event q)) s
                   | None => (Throw TypeError, s)
                   end
                 else (Ok tt, s))
              s
        else (Ok tt, s)
    end.

Definition removeListeners (s : MotionObserver) : MotionObserver :=
  removeEventListenerFromWindow NativeOrientationAbsolute
    (removeEventListenerFromWindow NativeOrientation
       (removeEventListenerFromWindow NativeMotion s)).

(** The native events the observed motion types need. *)
Definition requiredNativeEvents (obs : list MotionType) : list NativeEventType :=
  fold_left
    (fun required e =>
       match e with
       | Orientation =>
           js_add NativeOrientationAbsolute (js_add NativeOrientation required)
       | AccelerationInclGravity =>
           js_add NativeMotion required
       | Acceleration =>
           js_add NativeOrientation (js_add NativeMotion required)
       end)
    obs [].

Definition addListeners (s : MotionObserver) : MotionObserver :=
  (* Remove any existing listeners before re-adding. *)
  let s := removeListeners s in
  fold_left (fun s e => addEventListenerToWindow e s)
    (requiredNativeEvents (observed s)) s.

(** [[...(filter ?? Object.values(MotionType))]]. *)
Definition filterArr (filter : option (list MotionType)) : list MotionType :=
  match filter with Some f => f | None => MotionType_values end.

(** [observe] up to its [await]: the filter joins the observed set. *)
Definition observeStart (filter : option (list MotionType)) (s : MotionObserver) : MotionObserver :=
  with_observed (fold_left (fun obs e => js_add e obs) (filterArr filter) (observed s)) s.

(** [observe(filter)], with the answers the permission prompts give; what
    follows the [await] runs only when the promise resolves. *)
Definition observe (filter : option (list MotionType))
    (orientationAnswer motionAnswer : PermissionAnswer) : M unit :=
  fun s =>
    let s := observeStart filter s in
    match requestPermissions orientationAnswer motionAnswer with
    | Ok _ => (Ok tt, addListeners s)
    | Throw err => (Throw err, s)
    end.

Definition unobserve (filter : option (list MotionType)) (s : MotionObserver) : MotionObserver :=
  let s :=
    with_observed
      (fold_left (fun obs e => snd (js_delete e obs)) (filterArr filter) (observed s)) s in
  addListeners s.

Definition disconnect (s : MotionObserver) : MotionObserver :=
  let s := with_observed [] s in
  let s := removeListeners s in
  let s := with_callbacks ∅ s in
  let s := with_onceCallbacks ∅ s in
  with_lastOrientationQuat None s.

Definition bind (event : MotionType) (cb : Listener) : M unit :=
  fun s =>
    match callbacks s !! event with
    | Some cbs => (Ok tt, with_callbacks (<[event := js_add cb cbs]> (callbacks s)) s)
    | None => (Throw TypeError, s)
    end.

Definition addEventListener (event : MotionType) (cb : Listener) : M unit :=
  bind event cb.

Definition on (event : MotionType) (cb : Listener) : M unit :=
  bind event cb.

Definition once (event : MotionType) (cb : Listener) : M unit :=
  fun s =>
    match onceCallbacks s !! event with
    | Some cbs => (Ok tt, with_onceCallbacks (<[event := js_add cb cbs]> (onceCallbacks s)) s)
    | None => (Throw TypeError, s)
    end.

Definition unbind (event : MotionType) (cb : Listener) : M bool :=
  fun s =>
    match callbacks s !! event with
    | None => (Throw TypeError, s)
    | Some cbs =>
        let '(found, cbs) := js_delete cb cbs in
        let s := with_callbacks (<[event := cbs]> (callbacks s)) s in
        if found then (Ok true, s)
        else
          match onceCallbacks s !! event with
          | None => (Throw TypeError, s)
          | Some onceCbs =>
              let '(found, onceCbs) := js_delete cb onceCbs in
              (Ok found, with_onceCallbacks (<[event := onceCbs]> (onceCallbacks s)) s)
          end
    end.

Definition removeEventListener (event : MotionType) (cb : Listener) : M bool :=
  unbind event cb.

Definition off (event : MotionType) (cb : Listener) : M bool :=
  unbind event cb.

End Methods.

(** *** Sessions *)

(** A raw event of the platform. *)
Inductive NativeEvent : Type :=
  | DeviceOrientation (e : DeviceOrientationEvent)
  | DeviceOrientationAbsolute (e : DeviceOrientationEvent)
  | DeviceMotion (e : DeviceMotionEvent).

Definition nativeEventType (e : NativeEvent) : NativeEventType :=
  match e with
  | DeviceOrientation _ => NativeOrientation
  | DeviceOrientationAbsolute _ => NativeOrientationAbsolute
  | DeviceMotion _ => NativeMotion
  end.

(** What can happen to an observer, one after the other, on the single
    thread: a raw event is fired on [window] at time [now]; a method is
    called.  [observe] is split at its [await]: [ObserveStart] is the part
    before it, [ObserveResume] the part that runs once permission is there. *)
Inductive Op : Type :=
  | Fire (now : Z) (e : NativeEvent)
  | ObserveStart (filter : option (list MotionType))
  | ObserveResume
  | Unobserve (filter : option (list MotionType))
  | Disconnect
  | Bind (event : MotionType) (cb : Listener)
  | Once (event : MotionType) (cb : Listener)
  | Unbind (event : MotionType) (cb : Listener).

Section Sessions.

Variable platform : Platform.
Variable stops : Behaviour.

(** The platform fires a raw event: the handler runs if it is on
    [window]. *)
Definition fire (now : Z) (e : NativeEvent) : M unit :=
  fun s =>
    if js_has (nativeEventType e) (window s)
    then
      match e with
      | DeviceOrientation e => handleOrientation stops now e s
      | DeviceOrientationAbsolute e => handleOrientationAbsolute stops e s
      | DeviceMotion e => handleMotion platform stops now e s
      end
    else (Ok tt, s).

(** The state an operation leaves, whether it returned or threw. *)
Definition step (s : MotionObserver) (op : Op) : MotionObserver :=
  match op with
  | Fire now e => snd (fire now e s)
  | ObserveStart filter => observeStart filter s
  | ObserveResume => addListeners s
  | Unobserve filter => unobserve filter s
  | Disconnect => disconnect s
  | Bind event cb => snd (bind event cb s)
  | Once event cb => snd (once event cb s)
  | Unbind event cb => snd (unbind event cb s)
  end.

Definition run (ops : list Op) (s : MotionObserver) : MotionObserver :=
  fold_left step ops s.

End Sessions.

(** The calls a method made: the log it leaves, less the log it found. *)
Definition callsSince (before after : MotionObserver) : list Call :=
  drop (length (log before)) (log after).

(** The listeners called, in order. *)
Definition listenersOf (calls : list Call) : list Listener :=
  map call_listener calls.

Definition callsOfPhase (phase : Phase) (calls : list Call) : list Call :=
  filter (fun c => call_phase c = phase) calls.

Definition callsOfType (type : MotionType) (calls : list Call) : list Call :=
  filter (fun c => call_type c = type) calls.

(** Every listener of [cbs], called in turn after the calls of [lg],
    returns without having stopped the propagation of the event. *)
Definition noneStops (stops : Behaviour) (phase : Phase) (type : MotionType)
    (event : MotionObserverEvent) (lg : list Call) (cbs : list Listener) : Prop :=
  forall (i : nat) (cb : Listener),
    cbs !! i = Some cb ->
    outcome stops (lg ++ callsTo phase type event (take i cbs))
      (callOf phase type event cb)
    = Returns false.


(** What a dispatch pass leaves alone: everything but the log and the
    one-shot listeners. *)
Definition untouchedByDispatch (s s' : MotionObserver) : Prop :=
  observed s' = observed s /\
  hasAbsoluteOrientation s' = hasAbsoluteOrientation s /\
  hasAccelerationWithoutGravity s' = hasAccelerationWithoutGravity s /\
  lastOrientationQuat s' = lastOrientationQuat s /\
  callbacks s' = callbacks s /\
  window s' = window s.

(** The readings arrive while the measurement window that the first of
    them opens has not elapsed. *)
Definition withinGraceWindow (readings : list (Z * DeviceOrientationEvent)) : Prop :=
  match readings with
  | [] => True
  | first :: rest =>
      Forall (fun r => (fst r <= fst first + MEASUREMENT_EPSILON)%Z) rest
  end.

(** The raw events of a list of relative-orientation readings, each with
    the time it arrives at. *)
Definition relativeEvents (readings : list (Z * DeviceOrientationEvent)) : list Op :=
  map (fun r => Fire (fst r) (DeviceOrientation (snd r))) readings.

(** Whether an operation hands a reading to one of the two orientation
    handlers. *)
Definition isOrientationSample (op : Op) : bool :=
  match op with
  | Fire _ (DeviceOrientation _) | Fire _ (DeviceOrientationAbsolute _) => true
  | _ => false
  end.

(** Whether an operation is other than the three that edit the observed
    set: the start of [observe], [unobserve] and [disconnect]. *)
Definition keepsObservedSet (op : Op) : bool :=
  match op with
  | ObserveStart _ | Unobserve _ | Disconnect => false
  | _ => true
  end.

(** Whether an operation is an absolute-orientation event. *)
Definition isAbsoluteEvent (op : Op) : bool :=
  match op with
  | Fire _ (DeviceOrientationAbsolute _) => true
  | _ => false
  end.

(** The [switch] of [#addListeners] read as a table: whether observing the
    motion type [t] asks for the raw events of type [e]. *)
Definition requires (t : MotionType) (e : NativeEventType) : bool :=
  match t, e with
  | Orientation, NativeOrientation => true
  | Orientation, NativeOrientationAbsolute => true
  | AccelerationInclGravity, NativeMotion => true
  | Acceleration, NativeMotion => true
  | Acceleration, NativeOrientation => true
  | _, _ => false
  end.

(** The event a call carries is of the kind and name of the motion type the
    call was made for, and a gravity-inclusive event is never marked
    inaccurate. *)
Definition wellTypedCall (c : Call) : Prop :=
  match call_type c, call_event c with
  | Orientation, OfOrientation e => name e = "orientation"
  | Acceleration, OfAcceleration e => name e = "acceleration"
  | AccelerationInclGravity, OfAcceleration e =>
      name e = "accelerationInclGravity" /\ inaccurate (detail e) = false
  | _, _ => False
  end.

(** The state [s'] has the log of [s] followed by calls that all satisfy
    [P]. *)
Definition addsOnly (P : Call -> Prop) (s s' : MotionObserver) : Prop :=
  exists new : list Call, log s' = log s ++ new /\ Forall P new.

(** What a call made while the raw event [raw] is handled in the state [s]
    can be: a call for an observed motion type, with the event that the
    handler of [raw] builds for that type in that state. *)
Definition dispatchable (platform : Platform) (s : MotionObserver) (raw : NativeEvent)
    (c : Call) : Prop :=
  js_has (call_type c) (observed s) = true /\
  match raw, call_type c with
  | DeviceOrientation e, Orientation =>
      hasAbsoluteOrientation s ≠ CapBool true /\
      call_event c = OfOrientation (orientationEventFromDevice e)
  | DeviceOrientationAbsolute e, Orientation =>
      call_event c = OfOrientation (orientationEventFromDevice e)
  | DeviceMotion e, AccelerationInclGravity =>
      (exists b, hasAccelerationWithoutGravity s = CapBool b) /\
      call_event c
      = OfAcceleration (accelerationInclGravityEventFromDevice (IS_IOS platform) e)
  | DeviceMotion e, Acceleration =>
      (hasAccelerationWithoutGravity s = CapBool true /\
       call_event c = OfAcceleration (accelerationEventFromDevice (IS_IOS platform) e))
      \/ (hasAccelerationWithoutGravity s = CapBool false /\
          exists q, lastOrientationQuat s = Some q /\
            call_event c
            = OfAcceleration
                (accelerationEventFromAccInclGravityEventAndOrientationQuat
                   (accelerationInclGravityEventFromDevice (IS_IOS platform) e) q))
  | _, _ => False
  end.

End Observer.

(** ** Platforms, readings and listeners used in the examples *)

Module Fixtures.

Import Math Events Observer.
Local Open Scope R_scope.

(** A platform without permission gating, and one with. *)
Definition android : Platform := {| IS_IOS := false; motionGated := false |}.
Definition iphone : Platform := {| IS_IOS := true; motionGated := true |}.

(** The device lies flat: all three angles are zero. *)
Definition flat : DeviceOrientationEvent :=
  {| d_alpha := Some 0; d_beta := Some 0; d_gamma := Some 0;
     d_absolute := false; d_webkit := None |}.

Definition flatAbsolute : DeviceOrientationEvent :=
  {| d_alpha := Some 0; d_beta := Some 0; d_gamma := Some 0;
     d_absolute := true; d_webkit := None |}.

(** The device is at rest and reports no gravity-exclusive acceleration. *)
Definition atRest : DeviceMotionEvent :=
  {| m_acceleration := Some {| a_x := Some 0; a_y := Some 0; a_z := Some 0 |};
     m_accelerationIncludingGravity :=
       Some {| a_x := Some 0; a_y := Some 0; a_z := Some GRAVITY |};
     m_interval := 16 |}.

(** The device is held upright: its screen faces the user and its top
    edge points to the sky. *)
Definition upright : DeviceOrientationEvent :=
  {| d_alpha := Some 0; d_beta := Some 90; d_gamma := Some 0;
     d_absolute := false; d_webkit := None |}.

(** The upright device at rest: gravity is read along its y axis. *)
Definition uprightAtRest : DeviceMotionEvent :=
  {| m_acceleration := Some {| a_x := Some 0; a_y := Some 0; a_z := Some 0 |};
     m_accelerationIncludingGravity :=
       Some {| a_x := Some 0; a_y := Some GRAVITY; a_z := Some 0 |};
     m_interval := 16 |}.

(** The listener [cb] stops the propagation of every event it is handed;
    no other listener does, and no listener throws. *)
Definition stopsAt (cb : Listener) : Behaviour :=
  {| outcome := fun _ c => Returns (Nat.eqb (call_listener c) cb) |}.

(** The listener [cb] throws whenever it is called; the other listeners
    return without stopping the propagation. *)
Definition throwsAt (cb : Listener) : Behaviour :=
  {| outcome := fun _ c => if Nat.eqb (call_listener c) cb then Throws else Returns false |}.

(** The orientation event of the flat device. *)
Definition flatEvent : MotionObserverEvent :=
  OfOrientation (orientationEventFromDevice flat).

End Fixtures.

(** * Properties *)

Import Math Events Observer Fixtures.

(** ** The math kernel *)

Section MathFacts.

Local Open Scope R_scope.

Lemma quatNormSq_quatMultiply (a b : Quaternion) :
  quatNormSq (quatMultiply a b) = quatNormSq a * quatNormSq b.
Proof.
  destruct a as [[[ax ay] az] aw], b as [[[bx by'] bz] bw].
  unfold quatNormSq, quatMultiply. ring.
Qed.

Lemma quatNormSq_backFacing : quatNormSq backFacing = 1.
Proof.
  unfold quatNormSq, backFacing.
  assert (H : sqrt (1 / 2) * sqrt (1 / 2) = 1 / 2) by (apply sqrt_sqrt; lra).
  replace (- sqrt (1 / 2) * - sqrt (1 / 2)) with (sqrt (1 / 2) * sqrt (1 / 2)) by ring.
  rewrite H. lra.
Qed.

Lemma quatNormSq_quatFromEulerYXZ (v : Vector) :
  quatNormSq (quatFromEulerYXZ v) = 1.
Proof.
  destruct v as [[x y] z].
  unfold quatNormSq, quatFromEulerYXZ.
  pose proof (sin2_cos2 (x / 2)) as Hx.
  pose proof (sin2_cos2 (y / 2)) as Hy.
  pose proof (sin2_cos2 (z / 2)) as Hz.
  unfold Rsqr in Hx, Hy, Hz.
  set (c1 := cos (x / 2)) in *. set (s1 := sin (x / 2)) in *.
  set (c2 := cos (y / 2)) in *. set (s2 := sin (y / 2)) in *.
  set (c3 := cos (z / 2)) in *. set (s3 := sin (z / 2)) in *.
  transitivity ((s1 * s1 + c1 * c1) * (s2 * s2 + c2 * c2) * (s3 * s3 + c3 * c3)).
  - ring.
  - rewrite Hx, Hy, Hz. ring.
Qed.

Lemma vecApplyQuat_identity (v : Vector) : vecApplyQuat v quatIdentity = v.
Proof.
  destruct v as [[x y] z]. unfold vecApplyQuat, quatIdentity.
  repeat f_equal; ring.
Qed.

(** C8: the quaternion of every Euler triple has squared-component sum 1,
    and so has the quaternion of the whole orientation path: the Euler
    conversion multiplied by the fixed back-facing correction, as the
    orientation event of any raw reading carries it. *)
Theorem quaternion_unit_norm :
  (forall v : Vector, quatNormSq (quatFromEulerYXZ v) = 1) /\
  (forall alpha beta gamma : R, quatNormSq (orientationToQuat alpha beta gamma) = 1) /\
  (forall e : DeviceOrientationEvent,
      quatNormSq (quat (detail (orientationEventFromDevice e))) = 1).
Proof.
  assert (H : forall alpha beta gamma : R,
             quatNormSq (orientationToQuat alpha beta gamma) = 1).
  { intros alpha beta gamma. unfold orientationToQuat.
    rewrite quatNormSq_quatMultiply, quatNormSq_quatFromEulerYXZ, quatNormSq_backFacing.
    ring. }
  split; [exact quatNormSq_quatFromEulerYXZ | split; [exact H |]].
  intros e. cbn [orientationEventFromDevice createEvent detail quat]. apply H.
Qed.

End MathFacts.

(** ** The dispatch registry *)

Section DispatchFacts.

Variable stops : Behaviour.

Lemma callsTo_app phase type event (l1 l2 : list Listener) :
  callsTo phase type event (l1 ++ l2)
  = callsTo phase type event l1 ++ callsTo phase type event l2.
Proof. unfold callsTo. apply map_app. Qed.

Lemma stopSignal_true (history : list Call) (c : Call) :
  stops history c = true -> outcome stops history c = Returns true.
Proof. unfold stopSignal. by destruct (outcome stops history c) as [[]|]. Qed.

Lemma noneStops_cons phase type event lg cb (rest : list Listener) :
  noneStops stops phase type event lg (cb :: rest) ->
  outcome stops lg (callOf phase type event cb) = Returns false /\
  noneStops stops phase type event (lg ++ [callOf phase type event cb]) rest.
Proof.
  intros H. split.
  - specialize (H 0%nat cb eq_refl). cbn in H. by rewrite app_nil_r in H.
  - intros i cb' Hi. specialize (H (S i) cb' Hi). cbn in H.
    by rewrite <- app_assoc.
Qed.


(** A loop all of whose listeners return without stopping the event calls
    them all. *)
Lemma runListeners_all phase type event (cbs : list Listener) :
  forall lg,
    noneStops stops phase type event lg cbs ->
    runListeners stops phase type event false cbs lg
    = (Completed, lg ++ callsTo phase type event cbs).
Proof.
  induction cbs as [|cb rest IH]; intros lg Hnone; cbn.
  - by rewrite app_nil_r.
  - apply noneStops_cons in Hnone as [Hcb Hrest].
    rewrite Hcb. cbn. rewrite (IH _ Hrest). by rewrite <- app_assoc.
Qed.

(** A loop is left at the first listener that stops the event. *)
Lemma runListeners_stop phase type event (l1 l2 : list Listener) b :
  forall lg,
    noneStops stops phase type event lg l1 ->
    stops (lg ++ callsTo phase type event l1) (callOf phase type event b) = true ->
    runListeners stops phase type event false (l1 ++ b :: l2) lg
    = (Left, lg ++ callsTo phase type event (l1 ++ [b])).
Proof.
  induction l1 as [|cb rest IH]; intros lg Hnone Hb; cbn.
  - cbn in Hb. rewrite app_nil_r in Hb. by rewrite (stopSignal_true _ _ Hb).
  - apply noneStops_cons in Hnone as [Hcb Hrest].
    rewrite Hcb. cbn. cbn in Hb.
    rewrite (IH (lg ++ [callOf phase type event cb]) Hrest).
    + by rewrite <- app_assoc.
    + by rewrite <- app_assoc.
Qed.

(** A loop is left at the first listener that throws. *)
Lemma runListeners_throw phase type event cancel (l1 l2 : list Listener) b :
  forall lg,
    noneStops stops phase type event lg l1 ->
    outcome stops (lg ++ callsTo phase type event l1) (callOf phase type event b)
    = Throws ->
    cancel = false \/ l1 = [] ->
    runListeners stops phase type event cancel (l1 ++ b :: l2) lg
    = (Threw, lg ++ callsTo phase type event (l1 ++ [b])).
Proof.
  induction l1 as [|cb rest IH]; intros lg Hnone Hb Hcancel; cbn.
  - cbn in Hb. rewrite app_nil_r in Hb. by rewrite Hb.
  - destruct Hcancel as [-> | Hnil]; [|discriminate Hnil].
    apply noneStops_cons in Hnone as [Hcb Hrest].
    rewrite Hcb. cbn. cbn in Hb.
    rewrite (IH (lg ++ [callOf phase type event cb]) Hrest).
    + by rewrite <- app_assoc.
    + by rewrite <- app_assoc.
    + by left.
Qed.


(** Whatever the listeners do, a loop calls a prefix of its set, in
    insertion order; the prefix is empty only if the set is. *)
Lemma runListeners_prefix phase type event cancel (cbs : list Listener) :
  forall lg,
    exists k : nat,
      snd (runListeners stops phase type event cancel cbs lg)
      = lg ++ callsTo phase type event (take k cbs) /\
      (k = 0%nat -> cbs = []).
Proof.
  induction cbs as [|cb rest IH]; intros lg; cbn.
  - exists 0%nat. by rewrite app_nil_r.
  - destruct (outcome stops lg (callOf phase type event cb)) as [stopped|].
    + destruct (cancel || stopped).
      * exists 1%nat. cbn. by rewrite take_0.
      * destruct (IH (lg ++ [callOf phase type event cb])) as (k & Hk & _).
        exists (S k). rewrite Hk. cbn. by rewrite <- app_assoc.
    + exists 1%nat. cbn. by rewrite take_0.
Qed.

Lemma callsSince_app (s s' : MotionObserver) (new : list Call) :
  log s' = log s ++ new -> callsSince s s' = new.
Proof. intros H. unfold callsSince. rewrite H. by rewrite drop_app_length. Qed.

Lemma callsOfPhase_callsTo_same phase type event (cbs : list Listener) :
  callsOfPhase phase (callsTo phase type event cbs) = callsTo phase type event cbs.
Proof.
  unfold callsOfPhase, callsTo. induction cbs as [|cb rest IH]; [done|].
  rewrite map_cons, filter_cons_True by done. by rewrite IH.
Qed.

Lemma callsOfPhase_callsTo_other phase phase' type event (cbs : list Listener) :
  phase' ≠ phase ->
  callsOfPhase phase (callsTo phase' type event cbs) = [].
Proof.
  intros Hne. unfold callsOfPhase, callsTo. induction cbs as [|cb rest IH]; [done|].
  rewrite map_cons, filter_cons_False; [done | by intros ?].
Qed.

Lemma callsOfPhase_app phase (l1 l2 : list Call) :
  callsOfPhase phase (l1 ++ l2) = callsOfPhase phase l1 ++ callsOfPhase phase l2.
Proof. unfold callsOfPhase. apply filter_app. Qed.

(** The log a pass leaves: the calls made before it, then a prefix of
    the persistent listeners, then a prefix of the one-shot ones. *)
Lemma triggerCallbacks_log type event (s : MotionObserver) ps :
  callbacks s !! type = Some ps ->
  exists (k j : nat) (os : list Listener),
    log (snd (triggerCallbacks stops type event s))
    = log s ++ callsTo Persistent type event (take k ps)
            ++ callsTo OneShot type event (take j os) /\
    (k = 0%nat -> ps = []).
Proof.
  intros Hps. unfold triggerCallbacks. rewrite Hps.
  destruct (runListeners_prefix Persistent type event (eventCancelBubble event) ps (log s))
    as (k & Hk & Hk0).
  destruct (runListeners stops Persistent type event (eventCancelBubble event) ps (log s))
    as [exit lg] eqn:Hrun.
  cbn in Hk. subst lg.
  destruct exit.
  - cbn [onceCallbacks with_log].
    destruct (onceCallbacks s !! type) as [os|] eqn:Hos.
    + cbn [log with_log].
      destruct (runListeners_prefix OneShot type event (eventCancelBubble event) os
                  (log s ++ callsTo Persistent type event (take k ps))) as (j & Hj & _).
      destruct (runListeners stops OneShot type event (eventCancelBubble event) os
                  (log s ++ callsTo Persistent type event (take k ps))) as [exit2 lg2].
      cbn in Hj. subst lg2. exists k, j, os. split; [|done].
      destruct exit2; cbn; by rewrite <- app_assoc.
    + exists k, 0%nat, []. cbn. by rewrite app_nil_r.
  - exists k, 0%nat, []. cbn. by rewrite app_nil_r.
  - exists k, 0%nat, []. cbn. by rewrite app_nil_r.
Qed.

(** A pass for a type that has a persistent listener calls the first of
    them first. *)
Lemma triggerCallbacks_first type event (s : MotionObserver) cb (cbs : list Listener) :
  callbacks s !! type = Some (cb :: cbs) ->
  head (callsSince s (snd (triggerCallbacks stops type event s)))
  = Some (callOf Persistent type event cb).
Proof.
  intros Hps.
  destruct (triggerCallbacks_log type event s _ Hps) as (k & j & os & Hlog & Hk0).
  rewrite (callsSince_app _ _ _ Hlog).
  destruct k as [|k]; [by specialize (Hk0 eq_refl)|]. done.
Qed.

(** A pass in which a persistent listener stops the event ends there:
    only the log has changed. *)
Lemma triggerCallbacks_stopped type event (s : MotionObserver) (l1 l2 : list Listener) b :
  eventCancelBubble event = false ->
  callbacks s !! type = Some (l1 ++ b :: l2) ->
  noneStops stops Persistent type event (log s) l1 ->
  stops (log s ++ callsTo Persistent type event l1) (callOf Persistent type event b) = true ->
  triggerCallbacks stops type event s
  = (Ok tt, with_log (log s ++ callsTo Persistent type event (l1 ++ [b])) s).
Proof.
  intros Hfresh Hps Hnone Hb. unfold triggerCallbacks.
  rewrite Hps, Hfresh. by rewrite (runListeners_stop _ _ _ _ _ _ _ Hnone Hb).
Qed.

(** A pass in which a persistent listener throws ends there with what was
    thrown: only the log has changed. *)
Lemma triggerCallbacks_thrown type event (s : MotionObserver) (l1 l2 : list Listener) b :
  eventCancelBubble event = false ->
  callbacks s !! type = Some (l1 ++ b :: l2) ->
  noneStops stops Persistent type event (log s) l1 ->
  outcome stops (log s ++ callsTo Persistent type event l1)
    (callOf Persistent type event b) = Throws ->
  triggerCallbacks stops type event s
  = (Throw ListenerError, with_log (log s ++ callsTo Persistent type event (l1 ++ [b])) s).
Proof.
  intros Hfresh Hps Hnone Hb. unfold triggerCallbacks.
  rewrite Hps, Hfresh.
  by rewrite (runListeners_throw _ _ _ _ _ _ _ _ Hnone Hb (or_introl eq_refl)).
Qed.

(** A pass in which every persistent listener returns without stopping the
    event calls them all, then a prefix of the one-shot listeners. *)
Lemma triggerCallbacks_completed_log type event (s : MotionObserver) (ps : list Listener) :
  eventCancelBubble event = false ->
  callbacks s !! type = Some ps ->
  noneStops stops Persistent type event (log s) ps ->
  exists (j : nat) (os : list Listener),
    log (snd (triggerCallbacks stops type event s))
    = log s ++ callsTo Persistent type event ps ++ callsTo OneShot type event (take j os).
Proof.
  intros Hfresh Hps Hnone. unfold triggerCallbacks.
  rewrite Hps, Hfresh. rewrite (runListeners_all _ _ _ _ _ Hnone).
  cbn [onceCallbacks with_log log].
  destruct (onceCallbacks s !! type) as [os|].
  - destruct (runListeners_prefix OneShot type event false os
                (log s ++ callsTo Persistent type event ps)) as (j & Hj & _).
    destruct (runListeners stops OneShot type event false os
                (log s ++ callsTo Persistent type event ps)) as [exit2 lg2].
    cbn in Hj. subst lg2. exists j, os. destruct exit2; cbn; by rewrite <- app_assoc.
  - exists 0%nat, []. cbn. by rewrite app_nil_r.
Qed.


(** The same pass, when every one-shot listener too returns without
    stopping the event: every listener is called, the persistent ones
    first. *)
Lemma triggerCallbacks_all type event (s : MotionObserver) (ps os : list Listener) :
  eventCancelBubble event = false ->
  callbacks s !! type = Some ps ->
  onceCallbacks s !! type = Some os ->
  noneStops stops Persistent type event (log s) ps ->
  noneStops stops OneShot type event (log s ++ callsTo Persistent type event ps) os ->
  triggerCallbacks stops type event s
  = (Ok tt,
     with_onceCallbacks (<[type := []]> (onceCallbacks s))
       (with_log (log s ++ callsTo Persistent type event ps
                        ++ callsTo OneShot type event os) s)).
Proof.
  intros Hfresh Hps Hos Hnone Hnone1. unfold triggerCallbacks.
  rewrite Hps, Hfresh. rewrite (runListeners_all _ _ _ _ _ Hnone).
  cbn [onceCallbacks with_log log]. rewrite Hos.
  rewrite (runListeners_all _ _ _ _ _ Hnone1). by rewrite <- app_assoc.
Qed.


End DispatchFacts.

Section RegistryFacts.

Variable platform : Platform.
Variable stops : Behaviour.

Lemma new_callbacks (type : MotionType) :
  callbacks new_MotionObserver !! type = Some [].
Proof. by destruct type. Qed.


Lemma js_add_new {A : Type} `{EqDecision A} (x : A) (s : list A) :
  x ∉ s -> js_add x s = s ++ [x].
Proof. intros Hx. unfold js_add, js_has. by rewrite bool_decide_eq_false_2. Qed.

Lemma bind_found type cb (s : MotionObserver) cbs :
  callbacks s !! type = Some cbs ->
  bind type cb s = (Ok tt, with_callbacks (<[type := js_add cb cbs]> (callbacks s)) s).
Proof. intros H. unfold bind. by rewrite H. Qed.

Lemma bind_callbacks type cb (s : MotionObserver) cbs :
  callbacks s !! type = Some cbs ->
  callbacks (snd (bind type cb s)) !! type = Some (js_add cb cbs) /\
  log (snd (bind type cb s)) = log s.
Proof.
  intros H. rewrite (bind_found _ _ _ _ H). cbn [snd callbacks with_callbacks log].
  by rewrite lookup_insert_eq.
Qed.


Lemma run_app (ops1 ops2 : list Op) (s : MotionObserver) :
  run platform stops (ops1 ++ ops2) s
  = run platform stops ops2 (run platform stops ops1 s).
Proof. unfold run. apply fold_left_app. Qed.

(** Registering one-shot listeners touches neither the persistent
    listeners nor the log. *)
Lemma run_once_frame type (os : list Listener) :
  forall s,
    callbacks (run platform stops (map (Once type) os) s) = callbacks s /\
    log (run platform stops (map (Once type) os) s) = log s.
Proof.
  induction os as [|cb rest IH]; intros s; [done|].
  cbn. destruct (IH (snd (once type cb s))) as [Hc Hl].
  unfold run in Hc, Hl. rewrite Hc, Hl.
  unfold once. by destruct (onceCallbacks s !! type).
Qed.

End RegistryFacts.

Section DispatchClaims.

Variable platform : Platform.

(** C1: a pass calls the persistent listeners of its type in insertion
    order: the persistent calls it makes are always those of a prefix of
    the set, and of the whole set when every persistent listener returns
    without stopping the propagation.  When a called persistent listener
    stops the propagation, the pass ends with it: the listeners after it
    are not called, no one-shot listener is, and nothing but the log has
    changed.  A persistent listener that throws ends the pass in the same
    way, with what it threw.  With A, B, C registered in that order, A returning without
    stopping the event and B stopping it, a pass calls A, then B, nothing
    else, and leaves the one-shot listeners as they were. *)
Theorem dispatch_order_and_propagation_stop :
  (forall (stops : Behaviour) type event (s : MotionObserver) (ps : list Listener),
      callbacks s !! type = Some ps ->
      exists k : nat,
        callsOfPhase Persistent
          (callsSince s (snd (triggerCallbacks stops type event s)))
        = callsTo Persistent type event (take k ps)) /\
  (forall (stops : Behaviour) type event (s : MotionObserver) (ps : list Listener),
      eventCancelBubble event = false ->
      callbacks s !! type = Some ps ->
      noneStops stops Persistent type event (log s) ps ->
      callsOfPhase Persistent
        (callsSince s (snd (triggerCallbacks stops type event s)))
      = callsTo Persistent type event ps) /\
  (forall (stops : Behaviour) type event (s : MotionObserver) (l1 l2 : list Listener) b,
      eventCancelBubble event = false ->
      callbacks s !! type = Some (l1 ++ b :: l2) ->
      noneStops stops Persistent type event (log s) l1 ->
      stops (log s ++ callsTo Persistent type event l1) (callOf Persistent type event b)
      = true ->
      triggerCallbacks stops type event s
      = (Ok tt, with_log (log s ++ callsTo Persistent type event (l1 ++ [b])) s)) /\
  (forall (stops : Behaviour) type event (s : MotionObserver) (l1 l2 : list Listener) b,
      eventCancelBubble event = false ->
      callbacks s !! type = Some (l1 ++ b :: l2) ->
      noneStops stops Persistent type event (log s) l1 ->
      outcome stops (log s ++ callsTo Persistent type event l1)
        (callOf Persistent type event b) = Throws ->
      triggerCallbacks stops type event s
      = (Throw ListenerError,
         with_log (log s ++ callsTo Persistent type event (l1 ++ [b])) s)) /\
  (forall (stops : Behaviour) type event (A B C : Listener) (os : list Listener),
      A ≠ B -> A ≠ C -> B ≠ C ->
      eventCancelBubble event = false ->
      outcome stops [] (callOf Persistent type event A) = Returns false ->
      stops [callOf Persistent type event A] (callOf Persistent type event B) = true ->
      let s := run platform stops
                 ([Bind type A; Bind type B; Bind type C] ++ map (Once type) os)
                 new_MotionObserver in
      let s' := snd (triggerCallbacks stops type event s) in
      fst (triggerCallbacks stops type event s) = Ok tt /\
      log s' = [callOf Persistent type event A; callOf Persistent type event B] /\
      onceCallbacks s' = onceCallbacks s).
Proof.
  split; [|split; [|split; [|split]]].
  - intros stops type event s ps Hps.
    destruct (triggerCallbacks_log stops type event s ps Hps) as (k & j & os & Hlog & _).
    exists k. rewrite (callsSince_app _ _ _ Hlog).
    rewrite callsOfPhase_app, callsOfPhase_callsTo_same.
    rewrite callsOfPhase_callsTo_other by done. by rewrite app_nil_r.
  - intros stops type event s ps Hfresh Hps Hnone.
    destruct (triggerCallbacks_completed_log stops type event s ps Hfresh Hps Hnone)
      as (j & os & Hlog).
    rewrite (callsSince_app _ _ _ Hlog).
    rewrite callsOfPhase_app, callsOfPhase_callsTo_same.
    rewrite callsOfPhase_callsTo_other by done. by rewrite app_nil_r.
  - intros stops type event s l1 l2 b. apply triggerCallbacks_stopped.
  - intros stops type event s l1 l2 b. apply triggerCallbacks_thrown.
  - intros stops type event A B C os HAB HAC HBC Hfresh HA HB s s'.
    assert (Hps : callbacks s !! type = Some ([A] ++ B :: [C]) /\ log s = []).
    { subst s. rewrite run_app.
      destruct (run_once_frame platform stops type os
                  (run platform stops [Bind type A; Bind type B; Bind type C]
                     new_MotionObserver)) as [-> ->].
      cbn [run fold_left step].
      destruct (bind_callbacks type A _ _ (new_callbacks type)) as [HcA HlA].
      destruct (bind_callbacks type B _ _ HcA) as [HcB HlB].
      destruct (bind_callbacks type C _ _ HcB) as [HcC HlC].
      rewrite HcC, HlC, HlB, HlA. split; [|done]. f_equal.
      rewrite (js_add_new A []) by apply not_elem_of_nil. cbn [app].
      rewrite (js_add_new B [A]) by (by apply not_elem_of_cons; split; [|apply not_elem_of_nil]).
      cbn [app].
      rewrite (js_add_new C [A; B]); [done|].
      apply not_elem_of_cons; split; [done|].
      by apply not_elem_of_cons; split; [|apply not_elem_of_nil]. }
    destruct Hps as [Hps Hlog].
    assert (Hnone : noneStops stops Persistent type event (log s) [A]).
    { intros i cb Hi. destruct i as [|i]; [|done].
      cbn in Hi. injection Hi as <-. rewrite Hlog. exact HA. }
    assert (HB' : stops (log s ++ callsTo Persistent type event [A])
                    (callOf Persistent type event B) = true).
    { rewrite Hlog. exact HB. }
    subst s'.
    rewrite (triggerCallbacks_stopped stops type event s [A] [C] B Hfresh Hps Hnone HB').
    cbn [fst snd log with_log onceCallbacks]. rewrite Hlog. done.
Qed.

End DispatchClaims.

(** The scenario of C1 with listeners 1, 2, 3 and a one-shot listener 4. *)
Lemma dispatch_order_and_propagation_stop_witness :
  let s := run android (stopsAt 2)
             ([Bind Orientation 1%nat; Bind Orientation 2%nat; Bind Orientation 3%nat]
                ++ map (Once Orientation) [4%nat])
             new_MotionObserver in
  let s' := snd (triggerCallbacks (stopsAt 2) Orientation flatEvent s) in
  fst (triggerCallbacks (stopsAt 2) Orientation flatEvent s) = Ok tt /\
  log s' = [callOf Persistent Orientation flatEvent 1%nat;
            callOf Persistent Orientation flatEvent 2%nat] /\
  onceCallbacks s' = onceCallbacks s.
Proof.
  apply (proj2 (proj2 (proj2 (proj2 (dispatch_order_and_propagation_stop android))))
           (stopsAt 2) Orientation flatEvent 1%nat 2%nat 3%nat [4%nat]);
    try reflexivity; intros H; discriminate H.
Defined.


(** A one-shot listener that throws is not discarded either: listener 2,
    registered once, throws in the first pass, is still registered after
    it, and is called again by the second pass. *)
Lemma once_listener_called_again_after_throw :
  let s := run android (throwsAt 2) [Once Orientation 2%nat] new_MotionObserver in
  let s1 := snd (triggerCallbacks (throwsAt 2) Orientation flatEvent s) in
  let s2 := snd (triggerCallbacks (throwsAt 2) Orientation flatEvent s1) in
  fst (triggerCallbacks (throwsAt 2) Orientation flatEvent s) = Throw ListenerError /\
  onceCallbacks s1 !! Orientation = Some [2%nat] /\
  listenersOf (log s2) = [2%nat; 2%nat].
Proof. repeat split; reflexivity. Qed.

Section OnceClaims.

Variable platform : Platform.


End OnceClaims.


(** ** What each method leaves alone *)

Section FrameFacts.

Variable platform : Platform.
Variable stops : Behaviour.

(** A pass changes the log and the one-shot listeners, nothing else. *)
Lemma triggerCallbacks_frame type event (s : MotionObserver) :
  let s' := snd (triggerCallbacks stops type event s) in
  observed s' = observed s /\
  hasAbsoluteOrientation s' = hasAbsoluteOrientation s /\
  hasAccelerationWithoutGravity s' = hasAccelerationWithoutGravity s /\
  lastOrientationQuat s' = lastOrientationQuat s /\
  callbacks s' = callbacks s /\
  window s' = window s.
Proof.
  unfold triggerCallbacks.
  destruct (callbacks s !! type) as [ps|]; [|done].
  destruct (runListeners stops Persistent type event _ ps (log s)) as [[] lg];
    [|done|done].
  cbn [onceCallbacks with_log].
  destruct (onceCallbacks s !! type) as [os|]; [|done].
  by destruct (runListeners stops OneShot type event _ os _) as [[] lg2].
Qed.

(** The calls of a pass are calls for its type. *)
Lemma triggerCallbacks_calls type event (s : MotionObserver) :
  exists new : list Call,
    log (snd (triggerCallbacks stops type event s)) = log s ++ new /\
    Forall (fun c => call_type c = type) new.
Proof.
  destruct (callbacks s !! type) as [ps|] eqn:Hps.
  - destruct (triggerCallbacks_log stops type event s ps Hps) as (k & j & os & -> & _).
    eexists; split; [done|].
    apply Forall_app; split; apply Forall_forall; intros c Hc;
      apply list_elem_of_In, in_map_iff in Hc as (cb & <- & _); done.
  - exists []. unfold triggerCallbacks. rewrite Hps. cbn. by rewrite app_nil_r.
Qed.

Lemma addListeners_fold (required : list NativeEventType) :
  forall s : MotionObserver,
    let s' := fold_left (fun s e => addEventListenerToWindow e s) required s in
    observed s' = observed s /\
    hasAbsoluteOrientation s' = hasAbsoluteOrientation s /\
    hasAccelerationWithoutGravity s' = hasAccelerationWithoutGravity s /\
    lastOrientationQuat s' = lastOrientationQuat s /\
    callbacks s' = callbacks s /\
    onceCallbacks s' = onceCallbacks s /\
    log s' = log s.
Proof.
  induction required as [|e rest IH]; intros s; [done|].
  cbn [fold_left].
  destruct (IH (addEventListenerToWindow e s)) as (-> & -> & -> & -> & -> & -> & ->).
  done.
Qed.

(** Wiring changes the handlers on [window], nothing else. *)
Lemma addListeners_frame (s : MotionObserver) :
  let s' := addListeners s in
  observed s' = observed s /\
  hasAbsoluteOrientation s' = hasAbsoluteOrientation s /\
  hasAccelerationWithoutGravity s' = hasAccelerationWithoutGravity s /\
  lastOrientationQuat s' = lastOrientationQuat s /\
  callbacks s' = callbacks s /\
  onceCallbacks s' = onceCallbacks s /\
  log s' = log s.
Proof.
  unfold addListeners.
  destruct (addListeners_fold (requiredNativeEvents (observed (removeListeners s)))
              (removeListeners s)) as (-> & -> & -> & -> & -> & -> & ->).
  done.
Qed.

Lemma handleOrientation_frame now e (s : MotionObserver) :
  let s' := snd (handleOrientation stops now e s) in
  observed s' = observed s /\
  hasAccelerationWithoutGravity s' = hasAccelerationWithoutGravity s /\
  callbacks s' = callbacks s /\
  window s' = window s.
Proof.
  unfold handleOrientation, dispatchOrientation, when.
  destruct (hasAbsoluteOrientation s) as [|deadline|[]]; try done.
  - destruct (deadline <? now)%Z; [|done].
    cbn [observed with_lastOrientationQuat with_hasAbsoluteOrientation].
    destruct (js_has Orientation (observed s)); [|done].
    destruct (triggerCallbacks_frame Orientation
                (OfOrientation (orientationEventFromDevice e))
                (with_lastOrientationQuat
                   (Some (quat (detail (orientationEventFromDevice e))))
                   (with_hasAbsoluteOrientation (CapBool false) s)))
      as (-> & _ & -> & _ & -> & ->).
    done.
  - cbn [observed with_lastOrientationQuat].
    destruct (js_has Orientation (observed s)); [|done].
    destruct (triggerCallbacks_frame Orientation
                (OfOrientation (orientationEventFromDevice e))
                (with_lastOrientationQuat
                   (Some (quat (detail (orientationEventFromDevice e)))) s))
      as (-> & _ & -> & _ & -> & ->).
    done.
Qed.

Lemma handleOrientationAbsolute_frame e (s : MotionObserver) :
  let s' := snd (handleOrientationAbsolute stops e s) in
  observed s' = observed s /\
  hasAbsoluteOrientation s' = CapBool true /\
  hasAccelerationWithoutGravity s' = hasAccelerationWithoutGravity s /\
  callbacks s' = callbacks s.
Proof.
  unfold handleOrientationAbsolute.
  set (s1 := match hasAbsoluteOrientation s with
             | CapBool true => s
             | _ => removeEventListenerFromWindow NativeOrientation
                      (with_hasAbsoluteOrientation (CapBool true) s)
             end).
  assert (H1 : observed s1 = observed s /\
               hasAbsoluteOrientation s1 = CapBool true /\
               hasAccelerationWithoutGravity s1 = hasAccelerationWithoutGravity s /\
               callbacks s1 = callbacks s).
  { subst s1. unfold removeEventListenerFromWindow.
    by destruct (hasAbsoluteOrientation s) as [|deadline|[]] eqn:Habs. }
  destruct H1 as (Ho & Ha & Hg & Hc).
  destruct (js_has Orientation (observed s1)); [|by cbn].
  destruct (triggerCallbacks_frame Orientation
              (OfOrientation (orientationEventFromDevice e))
              (with_lastOrientationQuat
                 (Some (quat (detail (orientationEventFromDevice e)))) s1))
    as (-> & -> & -> & _ & -> & _).
  by cbn.
Qed.

Lemma untouchedByDispatch_trigger type event (s : MotionObserver) :
  untouchedByDispatch s (snd (triggerCallbacks stops type event s)).
Proof. apply triggerCallbacks_frame. Qed.

Lemma untouchedByDispatch_refl (s : MotionObserver) : untouchedByDispatch s s.
Proof. by unfold untouchedByDispatch. Qed.

Lemma untouchedByDispatch_trans (s1 s2 s3 : MotionObserver) :
  untouchedByDispatch s1 s2 -> untouchedByDispatch s2 s3 -> untouchedByDispatch s1 s3.
Proof.
  unfold untouchedByDispatch.
  intros (-> & -> & -> & -> & -> & ->) (-> & -> & -> & -> & -> & ->). done.
Qed.

Lemma untouchedByDispatch_when (c : bool) type event (s : MotionObserver) :
  untouchedByDispatch s (snd (when c (triggerCallbacks stops type event) s)).
Proof.
  destruct c; [apply untouchedByDispatch_trigger | apply untouchedByDispatch_refl].
Qed.

Lemma untouchedByDispatch_seq (m1 m2 : M unit) (s : MotionObserver) :
  untouchedByDispatch s (snd (m1 s)) ->
  (forall s', untouchedByDispatch s' (snd (m2 s'))) ->
  untouchedByDispatch s (snd (seq m1 m2 s)).
Proof.
  intros H1 H2. unfold seq. destruct (m1 s) as [[[]|err] s1]; cbn in *.
  - eapply untouchedByDispatch_trans; [exact H1 | apply H2].
  - exact H1.
Qed.

(** While the gravity-exclusion capability is a boolean, a motion event
    changes nothing but the log and the one-shot listeners. *)
Lemma handleMotion_resolved now e (s : MotionObserver) b :
  hasAccelerationWithoutGravity s = CapBool b ->
  untouchedByDispatch s (snd (handleMotion platform stops now e s)).
Proof.
  intros Hb. unfold handleMotion. rewrite Hb. destruct b.
  - apply untouchedByDispatch_seq; [apply untouchedByDispatch_when|].
    intros s'. apply untouchedByDispatch_when.
  - destruct (js_has AccelerationInclGravity (observed s)
              || js_has Acceleration (observed s)
                 && bool_decide (is_Some (lastOrientationQuat s)));
      [|apply untouchedByDispatch_refl].
    apply untouchedByDispatch_seq; [apply untouchedByDispatch_when|].
    intros s'.
    destruct (js_has Acceleration (observed s)
              && bool_decide (is_Some (lastOrientationQuat s)));
      [|apply untouchedByDispatch_refl].
    destruct (lastOrientationQuat s');
      [apply untouchedByDispatch_trigger | apply untouchedByDispatch_refl].
Qed.

(** A motion event leaves alone all but the gravity-exclusion capability,
    the log and the one-shot listeners. *)
Lemma handleMotion_frame now e (s : MotionObserver) :
  let s' := snd (handleMotion platform stops now e s) in
  observed s' = observed s /\
  hasAbsoluteOrientation s' = hasAbsoluteOrientation s /\
  lastOrientationQuat s' = lastOrientationQuat s /\
  callbacks s' = callbacks s /\
  window s' = window s.
Proof.
  destruct (hasAccelerationWithoutGravity s) as [|deadline|b] eqn:Hg.
  - unfold handleMotion. rewrite Hg. by destruct (accelerationNonZero e).
  - unfold handleMotion. rewrite Hg.
    by destruct (accelerationNonZero e), (deadline <? now)%Z.
  - destruct (handleMotion_resolved now e s b Hg) as (? & ? & ? & ? & ? & ?). done.
Qed.

End FrameFacts.

(** ** The capability detector *)

Section CapabilityFacts.

Variable platform : Platform.
Variable stops : Behaviour.

(** The absolute-orientation capability after a relative event. *)
Lemma handleOrientation_capability now e (s : MotionObserver) :
  hasAbsoluteOrientation (snd (handleOrientation stops now e s))
  = match hasAbsoluteOrientation s with
    | CapNull => CapNumber (now + MEASUREMENT_EPSILON)
    | CapNumber deadline =>
        if (deadline <? now)%Z then CapBool false else CapNumber deadline
    | CapBool b => CapBool b
    end.
Proof.
  unfold handleOrientation, dispatchOrientation.
  destruct (hasAbsoluteOrientation s) as [|deadline|[]] eqn:Habs; try done.
  - destruct (deadline <? now)%Z; [|done].
    destruct (untouchedByDispatch_when stops
                (js_has Orientation
                   (observed (with_lastOrientationQuat
                      (Some (quat (detail (orientationEventFromDevice e))))
                      (with_hasAbsoluteOrientation (CapBool false) s))))
                Orientation (OfOrientation (orientationEventFromDevice e))
                (with_lastOrientationQuat
                   (Some (quat (detail (orientationEventFromDevice e))))
                   (with_hasAbsoluteOrientation (CapBool false) s)))
      as (_ & -> & _).
    done.
  - destruct (untouchedByDispatch_when stops
                (js_has Orientation
                   (observed (with_lastOrientationQuat
                      (Some (quat (detail (orientationEventFromDevice e)))) s)))
                Orientation (OfOrientation (orientationEventFromDevice e))
                (with_lastOrientationQuat
                   (Some (quat (detail (orientationEventFromDevice e)))) s))
      as (_ & -> & _).
    done.
Qed.

(** The methods of the public interface do not touch the capabilities or
    the log; the last orientation they keep or, for [disconnect], clear. *)
Lemma step_method_frame (op : Op) (s : MotionObserver) :
  (forall now e, op ≠ Fire now e) ->
  let s' := step platform stops s op in
  hasAbsoluteOrientation s' = hasAbsoluteOrientation s /\
  hasAccelerationWithoutGravity s' = hasAccelerationWithoutGravity s /\
  log s' = log s /\
  (lastOrientationQuat s' = lastOrientationQuat s \/ lastOrientationQuat s' = None).
Proof.
  intros Hop. cbv zeta.
  destruct op as [now e|filter| |filter| |type cb|type cb|type cb]; cbn [step].
  - by destruct (Hop now e).
  - cbn. auto.
  - destruct (addListeners_frame s) as (_ & -> & -> & -> & _ & _ & ->). auto.
  - unfold unobserve.
    destruct (addListeners_frame
                (with_observed
                   (fold_left (fun obs e => snd (js_delete e obs)) (filterArr filter)
                      (observed s)) s)) as (_ & -> & -> & -> & _ & _ & ->).
    auto.
  - cbn. auto.
  - unfold bind. destruct (callbacks s !! type); cbn; auto.
  - unfold once. destruct (onceCallbacks s !! type); cbn; auto.
  - unfold unbind. destruct (callbacks s !! type) as [cbs|]; [|cbn; auto].
    destruct (js_delete cb cbs) as [[] cbs']; [cbn; auto|].
    cbn [onceCallbacks with_callbacks].
    destruct (onceCallbacks s !! type) as [os|]; [|cbn; auto].
    destruct (js_delete cb os) as [found os']. cbn. auto.
Qed.

(** A resolved gravity-exclusion capability is kept by every operation. *)
Lemma step_keeps_gravity_exclusion (op : Op) (s : MotionObserver) b :
  hasAccelerationWithoutGravity s = CapBool b ->
  hasAccelerationWithoutGravity (step platform stops s op) = CapBool b.
Proof.
  intros Hb. destruct op as [now [e|e|e]| | | | | | |].
  4-10: match goal with
        | |- context [step _ _ _ ?op] =>
            destruct (step_method_frame op s ltac:(done)) as (_ & -> & _); exact Hb
        end.
  all: cbn [step]; unfold fire; cbn [nativeEventType];
    destruct (js_has _ (window s)); [|exact Hb].
  - by destruct (handleOrientation_frame stops now e s) as (_ & -> & _).
  - by destruct (handleOrientationAbsolute_frame stops e s) as (_ & _ & -> & _).
  - by destruct (handleMotion_resolved platform stops now e s b Hb) as (_ & _ & -> & _).
Qed.

(** The absolute-orientation capability after one operation. *)
Lemma step_absolute_capability (op : Op) (s : MotionObserver) b :
  hasAbsoluteOrientation s = CapBool b ->
  hasAbsoluteOrientation (step platform stops s op)
  = CapBool (b || (isAbsoluteEvent op && js_has NativeOrientationAbsolute (window s))).
Proof.
  intros Hb. destruct op as [now [e|e|e]| | | | | | |].
  4-10: match goal with
        | |- context [step _ _ _ ?op] =>
            destruct (step_method_frame op s ltac:(done)) as (-> & _);
            rewrite Hb; cbn; by rewrite orb_false_r
        end.
  all: cbn [step isAbsoluteEvent]; unfold fire; cbn [nativeEventType].
  - rewrite orb_false_r. destruct (js_has _ (window s)); [|exact Hb].
    rewrite handleOrientation_capability. by rewrite Hb.
  - destruct (js_has _ (window s)); cbn.
    + destruct (handleOrientationAbsolute_frame stops e s) as (_ & -> & _).
      by rewrite orb_true_r.
    + by rewrite orb_false_r.
  - rewrite orb_false_r. destruct (js_has _ (window s)); [|exact Hb].
    by destruct (handleMotion_frame platform stops now e s) as (_ & -> & _).
Qed.

End CapabilityFacts.

Section CapabilityClaims.

Variable platform : Platform.
Variable stops : Behaviour.

Lemma run_absolute_capability (ops : list Op) :
  forall (s : MotionObserver) b,
    hasAbsoluteOrientation s = CapBool b ->
    exists b' : bool,
      hasAbsoluteOrientation (run platform stops ops s) = CapBool b' /\
      (b = true -> b' = true) /\
      (forallb (fun op => negb (isAbsoluteEvent op)) ops = true -> b' = b).
Proof.
  induction ops as [|op rest IH]; intros s b Hb.
  - exists b. by cbn.
  - cbn [run fold_left].
    pose proof (step_absolute_capability platform stops op s b Hb) as Hstep.
    destruct (IH _ _ Hstep) as (b' & Hrun & Htrue & Hsame).
    exists b'. split; [exact Hrun|]. split.
    + intros ->. by apply Htrue.
    + cbn [forallb]. intros [Hop Hrest]%andb_true_iff.
      rewrite (Hsame Hrest). apply negb_true_iff in Hop. rewrite Hop.
      by rewrite orb_false_r.
Qed.

(** C2, amended: the gravity-exclusion capability, once resolved, is never
    changed by any operation on the observer; the absolute-orientation
    capability, once true, is never changed; once false it never goes
    back to unknown, and it stays false as long as no absolute-orientation
    event arrives: such an event turns it to true. *)
Theorem resolved_capability_stable (ops : list Op) (s : MotionObserver) :
  (forall b : bool,
      hasAccelerationWithoutGravity s = CapBool b ->
      hasAccelerationWithoutGravity (run platform stops ops s) = CapBool b) /\
  (hasAbsoluteOrientation s = CapBool true ->
   hasAbsoluteOrientation (run platform stops ops s) = CapBool true) /\
  (hasAbsoluteOrientation s = CapBool false ->
   exists b : bool, hasAbsoluteOrientation (run platform stops ops s) = CapBool b) /\
  (hasAbsoluteOrientation s = CapBool false ->
   forallb (fun op => negb (isAbsoluteEvent op)) ops = true ->
   hasAbsoluteOrientation (run platform stops ops s) = CapBool false) /\
  (forall e : DeviceOrientationEvent,
      hasAbsoluteOrientation s = CapBool false ->
      hasAbsoluteOrientation (snd (handleOrientationAbsolute stops e s)) = CapBool true).
Proof.
  split; [|split; [|split; [|split]]].
  - revert s. induction ops as [|op rest IH]; intros s b Hb; [exact Hb|].
    cbn [run fold_left]. apply IH. by apply step_keeps_gravity_exclusion.
  - intros Hb. destruct (run_absolute_capability ops s true Hb) as (b' & -> & Htrue & _).
    by rewrite Htrue.
  - intros Hb. destruct (run_absolute_capability ops s false Hb) as (b' & -> & _).
    by exists b'.
  - intros Hb Hops.
    destruct (run_absolute_capability ops s false Hb) as (b' & -> & _ & Hsame).
    by rewrite Hsame.
  - intros e _. by destruct (handleOrientationAbsolute_frame stops e s) as (_ & -> & _).
Qed.

End CapabilityClaims.

(** C2, as stated, fails: the capability is resolved to false by the second
    relative event, and the absolute event that arrives after it moves it
    to true. *)
Lemma absolute_capability_leaves_false :
  let ops := [ObserveStart (Some [Orientation]); ObserveResume;
              Fire 0 (DeviceOrientation flat);
              Fire 21 (DeviceOrientation flat);
              Fire 22 (DeviceOrientationAbsolute flatAbsolute)] in
  hasAbsoluteOrientation (run android (stopsAt 0) (take 4 ops) new_MotionObserver)
  = CapBool false /\
  hasAbsoluteOrientation (run android (stopsAt 0) ops new_MotionObserver)
  = CapBool true.
Proof. split; reflexivity. Qed.

(** The session of C2 up to the second relative event, continued by two more
    relative events and a motion event. *)
Lemma resolved_capability_stable_witness :
  let s := run android (stopsAt 0)
             [ObserveStart None; ObserveResume;
              Fire 0 (DeviceOrientation flat); Fire 21 (DeviceOrientation flat)]
             new_MotionObserver in
  let ops := [Fire 30 (DeviceOrientation flat); Fire 31 (DeviceMotion atRest);
              Fire 40 (DeviceOrientation flat)] in
  hasAbsoluteOrientation s = CapBool false /\
  hasAbsoluteOrientation (run android (stopsAt 0) ops s) = CapBool false.
Proof.
  split; [reflexivity|].
  apply (proj1 (proj2 (proj2 (proj2 (resolved_capability_stable android (stopsAt 0)
           [Fire 30 (DeviceOrientation flat); Fire 31 (DeviceMotion atRest);
            Fire 40 (DeviceOrientation flat)] _))))); reflexivity.
Defined.

(** ** Relative and absolute orientation *)

Section OrientationFacts.

Variable platform : Platform.
Variable stops : Behaviour.

Lemma js_delete_has {A : Type} `{EqDecision A} (x : A) (s : list A) :
  js_has x (snd (js_delete x s)) = false.
Proof.
  unfold js_has, js_delete. cbn [snd]. apply bool_decide_eq_false_2.
  intros [Hne _]%list_elem_of_filter. by apply Hne.
Qed.

(** Relative events are not heard while their handler is off [window]. *)
Lemma run_relative_unheard (readings : list (Z * DeviceOrientationEvent)) (s : MotionObserver) :
  js_has NativeOrientation (window s) = false ->
  run platform stops (relativeEvents readings) s = s.
Proof.
  intros Hoff. induction readings as [|[t e] rest IH]; [done|].
  cbn [relativeEvents map run fold_left step fst snd].
  unfold fire. cbn [nativeEventType]. rewrite Hoff. exact IH.
Qed.

(** Relative events that arrive before the deadline change nothing. *)
Lemma run_relative_suppressed (readings : list (Z * DeviceOrientationEvent))
    (s : MotionObserver) (deadline : Z) :
  hasAbsoluteOrientation s = CapNumber deadline ->
  Forall (fun r => (fst r <= deadline)%Z) readings ->
  run platform stops (relativeEvents readings) s = s.
Proof.
  intros Habs Hall. induction Hall as [|[t e] rest Ht _ IH]; [done|].
  cbn [relativeEvents map run fold_left step fst snd].
  unfold fire. cbn [nativeEventType].
  assert (Hstep : snd (if js_has NativeOrientation (window s)
                       then handleOrientation stops t e s else (Ok tt, s)) = s).
  { destruct (js_has NativeOrientation (window s)); [|done].
    unfold handleOrientation. rewrite Habs.
    cbn in Ht. by rewrite (proj2 (Z.ltb_ge deadline t) Ht). }
  rewrite Hstep. exact IH.
Qed.

(** The state at the end of a measurement window that opened on unknown. *)
Lemma run_within_grace_window (readings : list (Z * DeviceOrientationEvent))
    (s : MotionObserver) :
  hasAbsoluteOrientation s = CapNull ->
  withinGraceWindow readings ->
  let s1 := run platform stops (relativeEvents readings) s in
  s1 = s \/
  exists first, head readings = Some first /\
    js_has NativeOrientation (window s) = true /\
    s1 = with_hasAbsoluteOrientation (CapNumber (fst first + MEASUREMENT_EPSILON)) s.
Proof.
  intros Habs Hwin. cbv zeta.
  destruct (js_has NativeOrientation (window s)) eqn:Hon;
    [|left; by apply run_relative_unheard].
  destruct readings as [|[t0 e0] rest]; [by left|].
  right. exists (t0, e0). split; [done|]. split; [done|].
  cbn [relativeEvents map run fold_left step fst snd].
  unfold fire. cbn [nativeEventType]. rewrite Hon.
  unfold handleOrientation. rewrite Habs. cbn [snd].
  by apply (run_relative_suppressed rest _ (t0 + MEASUREMENT_EPSILON)).
Qed.

(** A relative event does nothing once the capability is true. *)
Lemma fire_relative_superseded now e (s : MotionObserver) :
  hasAbsoluteOrientation s = CapBool true ->
  fire platform stops now (DeviceOrientation e) s = (Ok tt, s).
Proof.
  intros Habs. unfold fire. cbn [nativeEventType].
  destruct (js_has NativeOrientation (window s)); [|done].
  unfold handleOrientation. by rewrite Habs.
Qed.

(** The first absolute event takes the relative handler off [window]. *)
Lemma handleOrientationAbsolute_window e (s : MotionObserver) :
  hasAbsoluteOrientation s ≠ CapBool true ->
  window (snd (handleOrientationAbsolute stops e s))
  = snd (js_delete NativeOrientation (window s)).
Proof.
  intros Habs. unfold handleOrientationAbsolute.
  set (s1 := match hasAbsoluteOrientation s with
             | CapBool true => s
             | _ => removeEventListenerFromWindow NativeOrientation
                      (with_hasAbsoluteOrientation (CapBool true) s)
             end).
  assert (H1 : window s1 = snd (js_delete NativeOrientation (window s))).
  { subst s1. by destruct (hasAbsoluteOrientation s) as [|deadline|[]]. }
  destruct (js_has Orientation (observed s1)); [|done].
  by destruct (triggerCallbacks_frame stops Orientation
                 (OfOrientation (orientationEventFromDevice e))
                 (with_lastOrientationQuat
                    (Some (quat (detail (orientationEventFromDevice e)))) s1))
    as (_ & _ & _ & _ & _ & ->).
Qed.

(** C5: relative events arrive while the measurement window is open, then
    an absolute event: the relative events have dispatched nothing, the
    absolute event resolves the capability to true and takes the relative
    handler off [window]; whatever happens to the observer afterwards, the
    capability stays true and a relative event neither dispatches nor
    changes anything. *)
Theorem absolute_supersedes_relative
    (s0 : MotionObserver) (readings : list (Z * DeviceOrientationEvent))
    (nowA : Z) (eA : DeviceOrientationEvent) :
  hasAbsoluteOrientation s0 = CapNull ->
  withinGraceWindow readings ->
  js_has NativeOrientationAbsolute (window s0) = true ->
  let s1 := run platform stops (relativeEvents readings) s0 in
  let s2 := snd (fire platform stops nowA (DeviceOrientationAbsolute eA) s1) in
  log s1 = log s0 /\
  hasAbsoluteOrientation s2 = CapBool true /\
  js_has NativeOrientation (window s2) = false /\
  (forall ops : list Op,
      hasAbsoluteOrientation (run platform stops ops s2) = CapBool true) /\
  (forall (ops : list Op) now e,
      fire platform stops now (DeviceOrientation e) (run platform stops ops s2)
      = (Ok tt, run platform stops ops s2)).
Proof.
  intros Habs Hwin Hon s1 s2.
  assert (H1 : log s1 = log s0 /\ window s1 = window s0 /\
               hasAbsoluteOrientation s1 ≠ CapBool true).
  { destruct (run_within_grace_window readings s0 Habs Hwin)
      as [H|(first & _ & _ & H)]; fold s1 in H; rewrite H; [by rewrite Habs|done]. }
  destruct H1 as (Hlog & Hwindow & Hnot).
  assert (H2 : hasAbsoluteOrientation s2 = CapBool true /\
               js_has NativeOrientation (window s2) = false).
  { subst s2. unfold fire. cbn [nativeEventType]. rewrite Hwindow, Hon. split.
    - by destruct (handleOrientationAbsolute_frame stops eA s1) as (_ & -> & _).
    - rewrite (handleOrientationAbsolute_window eA s1 Hnot). apply js_delete_has. }
  destruct H2 as (Htrue & Hoff).
  assert (Hstays : forall ops : list Op,
             hasAbsoluteOrientation (run platform stops ops s2) = CapBool true).
  { intros ops.
    destruct (run_absolute_capability platform stops ops s2 true Htrue)
      as (b & -> & Hb & _).
    by rewrite Hb. }
  repeat split; try done.
  intros ops now e. apply fire_relative_superseded. apply Hstays.
Qed.

End OrientationFacts.

Section TimeoutClaims.

Variable platform : Platform.
Variable stops : Behaviour.

Lemma dispatchOrientation_observed e (s : MotionObserver) :
  js_has Orientation (observed s) = true ->
  dispatchOrientation stops e s
  = triggerCallbacks stops Orientation (OfOrientation (orientationEventFromDevice e))
      (with_lastOrientationQuat
         (Some (quat (detail (orientationEventFromDevice e)))) s).
Proof.
  intros Hobs. unfold dispatchOrientation. cbn [observed with_lastOrientationQuat].
  by rewrite Hobs.
Qed.

(** C6: only relative events arrive.  Those that come before the deadline
    set by the first dispatch nothing; the first one that comes after it
    resolves the capability to false and is dispatched; as long as no
    absolute event arrives the capability stays false and every relative
    event heard is dispatched.  Dispatching is, when orientation is
    observed, a pass over the orientation listeners with the event of the
    reading, which calls the first persistent listener first. *)
Theorem relative_dispatch_after_timeout
    (s0 : MotionObserver) (t0 : Z) (e0 : DeviceOrientationEvent)
    (early : list (Z * DeviceOrientationEvent))
    (t1 : Z) (e1 : DeviceOrientationEvent) :
  hasAbsoluteOrientation s0 = CapNull ->
  js_has NativeOrientation (window s0) = true ->
  Forall (fun r => (fst r <= t0 + MEASUREMENT_EPSILON)%Z) early ->
  (t0 + MEASUREMENT_EPSILON < t1)%Z ->
  let s1 := run platform stops (relativeEvents ((t0, e0) :: early)) s0 in
  let s2 := snd (fire platform stops t1 (DeviceOrientation e1) s1) in
  hasAbsoluteOrientation s1 = CapNumber (t0 + MEASUREMENT_EPSILON) /\
  log s1 = log s0 /\
  fire platform stops t1 (DeviceOrientation e1) s1
  = dispatchOrientation stops e1 (with_hasAbsoluteOrientation (CapBool false) s1) /\
  hasAbsoluteOrientation s2 = CapBool false /\
  (forall ops : list Op,
      forallb (fun op => negb (isAbsoluteEvent op)) ops = true ->
      let s3 := run platform stops ops s2 in
      hasAbsoluteOrientation s3 = CapBool false /\
      forall t e,
        js_has NativeOrientation (window s3) = true ->
        fire platform stops t (DeviceOrientation e) s3 = dispatchOrientation stops e s3) /\
  (forall e (s : MotionObserver),
      js_has Orientation (observed s) = true ->
      dispatchOrientation stops e s
      = triggerCallbacks stops Orientation (OfOrientation (orientationEventFromDevice e))
          (with_lastOrientationQuat
             (Some (quat (detail (orientationEventFromDevice e)))) s) /\
      forall cb (cbs : list Listener),
        callbacks s !! Orientation = Some (cb :: cbs) ->
        head (callsSince s (snd (dispatchOrientation stops e s)))
        = Some (callOf Persistent Orientation
                  (OfOrientation (orientationEventFromDevice e)) cb)).
Proof.
  intros Habs Hon Hearly Hlate s1 s2.
  assert (H1 : s1 = with_hasAbsoluteOrientation (CapNumber (t0 + MEASUREMENT_EPSILON)) s0).
  { subst s1. cbn [relativeEvents map run fold_left step fst snd].
    unfold fire. cbn [nativeEventType]. rewrite Hon.
    unfold handleOrientation. rewrite Habs. cbn [snd].
    by apply (run_relative_suppressed platform stops early _ (t0 + MEASUREMENT_EPSILON)). }
  assert (Hfire : fire platform stops t1 (DeviceOrientation e1) s1
                  = dispatchOrientation stops e1
                      (with_hasAbsoluteOrientation (CapBool false) s1)).
  { unfold fire. cbn [nativeEventType]. rewrite H1 at 1.
    cbn [window with_hasAbsoluteOrientation]. rewrite Hon.
    unfold handleOrientation. rewrite H1 at 1.
    cbn [hasAbsoluteOrientation with_hasAbsoluteOrientation].
    by rewrite (proj2 (Z.ltb_lt _ _) Hlate). }
  assert (H2 : hasAbsoluteOrientation s2 = CapBool false).
  { subst s2. rewrite Hfire. unfold dispatchOrientation.
    by destruct (untouchedByDispatch_when stops
                   (js_has Orientation
                      (observed (with_lastOrientationQuat
                         (Some (quat (detail (orientationEventFromDevice e1))))
                         (with_hasAbsoluteOrientation (CapBool false) s1))))
                   Orientation (OfOrientation (orientationEventFromDevice e1))
                   (with_lastOrientationQuat
                      (Some (quat (detail (orientationEventFromDevice e1))))
                      (with_hasAbsoluteOrientation (CapBool false) s1)))
      as (_ & -> & _). }
  split; [by rewrite H1|]. split; [by rewrite H1|]. split; [exact Hfire|].
  split; [exact H2|]. split.
  - intros ops Hops s3.
    assert (H3 : hasAbsoluteOrientation s3 = CapBool false).
    { destruct (run_absolute_capability platform stops ops s2 false H2)
        as (b & Hb & _ & Hsame).
      subst s3. rewrite Hb. by rewrite (Hsame Hops). }
    split; [exact H3|].
    intros t e Hheard. unfold fire. cbn [nativeEventType]. rewrite Hheard.
    unfold handleOrientation. by rewrite H3.
  - intros e s Hobs. split; [by apply dispatchOrientation_observed|].
    intros cb cbs Hcbs. rewrite (dispatchOrientation_observed e s Hobs).
    apply (triggerCallbacks_first stops Orientation _
             (with_lastOrientationQuat
                (Some (quat (detail (orientationEventFromDevice e)))) s) cb cbs Hcbs).
Qed.

End TimeoutClaims.

(** The session of C5: orientation is observed, three relative events arrive
    within 20 ms of the first, then an absolute event. *)
Lemma absolute_supersedes_relative_witness :
  let s0 := run android (stopsAt 0) [ObserveStart (Some [Orientation]); ObserveResume]
              new_MotionObserver in
  let s1 := run android (stopsAt 0)
              (relativeEvents [(100, flat); (105, flat); (120, flat)]%Z) s0 in
  let s2 := snd (fire android (stopsAt 0) 121 (DeviceOrientationAbsolute flatAbsolute) s1) in
  hasAbsoluteOrientation s2 = CapBool true /\
  js_has NativeOrientation (window s2) = false.
Proof.
  intros s0 s1 s2.
  assert (H := absolute_supersedes_relative android (stopsAt 0) s0
                 [(100, flat); (105, flat); (120, flat)]%Z 121%Z flatAbsolute).
  cbv zeta in H. fold s1 in H. fold s2 in H.
  destruct H as (_ & Htrue & Hoff & _).
  - reflexivity.
  - repeat (apply Forall_cons_2; [unfold MEASUREMENT_EPSILON; cbn; lia|]).
    apply Forall_nil_2.
  - reflexivity.
  - split; assumption.
Defined.

(** The session of C6: orientation is observed, two relative events arrive
    within 20 ms, a third one 21 ms after the first. *)
Lemma relative_dispatch_after_timeout_witness :
  let s0 := run android (stopsAt 0)
              [ObserveStart (Some [Orientation]); ObserveResume; Bind Orientation 7%nat]
              new_MotionObserver in
  let s1 := run android (stopsAt 0) (relativeEvents [(100, flat); (120, flat)]%Z) s0 in
  let s2 := snd (fire android (stopsAt 0) 121 (DeviceOrientation flat) s1) in
  hasAbsoluteOrientation s2 = CapBool false /\
  listenersOf (log s2) = [7%nat].
Proof.
  intros s0 s1 s2.
  assert (H := relative_dispatch_after_timeout android (stopsAt 0) s0
                 100%Z flat [(120, flat)]%Z 121%Z flat).
  cbv zeta in H. fold s1 in H. fold s2 in H.
  destruct H as (_ & _ & _ & Hfalse & _).
  - reflexivity.
  - reflexivity.
  - repeat (apply Forall_cons_2; [unfold MEASUREMENT_EPSILON; cbn; lia|]).
    apply Forall_nil_2.
  - unfold MEASUREMENT_EPSILON; lia.
  - split; [assumption | reflexivity].
Defined.

(** ** Derived acceleration *)

Section DerivedAccelerationFacts.

Variable platform : Platform.
Variable stops : Behaviour.

(** With the capability resolved to false and no orientation known, a
    motion event is handled as if acceleration were not observed. *)
Lemma handleMotion_withheld now e (s : MotionObserver) :
  hasAccelerationWithoutGravity s = CapBool false ->
  lastOrientationQuat s = None ->
  handleMotion platform stops now e s
  = when (js_has AccelerationInclGravity (observed s))
      (triggerCallbacks stops AccelerationInclGravity
         (OfAcceleration (accelerationInclGravityEventFromDevice (IS_IOS platform) e))) s.
Proof.
  intros Hg Hq. unfold handleMotion. rewrite Hg, Hq.
  cbn [bool_decide decide_rel]. rewrite andb_false_r, orb_false_r.
  destruct (js_has AccelerationInclGravity (observed s)); [|done].
  unfold seq, when.
  by destruct (triggerCallbacks stops AccelerationInclGravity _ s) as [[[]|err] s1].
Qed.

(** With an orientation known and acceleration observed, the derived
    event is dispatched after the gravity-inclusive one. *)
Lemma handleMotion_derived now e (s : MotionObserver) q :
  hasAccelerationWithoutGravity s = CapBool false ->
  lastOrientationQuat s = Some q ->
  js_has Acceleration (observed s) = true ->
  handleMotion platform stops now e s
  = seq (when (js_has AccelerationInclGravity (observed s))
           (triggerCallbacks stops AccelerationInclGravity
              (OfAcceleration (accelerationInclGravityEventFromDevice (IS_IOS platform) e))))
        (triggerCallbacks stops Acceleration
           (OfAcceleration
              (accelerationEventFromAccInclGravityEventAndOrientationQuat
                 (accelerationInclGravityEventFromDevice (IS_IOS platform) e) q)))
        s.
Proof.
  intros Hg Hq Hobs. unfold handleMotion. rewrite Hg, Hq, Hobs.
  cbn [bool_decide decide_rel andb]. rewrite orb_true_r.
  unfold seq.
  pose proof (untouchedByDispatch_when stops
                (js_has AccelerationInclGravity (observed s)) AccelerationInclGravity
                (OfAcceleration (accelerationInclGravityEventFromDevice (IS_IOS platform) e))
                s) as Hframe.
  destruct (when _ _ s) as [[[]|err] s1]; [|done].
  destruct Hframe as (_ & _ & _ & Hq1 & _). cbn [snd] in Hq1.
  by rewrite Hq1, Hq.
Qed.

Lemma dispatchOrientation_lastOrientationQuat e (s : MotionObserver) :
  lastOrientationQuat (snd (dispatchOrientation stops e s))
  = Some (quat (detail (orientationEventFromDevice e))).
Proof.
  unfold dispatchOrientation.
  by destruct (untouchedByDispatch_when stops
                 (js_has Orientation
                    (observed (with_lastOrientationQuat
                       (Some (quat (detail (orientationEventFromDevice e)))) s)))
                 Orientation (OfOrientation (orientationEventFromDevice e))
                 (with_lastOrientationQuat
                    (Some (quat (detail (orientationEventFromDevice e)))) s))
    as (_ & _ & _ & -> & _).
Qed.

Lemma callsOfType_other type (calls : list Call) :
  Forall (fun c => call_type c ≠ type) calls -> callsOfType type calls = [].
Proof.
  unfold callsOfType. induction 1 as [|c rest Hc _ IH]; [done|].
  by rewrite filter_cons_False.
Qed.

(** Without an orientation sample there is no orientation known, and no
    listener of acceleration is called. *)
Lemma run_without_orientation (ops : list Op) :
  forall s : MotionObserver,
    hasAccelerationWithoutGravity s = CapBool false ->
    lastOrientationQuat s = None ->
    forallb (fun op => negb (isOrientationSample op)) ops = true ->
    let s' := run platform stops ops s in
    hasAccelerationWithoutGravity s' = CapBool false /\
    lastOrientationQuat s' = None /\
    exists new : list Call,
      log s' = log s ++ new /\ Forall (fun c => call_type c ≠ Acceleration) new.
Proof.
  induction ops as [|op rest IH]; intros s Hg Hq Hops; cbv zeta.
  - split; [done|]. split; [done|]. exists []. by rewrite app_nil_r.
  - cbn [forallb] in Hops. apply andb_true_iff in Hops as [Hop Hrest].
    cbn [run fold_left].
    assert (Hstep : lastOrientationQuat (step platform stops s op) = None /\
                    exists new : list Call,
                      log (step platform stops s op) = log s ++ new /\
                      Forall (fun c => call_type c ≠ Acceleration) new).
    { destruct op as [now [e|e|e]| | | | | | |]; try discriminate Hop.
      2-8: match goal with
           | |- context [step _ _ _ ?op] =>
               destruct (step_method_frame platform stops op s ltac:(done))
                 as (_ & _ & Hl & Hq')
           end;
           (split; [by destruct Hq' as [-> | ->]|]);
           exists []; by rewrite Hl, app_nil_r.
      cbn [step]. unfold fire. cbn [nativeEventType].
      destruct (js_has NativeMotion (window s)).
      - rewrite (handleMotion_withheld now e s Hg Hq). split.
        + by destruct (untouchedByDispatch_when stops
                         (js_has AccelerationInclGravity (observed s))
                         AccelerationInclGravity
                         (OfAcceleration
                            (accelerationInclGravityEventFromDevice (IS_IOS platform) e))
                         s) as (_ & _ & _ & -> & _).
        + unfold when. destruct (js_has AccelerationInclGravity (observed s)).
          * destruct (triggerCallbacks_calls stops AccelerationInclGravity
                        (OfAcceleration
                           (accelerationInclGravityEventFromDevice (IS_IOS platform) e))
                        s) as (new & Hnew & Hall).
            exists new. split; [exact Hnew|].
            eapply Forall_impl; [exact Hall|]. by intros c ->.
          * exists []. cbn. by rewrite app_nil_r.
      - split; [exact Hq|]. exists []. cbn. by rewrite app_nil_r. }
    destruct Hstep as (Hq1 & new1 & Hlog1 & Hall1).
    pose proof (step_keeps_gravity_exclusion platform stops op s false Hg) as Hg1.
    destruct (IH _ Hg1 Hq1 Hrest) as (Hg2 & Hq2 & new2 & Hlog2 & Hall2).
    split; [exact Hg2|]. split; [exact Hq2|].
    exists (new1 ++ new2). split.
    + unfold run in Hlog2. rewrite Hlog2, Hlog1. by rewrite <- app_assoc.
    + by apply Forall_app.
Qed.

End DerivedAccelerationFacts.

Section DerivedAccelerationClaims.

Variable platform : Platform.
Variable stops : Behaviour.

(** C7: the gravity-exclusion capability is resolved to false and no
    orientation is known.  A motion event is then handled exactly as the
    dispatch of the gravity-inclusive event, if that type is observed, and
    as nothing otherwise: no listener of acceleration is called, nothing
    is thrown for the lack of an orientation, nothing is kept for later.
    This is the state [disconnect] leaves.  It lasts, with no acceleration
    listener called, through every sequence of operations that hands no
    reading to an orientation handler; the dispatch of an orientation
    reading records its quaternion, and with a quaternion recorded and
    acceleration observed the derived event is dispatched again. *)
Theorem derived_acceleration_withheld (now : Z) (e : DeviceMotionEvent) (s : MotionObserver) :
  hasAccelerationWithoutGravity s = CapBool false ->
  lastOrientationQuat s = None ->
  handleMotion platform stops now e s
  = when (js_has AccelerationInclGravity (observed s))
      (triggerCallbacks stops AccelerationInclGravity
         (OfAcceleration (accelerationInclGravityEventFromDevice (IS_IOS platform) e))) s /\
  callsOfType Acceleration (callsSince s (snd (handleMotion platform stops now e s))) = [] /\
  (js_has AccelerationInclGravity (observed s) = false ->
   handleMotion platform stops now e s = (Ok tt, s)) /\
  (forall ops : list Op,
      forallb (fun op => negb (isOrientationSample op)) ops = true ->
      let s' := run platform stops ops s in
      hasAccelerationWithoutGravity s' = CapBool false /\
      lastOrientationQuat s' = None /\
      callsOfType Acceleration (callsSince s s') = []) /\
  (forall s0 : MotionObserver,
      hasAccelerationWithoutGravity s0 = CapBool false ->
      hasAccelerationWithoutGravity (disconnect s0) = CapBool false /\
      lastOrientationQuat (disconnect s0) = None /\
      handleMotion platform stops now e (disconnect s0) = (Ok tt, disconnect s0)) /\
  (forall (eo : DeviceOrientationEvent) (s1 : MotionObserver),
      lastOrientationQuat (snd (dispatchOrientation stops eo s1))
      = Some (quat (detail (orientationEventFromDevice eo)))) /\
  (forall (s1 : MotionObserver) (q : Quaternion),
      hasAccelerationWithoutGravity s1 = CapBool false ->
      lastOrientationQuat s1 = Some q ->
      js_has Acceleration (observed s1) = true ->
      handleMotion platform stops now e s1
      = seq (when (js_has AccelerationInclGravity (observed s1))
               (triggerCallbacks stops AccelerationInclGravity
                  (OfAcceleration
                     (accelerationInclGravityEventFromDevice (IS_IOS platform) e))))
            (triggerCallbacks stops Acceleration
               (OfAcceleration
                  (accelerationEventFromAccInclGravityEventAndOrientationQuat
                     (accelerationInclGravityEventFromDevice (IS_IOS platform) e) q)))
            s1).
Proof.
  intros Hg Hq.
  assert (Hrun : forall ops : list Op,
             forallb (fun op => negb (isOrientationSample op)) ops = true ->
             let s' := run platform stops ops s in
             hasAccelerationWithoutGravity s' = CapBool false /\
             lastOrientationQuat s' = None /\
             callsOfType Acceleration (callsSince s s') = []).
  { intros ops Hops s'.
    destruct (run_without_orientation platform stops ops s Hg Hq Hops)
      as (Hg' & Hq' & new & Hlog & Hall).
    split; [exact Hg'|]. split; [exact Hq'|].
    rewrite (callsSince_app s s' new Hlog). by apply callsOfType_other. }
  split; [by apply handleMotion_withheld|].
  split.
  { rewrite (handleMotion_withheld platform stops now e s Hg Hq). unfold when.
    destruct (js_has AccelerationInclGravity (observed s)).
    - destruct (triggerCallbacks_calls stops AccelerationInclGravity
                  (OfAcceleration
                     (accelerationInclGravityEventFromDevice (IS_IOS platform) e))
                  s) as (new & Hnew & Hall).
      rewrite (callsSince_app _ _ new Hnew). apply callsOfType_other.
      eapply Forall_impl; [exact Hall|]. by intros c ->.
    - cbn [snd ret]. unfold callsSince. by rewrite drop_all. }
  - split.
    { intros Hoff. rewrite (handleMotion_withheld platform stops now e s Hg Hq).
      by rewrite Hoff. }
    split; [exact Hrun|]. split.
    { intros s0 Hg0.
      assert (H0 : hasAccelerationWithoutGravity (disconnect s0) = CapBool false /\
                   lastOrientationQuat (disconnect s0) = None) by (by cbn).
      destruct H0 as [Hgd Hqd]. split; [exact Hgd|]. split; [exact Hqd|].
      by rewrite (handleMotion_withheld platform stops now e _ Hgd Hqd). }
    split; [apply dispatchOrientation_lastOrientationQuat|].
    intros s1 q. apply handleMotion_derived.
Qed.

End DerivedAccelerationClaims.

(** While the capability is unknown, a motion event without
    gravity-exclusive acceleration opens the measurement window, or closes
    it on false if it arrives after the deadline. *)
Lemma handleMotion_all_zero platform stops now e (s : MotionObserver) :
  accelerationNonZero e = false ->
  (hasAccelerationWithoutGravity s = CapNull ->
   handleMotion platform stops now e s
   = (Ok tt, with_hasAccelerationWithoutGravity (CapNumber (now + MEASUREMENT_EPSILON)) s)) /\
  (forall deadline : Z,
      hasAccelerationWithoutGravity s = CapNumber deadline ->
      (deadline < now)%Z ->
      handleMotion platform stops now e s
      = (Ok tt, with_hasAccelerationWithoutGravity (CapBool false) s)).
Proof.
  intros Hzero. split.
  - intros Hg. unfold handleMotion. by rewrite Hg, Hzero.
  - intros deadline Hg Hlate. unfold handleMotion. rewrite Hg, Hzero.
    by rewrite (proj2 (Z.ltb_lt _ _) Hlate).
Qed.

(** A device that reports no gravity-exclusive acceleration: the first
    motion event opens the measurement window, the one that arrives after
    the deadline resolves the capability to false. *)
Lemma gravity_exclusion_resolves_false :
  let s := run android (stopsAt 0)
             [ObserveStart (Some [Acceleration]); ObserveResume;
              Bind Acceleration 1%nat;
              Fire 0 (DeviceMotion atRest); Fire 21 (DeviceMotion atRest)]
             new_MotionObserver in
  hasAccelerationWithoutGravity s = CapBool false /\
  lastOrientationQuat s = None /\
  js_has AccelerationInclGravity (observed s) = false.
Proof.
  assert (Hzero : accelerationNonZero atRest = false).
  { unfold accelerationNonZero, atRest, reading, nullish. cbn [m_acceleration a_x a_y a_z].
    by rewrite bool_decide_eq_true_2. }
  cbn [run fold_left step].
  set (s0 := snd (bind Acceleration 1%nat
                    (addListeners (observeStart (Some [Acceleration]) new_MotionObserver)))).
  assert (H1 : fire android (stopsAt 0) 0 (DeviceMotion atRest) s0
               = (Ok tt, with_hasAccelerationWithoutGravity
                           (CapNumber (0 + MEASUREMENT_EPSILON)) s0)).
  { unfold fire. cbn [nativeEventType].
    replace (js_has NativeMotion (window s0)) with true by reflexivity.
    by apply (proj1 (handleMotion_all_zero android (stopsAt 0) 0 atRest s0 Hzero)). }
  rewrite H1. cbn [snd].
  assert (H2 : fire android (stopsAt 0) 21 (DeviceMotion atRest)
                 (with_hasAccelerationWithoutGravity (CapNumber (0 + MEASUREMENT_EPSILON)) s0)
               = (Ok tt, with_hasAccelerationWithoutGravity (CapBool false)
                           (with_hasAccelerationWithoutGravity
                              (CapNumber (0 + MEASUREMENT_EPSILON)) s0))).
  { unfold fire. cbn [nativeEventType window with_hasAccelerationWithoutGravity].
    replace (js_has NativeMotion (window s0)) with true by reflexivity.
    apply (proj2 (handleMotion_all_zero android (stopsAt 0) 21 atRest _ Hzero)
             (0 + MEASUREMENT_EPSILON)%Z); [reflexivity | unfold MEASUREMENT_EPSILON; lia]. }
  rewrite H2. repeat split; reflexivity.
Qed.

(** The state of C7 as that session reaches it: the next motion event calls
    no listener and changes nothing. *)
Lemma derived_acceleration_withheld_witness :
  let s := run android (stopsAt 0)
             [ObserveStart (Some [Acceleration]); ObserveResume;
              Bind Acceleration 1%nat;
              Fire 0 (DeviceMotion atRest); Fire 21 (DeviceMotion atRest)]
             new_MotionObserver in
  handleMotion android (stopsAt 0) 30 atRest s = (Ok tt, s).
Proof.
  intros s.
  destruct gravity_exclusion_resolves_false as (Hg & Hq & Hoff). fold s in Hg, Hq, Hoff.
  exact (proj1 (proj2 (proj2 (derived_acceleration_withheld android (stopsAt 0)
                                30%Z atRest s Hg Hq))) Hoff).
Defined.

(** ** The derived acceleration of a device at rest *)

Section GravityDerivation.

Local Open Scope R_scope.

Lemma sqrt_half : sqrt (1 / 2) = 1 / sqrt 2.
Proof. replace (1 / 2) with (/ 2) by lra. rewrite sqrt_inv. lra. Qed.

(** In exact real arithmetic, the orientation of the upright device is the
    identity quaternion. *)
Lemma orientationToQuat_upright : orientationToQuat 0 (PI / 2) 0 = quatIdentity.
Proof.
  unfold orientationToQuat, quatFromEulerYXZ, quatMultiply, backFacing, quatIdentity.
  replace (PI / 2 / 2) with (PI / 4) by lra.
  replace (- 0) with 0 by ring. replace (0 / 2) with 0 by lra.
  rewrite cos_0, sin_0, cos_PI4, sin_PI4, <- sqrt_half.
  assert (H : sqrt (1 / 2) * sqrt (1 / 2) = 1 / 2) by (apply sqrt_sqrt; lra).
  set (r := sqrt (1 / 2)) in *.
  f_equal; [f_equal; [f_equal|]|]; nra.
Qed.

Lemma orientationEventFromDevice_upright :
  quat (detail (orientationEventFromDevice upright)) = quatIdentity.
Proof.
  cbn [orientationEventFromDevice createEvent detail quat upright nullish
       d_alpha d_beta d_gamma].
  replace (0 * DEG_TO_RAD) with 0 by ring.
  replace (90 * DEG_TO_RAD) with (PI / 2) by (unfold DEG_TO_RAD; lra).
  apply orientationToQuat_upright.
Qed.

Lemma accelerationNonZero_uprightAtRest : accelerationNonZero uprightAtRest = false.
Proof.
  unfold accelerationNonZero, uprightAtRest, reading, nullish.
  cbn [m_acceleration a_x a_y a_z]. by rewrite bool_decide_eq_true_2.
Qed.

(** A device without gravity-exclusive acceleration, held upright at rest,
    with acceleration observed: the capability resolves to false on the
    motion event after the measurement window, and the relative
    orientation event after the grace window leaves the identity as the
    last known orientation. *)
Lemma upright_session :
  let s := run android (stopsAt 0%nat)
             [ObserveStart (Some [Acceleration]); ObserveResume;
              Bind Acceleration 1%nat;
              Fire 0 (DeviceMotion uprightAtRest); Fire 21 (DeviceMotion uprightAtRest);
              Fire 22 (DeviceOrientation upright); Fire 43 (DeviceOrientation upright)]
             new_MotionObserver in
  hasAccelerationWithoutGravity s = CapBool false /\
  lastOrientationQuat s = Some quatIdentity /\
  js_has Acceleration (observed s) = true /\
  js_has AccelerationInclGravity (observed s) = false /\
  callbacks s !! Acceleration = Some [1%nat] /\
  log s = [].
Proof.
  pose proof accelerationNonZero_uprightAtRest as Hzero.
  cbn [run fold_left step].
  set (s0 := snd (bind Acceleration 1%nat
                    (addListeners (observeStart (Some [Acceleration]) new_MotionObserver)))).
  assert (H1 : fire android (stopsAt 0%nat) 0 (DeviceMotion uprightAtRest) s0
               = (Ok tt, with_hasAccelerationWithoutGravity
                           (CapNumber (0 + MEASUREMENT_EPSILON)) s0)).
  { unfold fire. cbn [nativeEventType].
    replace (js_has NativeMotion (window s0)) with true by reflexivity.
    by apply (proj1 (handleMotion_all_zero android (stopsAt 0%nat) 0 uprightAtRest s0 Hzero)). }
  rewrite H1. cbn [snd].
  assert (H2 : fire android (stopsAt 0%nat) 21 (DeviceMotion uprightAtRest)
                 (with_hasAccelerationWithoutGravity (CapNumber (0 + MEASUREMENT_EPSILON)) s0)
               = (Ok tt, with_hasAccelerationWithoutGravity (CapBool false)
                           (with_hasAccelerationWithoutGravity
                              (CapNumber (0 + MEASUREMENT_EPSILON)) s0))).
  { unfold fire. cbn [nativeEventType window with_hasAccelerationWithoutGravity].
    replace (js_has NativeMotion (window s0)) with true by reflexivity.
    apply (proj2 (handleMotion_all_zero android (stopsAt 0%nat) 21 uprightAtRest _ Hzero)
             (0 + MEASUREMENT_EPSILON)%Z); [reflexivity|].
    unfold MEASUREMENT_EPSILON. lia. }
  rewrite H2. cbn [snd].
  rewrite <- orientationEventFromDevice_upright.
  repeat split; reflexivity.
Qed.

(** C4: the code at the failing input.  For the gravity-inclusive reading
    (0, 9.80665, 0) and the identity orientation the derived event carries
    (0, 19.6133, 0), which is not within 1 of (0, 0, 0), and is marked
    inaccurate.  The input is the one of a device held upright at rest on
    a platform other than iOS: its motion event gives that reading, its
    orientation event gives (in exact real arithmetic) the identity, and
    the path that reports the gravity-exclusive reading directly gives
    (0, 0, 0) for it.  Through the handler: with the capability resolved
    to false, acceleration observed and the identity as last known
    orientation, the first acceleration listener is handed an event that
    carries (0, 19.6133, 0). *)
Theorem derived_acceleration_upright_at_rest :
  let reading :=
    createEvent "accelerationInclGravity"
      {| acc := (0, GRAVITY, 0); interval := 16; inaccurate := false |} in
  let derived :=
    accelerationEventFromAccInclGravityEventAndOrientationQuat reading quatIdentity in
  acc (detail derived) = (0, 2 * GRAVITY, 0) /\
  2 * GRAVITY = 196133 / 10000 /\
  inaccurate (detail derived) = true /\
  ~ vecNear 1 (acc (detail derived)) (0, 0, 0) /\
  acc (detail (accelerationInclGravityEventFromDevice false uprightAtRest))
  = (0, GRAVITY, 0) /\
  quat (detail (orientationEventFromDevice upright)) = quatIdentity /\
  acc (detail (accelerationEventFromDevice false uprightAtRest)) = (0, 0, 0) /\
  (forall (platform : Platform) (stops : Behaviour) (now : Z) (s : MotionObserver)
          (cb : Listener) (cbs : list Listener),
      IS_IOS platform = false ->
      hasAccelerationWithoutGravity s = CapBool false ->
      lastOrientationQuat s = Some quatIdentity ->
      js_has Acceleration (observed s) = true ->
      js_has AccelerationInclGravity (observed s) = false ->
      callbacks s !! Acceleration = Some (cb :: cbs) ->
      exists ev : AccelerationEvent,
        head (callsSince s (snd (handleMotion platform stops now uprightAtRest s)))
        = Some (callOf Persistent Acceleration (OfAcceleration ev) cb) /\
        acc (detail ev) = (0, 2 * GRAVITY, 0) /\
        inaccurate (detail ev) = true).
Proof.
  intros reading derived.
  assert (Hacc : acc (detail derived) = (0, 2 * GRAVITY, 0)).
  { subst derived reading.
    cbn [accelerationEventFromAccInclGravityEventAndOrientationQuat createEvent detail acc].
    rewrite vecApplyQuat_identity. unfold vecSub.
    f_equal; [f_equal|]; lra. }
  assert (Hin : acc (detail (accelerationInclGravityEventFromDevice false uprightAtRest))
                = (0, GRAVITY, 0)).
  { cbn [accelerationInclGravityEventFromDevice createEvent detail acc uprightAtRest
         reading nullish m_accelerationIncludingGravity a_x a_y a_z axisSign].
    unfold Events.reading, nullish. cbn [a_x a_y a_z].
    f_equal; [f_equal|]; lra. }
  split; [exact Hacc|]. split; [unfold GRAVITY; lra|]. split; [reflexivity|].
  split.
  { rewrite Hacc. unfold vecNear, GRAVITY. intros (_ & Hy & _).
    rewrite Rabs_right in Hy; lra. }
  split; [exact Hin|]. split; [exact orientationEventFromDevice_upright|].
  split.
  { cbn [accelerationEventFromDevice createEvent detail acc uprightAtRest
         m_acceleration axisSign].
    unfold Events.reading, nullish. cbn [a_x a_y a_z].
    f_equal; [f_equal|]; lra. }
  intros platform stops now s cb cbs Hios Hg Hq HobsA HobsG Hcbs.
  rewrite (handleMotion_derived platform stops now uprightAtRest s quatIdentity Hg Hq HobsA).
  unfold seq. rewrite HobsG. cbn [when ret]. rewrite Hios.
  eexists. split.
  - apply (triggerCallbacks_first stops Acceleration _ s cb cbs Hcbs).
  - cbn [accelerationEventFromAccInclGravityEventAndOrientationQuat createEvent detail acc
         inaccurate].
    rewrite Hin, vecApplyQuat_identity. unfold vecSub.
    split; [|reflexivity]. f_equal; [f_equal|]; lra.
Qed.

End GravityDerivation.

(** The upright device at rest, as a session reaches that state: the next
    motion event hands listener 1 an acceleration of (0, 19.6133, 0). *)
Lemma derived_acceleration_upright_at_rest_witness :
  let s := run android (stopsAt 0)
             [ObserveStart (Some [Acceleration]); ObserveResume;
              Bind Acceleration 1%nat;
              Fire 0 (DeviceMotion uprightAtRest); Fire 21 (DeviceMotion uprightAtRest);
              Fire 22 (DeviceOrientation upright); Fire 43 (DeviceOrientation upright)]
             new_MotionObserver in
  exists ev : AccelerationEvent,
    head (callsSince s (snd (handleMotion android (stopsAt 0) 50 uprightAtRest s)))
    = Some (callOf Persistent Acceleration (OfAcceleration ev) 1%nat) /\
    acc (detail ev) = (0, 2 * GRAVITY, 0)%R /\
    inaccurate (detail ev) = true.
Proof.
  intros s.
  destruct upright_session as (Hg & Hq & HobsA & HobsG & Hcbs & _).
  fold s in Hg, Hq, HobsA, HobsG, Hcbs.
  exact (proj2 (proj2 (proj2 (proj2 (proj2 (proj2 (proj2
           derived_acceleration_upright_at_rest))))))
           android (stopsAt 0) 50%Z s 1%nat [] eq_refl Hg Hq HobsA HobsG Hcbs).
Defined.

(** ** Lifecycle: disconnect and observe *)

Section LifecycleFacts.

Variable platform : Platform.
Variable stops : Behaviour.

Lemma js_add_has {A : Type} `{EqDecision A} (x : A) (s : list A) :
  js_has x (js_add x s) = true.
Proof.
  unfold js_add. destruct (js_has x s) eqn:Hx; [exact Hx|].
  unfold js_has. apply bool_decide_eq_true_2, elem_of_app. right.
  by apply list_elem_of_singleton.
Qed.

Lemma js_add_keeps {A : Type} `{EqDecision A} (x y : A) (s : list A) :
  js_has x s = true -> js_has x (js_add y s) = true.
Proof.
  intros Hx. unfold js_add. destruct (js_has y s); [exact Hx|].
  unfold js_has in *. apply bool_decide_eq_true_2, elem_of_app. left.
  by apply bool_decide_eq_true_1 in Hx.
Qed.

Lemma fold_js_add_keeps {A : Type} `{EqDecision A} (x : A) (l s : list A) :
  js_has x s = true -> js_has x (fold_left (fun acc e => js_add e acc) l s) = true.
Proof.
  revert s. induction l as [|y l IH]; intros s Hx; [exact Hx|].
  cbn [fold_left]. apply IH. by apply js_add_keeps.
Qed.

Lemma fold_js_add_has {A : Type} `{EqDecision A} (x : A) (l s : list A) :
  x ∈ l -> js_has x (fold_left (fun acc e => js_add e acc) l s) = true.
Proof.
  revert s. induction l as [|y l IH]; intros s Hx; [by apply not_elem_of_nil in Hx|].
  cbn [fold_left]. apply elem_of_cons in Hx as [->|Hx].
  - apply fold_js_add_keeps, js_add_has.
  - by apply IH.
Qed.

(** A pass for a type whose set is gone throws before it calls anyone. *)
Lemma triggerCallbacks_undefined type event (s : MotionObserver) :
  callbacks s !! type = None ->
  triggerCallbacks stops type event s = (Throw TypeError, s).
Proof. intros H. unfold triggerCallbacks. by rewrite H. Qed.

Lemma when_trigger_undefined (c : bool) type event (s : MotionObserver) :
  callbacks s = ∅ ->
  snd (when c (triggerCallbacks stops type event) s) = s.
Proof.
  intros H. destruct c; [|done]. cbn [when].
  rewrite triggerCallbacks_undefined; [done|]. by rewrite H.
Qed.

(** With the sets of listeners gone, a raw event changes neither the
    registry nor the log. *)
Lemma fire_disconnected now e (s : MotionObserver) :
  callbacks s = ∅ ->
  let s' := snd (fire platform stops now e s) in
  callbacks s' = ∅ /\ onceCallbacks s' = onceCallbacks s /\ log s' = log s.
Proof.
  intros Hc. cbv zeta. unfold fire.
  destruct (js_has (nativeEventType e) (window s)); [|done].
  destruct e as [e|e|e].
  - unfold handleOrientation, dispatchOrientation.
    destruct (hasAbsoluteOrientation s) as [|deadline|[]]; try done.
    + destruct (deadline <? now)%Z; [|done].
      by rewrite when_trigger_undefined.
    + by rewrite when_trigger_undefined.
  - unfold handleOrientationAbsolute.
    set (s1 := match hasAbsoluteOrientation s with
               | CapBool true => s
               | _ => removeEventListenerFromWindow NativeOrientation
                        (with_hasAbsoluteOrientation (CapBool true) s)
               end).
    assert (H1 : callbacks s1 = ∅ /\ onceCallbacks s1 = onceCallbacks s /\ log s1 = log s).
    { subst s1. by destruct (hasAbsoluteOrientation s) as [|deadline|[]]. }
    destruct H1 as (Hc1 & Ho1 & Hl1).
    destruct (js_has Orientation (observed s1)); [|done].
    rewrite triggerCallbacks_undefined; [done|].
    cbn [callbacks with_lastOrientationQuat]. by rewrite Hc1.
  - unfold handleMotion.
    destruct (hasAccelerationWithoutGravity s) as [|deadline|[]].
    + by destruct (accelerationNonZero e).
    + by destruct (accelerationNonZero e), (deadline <? now)%Z.
    + unfold seq.
      pose proof (when_trigger_undefined (js_has Acceleration (observed s)) Acceleration
                    (OfAcceleration (accelerationEventFromDevice (IS_IOS platform) e))
                    s Hc) as H1.
      destruct (when _ _ s) as [[[]|err] s1]; cbn [snd] in H1; subst s1; [|done].
      by rewrite when_trigger_undefined.
    + destruct (js_has AccelerationInclGravity (observed s)
                || js_has Acceleration (observed s)
                   && bool_decide (is_Some (lastOrientationQuat s))); [|done].
      unfold seq.
      pose proof (when_trigger_undefined (js_has AccelerationInclGravity (observed s))
                    AccelerationInclGravity
                    (OfAcceleration
                       (accelerationInclGravityEventFromDevice (IS_IOS platform) e))
                    s Hc) as H1.
      destruct (when _ _ s) as [[[]|err] s1]; cbn [snd] in H1; subst s1; [|done].
      destruct (js_has Acceleration (observed s)
                && bool_decide (is_Some (lastOrientationQuat s))); [|done].
      destruct (lastOrientationQuat s); [|done].
      rewrite triggerCallbacks_undefined; [done|]. by rewrite Hc.
Qed.

(** No operation brings the sets of listeners back, and none calls a
    listener while they are gone. *)
Lemma step_disconnected (op : Op) (s : MotionObserver) :
  callbacks s = ∅ -> onceCallbacks s = ∅ ->
  let s' := step platform stops s op in
  callbacks s' = ∅ /\ onceCallbacks s' = ∅ /\ log s' = log s.
Proof.
  intros Hc Ho. cbv zeta.
  destruct op as [now e|filter| |filter| |type cb|type cb|type cb]; cbn [step].
  - destruct (fire_disconnected now e s Hc) as (-> & -> & ->). done.
  - done.
  - by destruct (addListeners_frame s) as (_ & _ & _ & _ & -> & -> & ->).
  - unfold unobserve.
    by destruct (addListeners_frame
                   (with_observed
                      (fold_left (fun obs e => snd (js_delete e obs)) (filterArr filter)
                         (observed s)) s)) as (_ & _ & _ & _ & -> & -> & ->).
  - done.
  - unfold bind. by rewrite Hc, lookup_empty.
  - unfold once. by rewrite Ho, lookup_empty.
  - unfold unbind. by rewrite Hc, lookup_empty.
Qed.

Lemma run_disconnected (ops : list Op) :
  forall s : MotionObserver,
    callbacks s = ∅ -> onceCallbacks s = ∅ ->
    let s' := run platform stops ops s in
    callbacks s' = ∅ /\ onceCallbacks s' = ∅ /\ log s' = log s.
Proof.
  induction ops as [|op rest IH]; intros s Hc Ho; [done|].
  cbn [run fold_left].
  destruct (step_disconnected op s Hc Ho) as (Hc1 & Ho1 & Hl1).
  destruct (IH _ Hc1 Ho1) as (Hc2 & Ho2 & Hl2).
  unfold run in Hc2, Ho2, Hl2. by rewrite Hc2, Ho2, Hl2.
Qed.

End LifecycleFacts.

Section LifecycleClaims.

Variable platform : Platform.
Variable stops : Behaviour.

(** C9: [disconnect] leaves both maps of listeners without any key.  From
    then on, whatever operations follow, every registration and removal
    method throws a [TypeError], every dispatch pass throws it before
    calling a listener, and no listener is ever called; observing again
    wires the handlers, and the raw event that reaches a dispatch
    throws. *)
Theorem disconnect_removes_listener_sets (s : MotionObserver) :
  let d := disconnect s in
  callbacks d = ∅ /\
  onceCallbacks d = ∅ /\
  (forall ops : list Op,
      let s' := run platform stops ops d in
      (forall type cb,
          addEventListener type cb s' = (Throw TypeError, s') /\
          bind type cb s' = (Throw TypeError, s') /\
          on type cb s' = (Throw TypeError, s') /\
          once type cb s' = (Throw TypeError, s') /\
          removeEventListener type cb s' = (Throw TypeError, s') /\
          unbind type cb s' = (Throw TypeError, s') /\
          off type cb s' = (Throw TypeError, s')) /\
      (forall type event,
          triggerCallbacks stops type event s' = (Throw TypeError, s')) /\
      log s' = log d) /\
  (forall now e,
      let r := snd (observe platform (Some [Orientation]) Granted Granted d) in
      fst (observe platform (Some [Orientation]) Granted Granted d) = Ok tt /\
      js_has NativeOrientationAbsolute (window r) = true /\
      fst (fire platform stops now (DeviceOrientationAbsolute e) r) = Throw TypeError).
Proof.
  intros d.
  assert (Hc : callbacks d = ∅) by done.
  assert (Ho : onceCallbacks d = ∅) by done.
  split; [exact Hc|]. split; [exact Ho|]. split.
  - intros ops s'.
    destruct (run_disconnected platform stops ops d Hc Ho) as (Hc' & Ho' & Hl').
    fold s' in Hc', Ho', Hl'.
    split; [|split; [|exact Hl']].
    + intros type cb.
      unfold addEventListener, on, removeEventListener, off, bind, once, unbind.
      rewrite Hc', Ho', !lookup_empty. done.
    + intros type event. apply triggerCallbacks_undefined. by rewrite Hc'.
  - intros now e r.
    assert (Hperm : requestPermissions platform Granted Granted = Ok tt).
    { unfold requestPermissions, permissionGranted.
      by destruct (IS_IOS platform), (motionGated platform). }
    assert (Hr : r = addListeners (observeStart (Some [Orientation]) d)).
    { subst r. unfold observe. by rewrite Hperm. }
    assert (Hobs : js_has Orientation (observed r) = true).
    { rewrite Hr.
      by destruct (addListeners_frame (observeStart (Some [Orientation]) d)) as (-> & _). }
    assert (Hon : js_has NativeOrientationAbsolute (window r) = true).
    { rewrite Hr. unfold addListeners.
      replace (requiredNativeEvents
                 (observed (removeListeners (observeStart (Some [Orientation]) d))))
        with [NativeOrientation; NativeOrientationAbsolute] by reflexivity.
      cbn [fold_left addEventListenerToWindow window with_window]. apply js_add_has. }
    assert (Hcr : callbacks r = ∅).
    { rewrite Hr.
      by destruct (addListeners_frame (observeStart (Some [Orientation]) d))
        as (_ & _ & _ & _ & -> & _). }
    split; [unfold observe; by rewrite Hperm|]. split; [exact Hon|].
    unfold fire. cbn [nativeEventType]. rewrite Hon.
    unfold handleOrientationAbsolute.
    set (s1 := match hasAbsoluteOrientation r with
               | CapBool true => r
               | _ => removeEventListenerFromWindow NativeOrientation
                        (with_hasAbsoluteOrientation (CapBool true) r)
               end).
    assert (H1 : observed s1 = observed r /\ callbacks s1 = callbacks r).
    { subst s1. by destruct (hasAbsoluteOrientation r) as [|deadline|[]]. }
    destruct H1 as [-> Hc1]. rewrite Hobs.
    rewrite triggerCallbacks_undefined; [done|].
    cbn [callbacks with_lastOrientationQuat]. by rewrite Hc1, Hcr.
Qed.

(** Only the start of [observe], [unobserve] and [disconnect] edit the
    observed set. *)
Lemma run_keeps_observed (ops : list Op) :
  forall s : MotionObserver,
    forallb keepsObservedSet ops = true ->
    observed (run platform stops ops s) = observed s.
Proof.
  induction ops as [|op rest IH]; intros s Hops; [done|].
  cbn [forallb] in Hops. apply andb_true_iff in Hops as [Hop Hrest].
  cbn [run fold_left]. unfold run in IH. rewrite (IH _ Hrest).
  destruct op as [now [e|e|e]|filter| |filter| |type cb|type cb|type cb];
    try discriminate Hop; cbn [step].
  - unfold fire. cbn [nativeEventType]. destruct (js_has _ (window s)); [|done].
    by destruct (handleOrientation_frame stops now e s) as (-> & _).
  - unfold fire. cbn [nativeEventType]. destruct (js_has _ (window s)); [|done].
    by destruct (handleOrientationAbsolute_frame stops e s) as (-> & _).
  - unfold fire. cbn [nativeEventType]. destruct (js_has _ (window s)); [|done].
    by destruct (handleMotion_frame platform stops now e s) as (-> & _).
  - by destruct (addListeners_frame s) as (-> & _).
  - unfold bind. by destruct (callbacks s !! type).
  - unfold once. by destruct (onceCallbacks s !! type).
  - unfold unbind. destruct (callbacks s !! type) as [cbs|]; [|done].
    destruct (js_delete cb cbs) as [[] cbs']; [done|].
    cbn [onceCallbacks with_callbacks].
    destruct (onceCallbacks s !! type) as [os|]; [|done].
    by destruct (js_delete cb os) as [found os'].
Qed.

Lemma requestPermissions_rejects (orientationAnswer motionAnswer : PermissionAnswer) :
  requestPermissions platform orientationAnswer motionAnswer = Throw PermissionRejected
  <-> (IS_IOS platform = true /\ orientationAnswer ≠ Granted)
      \/ (motionGated platform = true /\ motionAnswer ≠ Granted).
Proof.
  unfold requestPermissions, permissionGranted.
  destruct (IS_IOS platform), (motionGated platform), orientationAnswer, motionAnswer;
    cbn; split; intros H; try done; try (by left); try (by right);
    by destruct H as [[? ?]|[? ?]].
Qed.

(** C10: when the permission promise rejects, [observe] rejects too, and
    leaves the observer as it is right after the filter has been added to
    the observed set: every type of the filter is observed, and stays so
    until [observe], [unobserve] or [disconnect] is called; the handlers
    on [window] are those that were there before (none on a new observer,
    so that no raw event is heard); the state differs from the one before
    the call whenever the filter holds a type not yet observed. *)
Theorem observe_rejected_keeps_filter
    (filter : option (list MotionType))
    (orientationAnswer motionAnswer : PermissionAnswer) (s : MotionObserver) :
  requestPermissions platform orientationAnswer motionAnswer = Throw PermissionRejected ->
  let s' := snd (observe platform filter orientationAnswer motionAnswer s) in
  observe platform filter orientationAnswer motionAnswer s
  = (Throw PermissionRejected, observeStart filter s) /\
  (forall type, type ∈ filterArr filter -> js_has type (observed s') = true) /\
  (forall type, js_has type (observed s) = true -> js_has type (observed s') = true) /\
  window s' = window s /\
  (forall type,
      type ∈ filterArr filter -> js_has type (observed s) = false -> s' ≠ s) /\
  (window s = [] ->
   forall now e, fire platform stops now e s' = (Ok tt, s')) /\
  (forall ops : list Op,
      forallb keepsObservedSet ops = true ->
      observed (run platform stops ops s') = observed s').
Proof.
  intros Hrej s'.
  assert (Hs' : observe platform filter orientationAnswer motionAnswer s
                = (Throw PermissionRejected, observeStart filter s)).
  { unfold observe. by rewrite Hrej. }
  subst s'. rewrite Hs'. cbn [snd].
  split; [done|]. split; [|split; [|split; [done|split; [|split]]]].
  - intros type Hin. cbn [observeStart observed with_observed]. by apply fold_js_add_has.
  - intros type Hin. cbn [observeStart observed with_observed]. by apply fold_js_add_keeps.
  - intros type Hin Hnot Heq.
    apply (f_equal (fun s => js_has type (observed s))) in Heq.
    cbn [observeStart observed with_observed] in Heq.
    rewrite (fold_js_add_has type _ _ Hin) in Heq. by rewrite Hnot in Heq.
  - intros Hw now e. unfold fire. cbn [observeStart window with_observed].
    by rewrite Hw.
  - intros ops. apply run_keeps_observed.
Qed.

End LifecycleClaims.

(** The session of C10: on a permission-gated platform the user denies the
    orientation prompt of the first [observe]. *)
Lemma observe_rejected_keeps_filter_witness :
  let s' := snd (observe iphone (Some [Orientation]) Denied Granted new_MotionObserver) in
  observe iphone (Some [Orientation]) Denied Granted new_MotionObserver
  = (Throw PermissionRejected, s') /\
  observed s' = [Orientation] /\
  window s' = [].
Proof.
  intros s'.
  destruct (observe_rejected_keeps_filter iphone (stopsAt 0) (Some [Orientation])
              Denied Granted new_MotionObserver) as (Hobserve & _ & _ & Hwindow & _).
  - reflexivity.
  - split; [exact Hobserve|]. split; [reflexivity | exact Hwindow].
Defined.

(** * Further properties of the code *)

(** ** Rotations *)

Section RotationFacts.

Local Open Scope R_scope.

(** Splits an equation between tuples into the equations between their
    components. *)
Ltac components :=
  repeat match goal with
         | |- (_, _) = (_, _) => apply (f_equal2 pair)
         end.

Lemma vecApplyQuat_length (v : Vector) (q : Quaternion) :
  quatNormSq q = 1 -> vecNormSq (vecApplyQuat v q) = vecNormSq v.
Proof.
  destruct v as [[vx vy] vz], q as [[[x y] z] w].
  unfold quatNormSq, vecNormSq, vecApplyQuat. intros H.
  nsatz.
Qed.

Lemma orientationToQuat_unit (alpha beta gamma : R) :
  quatNormSq (orientationToQuat alpha beta gamma) = 1.
Proof.
  unfold orientationToQuat.
  rewrite quatNormSq_quatMultiply, quatNormSq_quatFromEulerYXZ, quatNormSq_backFacing.
  ring.
Qed.

(** X1: in exact real arithmetic (the rounding of doubles is not
    modelled), the matrix of a quaternion, applied to a vector, is the
    rotation of the vector by the quaternion, whatever the quaternion; its
    last row is (0, 0, 0, 1) and it has no translation. *)
Theorem matFromQuat_applies_rotation :
  forall (q : Quaternion) (v : Vector),
    matApplyVec (matFromQuat q) v = vecApplyQuat v q /\
    snd (matFromQuat q) = (0, 0, 0, 1) /\
    matApplyVec (matFromQuat q) (0, 0, 0) = (0, 0, 0).
Proof.
  intros [[[x y] z] w] [[vx vy] vz].
  unfold matApplyVec, matFromQuat, vecApplyQuat. cbn [snd].
  repeat split; components; ring.
Qed.

(** X2: in exact real arithmetic (the rounding of doubles is not
    modelled), rotating a vector by a quaternion of squared-component sum 1
    keeps the squared length of the vector. *)
Theorem vecApplyQuat_preserves_length (v : Vector) (q : Quaternion) :
  quatNormSq q = 1 -> vecNormSq (vecApplyQuat v q) = vecNormSq v.
Proof. apply vecApplyQuat_length. Qed.

(** X3: the Euler conversion is the product of the rotation about Y, the
    rotation about X and the rotation about Z, in that order; the rotation
    about one axis by an angle has the sine of the half angle on that axis
    and its cosine as the scalar; the zero angles give the identity. *)
Theorem quatFromEulerYXZ_axis_order :
  forall x y z : R,
    quatFromEulerYXZ (x, y, z)
    = quatMultiply
        (quatMultiply (quatFromEulerYXZ (0, y, 0)) (quatFromEulerYXZ (x, 0, 0)))
        (quatFromEulerYXZ (0, 0, z)) /\
    quatFromEulerYXZ (x, 0, 0) = (sin (x / 2), 0, 0, cos (x / 2)) /\
    quatFromEulerYXZ (0, y, 0) = (0, sin (y / 2), 0, cos (y / 2)) /\
    quatFromEulerYXZ (0, 0, z) = (0, 0, sin (z / 2), cos (z / 2)) /\
    quatFromEulerYXZ (0, 0, 0) = quatIdentity.
Proof.
  intros x y z. unfold quatFromEulerYXZ, quatMultiply, quatIdentity.
  replace (0 / 2) with 0 by lra. rewrite cos_0, sin_0.
  repeat split; components; ring.
Qed.

(** X4: in exact real arithmetic (the rounding of doubles is not
    modelled), the quaternion product is associative with the identity
    rotation as its unit on both sides, and rotating by a product of two
    quaternions of squared-component sum 1 is rotating by the right factor
    first, then by the left one. *)
Theorem quatMultiply_composes_rotations :
  (forall a b c : Quaternion,
      quatMultiply (quatMultiply a b) c = quatMultiply a (quatMultiply b c)) /\
  (forall q : Quaternion,
      quatMultiply q quatIdentity = q /\ quatMultiply quatIdentity q = q) /\
  (forall (a b : Quaternion) (v : Vector),
      quatNormSq a = 1 -> quatNormSq b = 1 ->
      vecApplyQuat v (quatMultiply a b) = vecApplyQuat (vecApplyQuat v b) a).
Proof.
  split; [|split].
  - intros [[[ax ay] az] aw] [[[bx by'] bz] bw] [[[cx cy] cz] cw].
    unfold quatMultiply. components; ring.
  - intros [[[x y] z] w]. unfold quatMultiply, quatIdentity.
    split; components; ring.
  - intros [[[ax ay] az] aw] [[[bx by'] bz] bw] [[vx vy] vz].
    unfold quatNormSq, quatMultiply, vecApplyQuat. intros Ha Hb.
    components; nsatz.
Qed.

End RotationFacts.

(** A rotation of a quarter turn about X, applied to (1, 2, 3). *)
Lemma vecApplyQuat_preserves_length_witness :
  vecNormSq (vecApplyQuat (1%R, 2%R, 3%R) backFacing) = vecNormSq (1%R, 2%R, 3%R).
Proof.
  apply (vecApplyQuat_preserves_length (1%R, 2%R, 3%R) backFacing).
  apply quatNormSq_backFacing.
Defined.

(** The quaternion of a device lying flat, composed with the identity. *)
Lemma quatMultiply_composes_rotations_witness :
  vecApplyQuat (1%R, 2%R, 3%R) (quatMultiply backFacing quatIdentity)
  = vecApplyQuat (vecApplyQuat (1%R, 2%R, 3%R) quatIdentity) backFacing.
Proof.
  apply (proj2 (proj2 quatMultiply_composes_rotations) backFacing quatIdentity
           (1%R, 2%R, 3%R)).
  - apply quatNormSq_backFacing.
  - unfold quatNormSq, quatIdentity. lra.
Defined.

(** ** Event synthesis *)

Section SynthesisFacts.

Local Open Scope R_scope.

(** X5: for the same raw motion event the vectors of the events built on a
    platform of the inverted convention are the negations of those built
    elsewhere; both events carry the interval of the raw event and are not
    marked inaccurate.  Where the raw event has no gravity-exclusive reading
    the vector is (0, 0, 0); where it has no gravity-inclusive reading, or
    one without its y component, y is the constant of gravity, with the
    sign of the platform. *)
Theorem motion_event_sign_convention :
  (forall e : DeviceMotionEvent,
      acc (detail (accelerationEventFromDevice true e))
      = vecSub (0, 0, 0) (acc (detail (accelerationEventFromDevice false e))) /\
      acc (detail (accelerationInclGravityEventFromDevice true e))
      = vecSub (0, 0, 0) (acc (detail (accelerationInclGravityEventFromDevice false e)))) /\
  (forall (ios : bool) (e : DeviceMotionEvent),
      interval (detail (accelerationEventFromDevice ios e)) = m_interval e /\
      inaccurate (detail (accelerationEventFromDevice ios e)) = false /\
      interval (detail (accelerationInclGravityEventFromDevice ios e)) = m_interval e /\
      inaccurate (detail (accelerationInclGravityEventFromDevice ios e)) = false) /\
  (forall (ios : bool) (g : option DeviceAcceleration) (i : R),
      acc (detail (accelerationEventFromDevice ios
                     {| m_acceleration := None;
                        m_accelerationIncludingGravity := g;
                        m_interval := i |}))
      = (0, 0, 0)) /\
  (forall (a : option DeviceAcceleration) (i : R),
      let e := {| m_acceleration := a;
                  m_accelerationIncludingGravity := None;
                  m_interval := i |} in
      acc (detail (accelerationInclGravityEventFromDevice false e)) = (0, GRAVITY, 0) /\
      acc (detail (accelerationInclGravityEventFromDevice true e)) = (0, - GRAVITY, 0)) /\
  (forall (a : option DeviceAcceleration) (x z i : R),
      acc (detail (accelerationInclGravityEventFromDevice false
                     {| m_acceleration := a;
                        m_accelerationIncludingGravity :=
                          Some {| a_x := Some x; a_y := None; a_z := Some z |};
                        m_interval := i |}))
      = (x, GRAVITY, z)).
Proof.
  split; [|split; [|split; [|split]]].
  - intros e.
    cbn [accelerationEventFromDevice accelerationInclGravityEventFromDevice createEvent
         detail acc axisSign].
    unfold vecSub. split; repeat (apply (f_equal2 pair)); ring.
  - intros ios e. by cbn.
  - intros ios g i.
    cbn [accelerationEventFromDevice createEvent detail acc m_acceleration reading].
    repeat (apply (f_equal2 pair)); ring.
  - intros a i e. subst e.
    cbn [accelerationInclGravityEventFromDevice createEvent detail acc
         m_accelerationIncludingGravity reading axisSign].
    split; repeat (apply (f_equal2 pair)); ring.
  - intros a x z i.
    cbn [accelerationInclGravityEventFromDevice createEvent detail acc
         m_accelerationIncludingGravity reading nullish a_x a_y a_z axisSign].
    repeat (apply (f_equal2 pair)); ring.
Qed.

End SynthesisFacts.

(** ** Registration and removal *)

Section RegistrationFacts.

Variable stops : Behaviour.

Lemma js_add_existing {A : Type} `{EqDecision A} (x : A) (s : list A) :
  x ∈ s -> js_add x s = s.
Proof. intros Hx. unfold js_add, js_has. by rewrite bool_decide_eq_true_2. Qed.

Lemma js_delete_absent {A : Type} `{EqDecision A} (x : A) (s : list A) :
  x ∉ s -> js_delete x s = (false, s).
Proof.
  intros Hx. unfold js_delete, js_has. rewrite bool_decide_eq_false_2 by done.
  f_equal. induction s as [|y s IH]; [done|].
  apply not_elem_of_cons in Hx as [Hne Hx].
  rewrite filter_cons_True by done. by rewrite IH.
Qed.

Lemma js_delete_last {A : Type} `{EqDecision A} (x : A) (s : list A) :
  x ∉ s -> js_delete x (s ++ [x]) = (true, s).
Proof.
  intros Hx. unfold js_delete, js_has. f_equal.
  - apply bool_decide_eq_true_2, elem_of_app. right. by apply list_elem_of_singleton.
  - rewrite filter_app. change (filter (λ y : A, y ≠ x) s) with (snd (js_delete x s)).
    rewrite (js_delete_absent x s Hx). cbn [snd].
    rewrite filter_cons_False by (by intros H'; apply H'). by rewrite app_nil_r.
Qed.

Lemma js_delete_gone {A : Type} `{EqDecision A} (x : A) (s : list A) :
  x ∉ snd (js_delete x s).
Proof. cbn. intros [Hne _]%list_elem_of_filter. by apply Hne. Qed.

Lemma with_callbacks_same (s : MotionObserver) : with_callbacks (callbacks s) s = s.
Proof. by destruct s. Qed.

Lemma with_onceCallbacks_same (s : MotionObserver) :
  with_onceCallbacks (onceCallbacks s) s = s.
Proof. by destruct s. Qed.

(** X6: registering a listener that is already in the set of its type, with
    [bind] or with [once], changes nothing: the listener keeps its place in
    the order of dispatch and is not registered a second time. *)
Theorem register_existing_listener_noop
    (type : MotionType) (cb : Listener) (s : MotionObserver) (cbs : list Listener) :
  cb ∈ cbs ->
  (callbacks s !! type = Some cbs ->
   bind type cb s = (Ok tt, s) /\ addEventListener type cb s = (Ok tt, s)
   /\ on type cb s = (Ok tt, s)) /\
  (onceCallbacks s !! type = Some cbs -> once type cb s = (Ok tt, s)).
Proof.
  intros Hin. split.
  - intros Hc. unfold addEventListener, on, bind. rewrite Hc.
    rewrite (js_add_existing cb cbs Hin), (insert_id _ _ _ Hc), with_callbacks_same.
    done.
  - intros Ho. unfold once. rewrite Ho.
    rewrite (js_add_existing cb cbs Hin), (insert_id _ _ _ Ho), with_onceCallbacks_same.
    done.
Qed.

(** X7: removing a listener right after registering it gives back the
    observer as it was, and reports the listener found: for [bind] when the
    listener was not among the persistent ones, for [once] when it was in
    neither set. *)
Theorem unbind_undoes_registration
    (type : MotionType) (cb : Listener) (s : MotionObserver) (ps os : list Listener) :
  callbacks s !! type = Some ps ->
  cb ∉ ps ->
  unbind type cb (snd (bind type cb s)) = (Ok true, s) /\
  (onceCallbacks s !! type = Some os -> cb ∉ os ->
   unbind type cb (snd (once type cb s)) = (Ok true, s)).
Proof.
  intros Hc Hps. split.
  - unfold bind. rewrite Hc. cbn [snd]. unfold unbind.
    cbn [callbacks with_callbacks]. rewrite lookup_insert_eq.
    rewrite (js_add_new cb ps Hps), (js_delete_last cb ps Hps).
    rewrite insert_insert_eq, (insert_id _ _ _ Hc).
    by destruct s.
  - intros Ho Hos. unfold once. rewrite Ho. cbn [snd]. unfold unbind.
    cbn [callbacks with_onceCallbacks]. rewrite Hc.
    rewrite (js_delete_absent cb ps Hps).
    cbn [onceCallbacks with_callbacks with_onceCallbacks]. rewrite lookup_insert_eq.
    rewrite (js_add_new cb os Hos), (js_delete_last cb os Hos).
    rewrite insert_insert_eq, (insert_id _ _ _ Ho), (insert_id _ _ _ Hc).
    by destruct s.
Qed.

(** What [unbind] returns and leaves in the two sets of its type. *)
Lemma unbind_sets (type : MotionType) (cb : Listener) (s : MotionObserver)
    (ps os : list Listener) :
  callbacks s !! type = Some ps ->
  onceCallbacks s !! type = Some os ->
  fst (unbind type cb s) = Ok (js_has cb ps || js_has cb os) /\
  callbacks (snd (unbind type cb s)) !! type = Some (snd (js_delete cb ps)) /\
  onceCallbacks (snd (unbind type cb s)) !! type
  = Some (if js_has cb ps then os else snd (js_delete cb os)) /\
  log (snd (unbind type cb s)) = log s.
Proof.
  intros Hc Ho. unfold unbind, js_delete. rewrite Hc.
  destruct (js_has cb ps) eqn:Hps.
  - cbn [fst snd callbacks onceCallbacks with_callbacks log orb].
    by rewrite lookup_insert_eq.
  - cbn [onceCallbacks with_callbacks]. rewrite Ho.
    cbn [fst snd callbacks onceCallbacks with_callbacks with_onceCallbacks log orb].
    by rewrite !lookup_insert_eq.
Qed.

(** X8: [unbind] looks for the listener among the persistent listeners
    first and among the one-shot ones only if it was not there: it returns
    whether the listener was in one of the two sets and leaves it out of
    the persistent set; a listener registered both ways loses only its
    persistent registration. *)
Theorem unbind_prefers_persistent
    (type : MotionType) (cb : Listener) (s : MotionObserver) (ps os : list Listener) :
  callbacks s !! type = Some ps ->
  onceCallbacks s !! type = Some os ->
  let s' := snd (unbind type cb s) in
  fst (unbind type cb s) = Ok (js_has cb ps || js_has cb os) /\
  (exists ps', callbacks s' !! type = Some ps' /\ (cb ∉ ps')
               /\ (cb ∉ ps -> ps' = ps)) /\
  (cb ∈ ps -> onceCallbacks s' = onceCallbacks s) /\
  (cb ∉ ps ->
   exists os', onceCallbacks s' !! type = Some os' /\ (cb ∉ os')
               /\ (cb ∉ os -> os' = os)) /\
  removeEventListener type cb s = unbind type cb s /\
  off type cb s = unbind type cb s.
Proof.
  intros Hc Ho s'. subst s'.
  destruct (unbind_sets type cb s ps os Hc Ho) as (Hr & Hc' & Ho' & _).
  split; [exact Hr|]. split; [|split; [|split; [|done]]].
  - exists (snd (js_delete cb ps)). split; [exact Hc'|]. split; [apply js_delete_gone|].
    intros Hps. by rewrite (js_delete_absent cb ps Hps).
  - intros Hps. unfold unbind, js_delete, js_has. rewrite Hc.
    by rewrite bool_decide_eq_true_2.
  - intros Hps. exists (snd (js_delete cb os)). split.
    + rewrite Ho'. unfold js_has. by rewrite bool_decide_eq_false_2.
    + split; [apply js_delete_gone|]. intros Hos. by rewrite (js_delete_absent cb os Hos).
Qed.

End RegistrationFacts.

(** Listener 1 is bound to orientation, then bound again and registered
    with [on]. *)
Lemma register_existing_listener_noop_witness :
  let s := run android (stopsAt 0) [Bind Orientation 1%nat; Bind Orientation 2%nat]
             new_MotionObserver in
  bind Orientation 1%nat s = (Ok tt, s) /\ addEventListener Orientation 1%nat s = (Ok tt, s)
  /\ on Orientation 1%nat s = (Ok tt, s).
Proof.
  intros s.
  apply (proj1 (register_existing_listener_noop Orientation 1%nat s [1%nat; 2%nat]
                 ltac:(apply elem_of_cons; left; reflexivity))).
  reflexivity.
Defined.

(** Listener 3 is bound to acceleration on an observer that has listener 1
    there, then unbound. *)
Lemma unbind_undoes_registration_witness :
  let s := run android (stopsAt 0) [Bind Acceleration 1%nat] new_MotionObserver in
  unbind Acceleration 3%nat (snd (bind Acceleration 3%nat s)) = (Ok true, s).
Proof.
  intros s.
  destruct (unbind_undoes_registration Acceleration 3%nat s [1%nat] []) as [H _].
  - reflexivity.
  - apply not_elem_of_cons. split; [discriminate | apply not_elem_of_nil].
  - exact H.
Defined.

(** Listener 1 is registered for orientation both ways and unbound once:
    it is still a one-shot listener. *)
Lemma unbind_prefers_persistent_witness :
  let s := run android (stopsAt 0) [Bind Orientation 1%nat; Once Orientation 1%nat]
             new_MotionObserver in
  fst (unbind Orientation 1%nat s) = Ok true /\
  onceCallbacks (snd (unbind Orientation 1%nat s)) !! Orientation = Some [1%nat].
Proof.
  intros s.
  destruct (unbind_prefers_persistent Orientation 1%nat s [1%nat] [1%nat])
    as (Hr & _ & Ho & _).
  - reflexivity.
  - reflexivity.
  - split; [exact Hr|]. rewrite Ho; [reflexivity|].
    apply elem_of_cons. left. reflexivity.
Defined.

(** ** More on dispatch passes *)

Section PassFacts.

Variable stops : Behaviour.

(** The log a pass leaves, in terms of the two sets of its type. *)
Lemma triggerCallbacks_log_sets type event (s : MotionObserver) (ps os : list Listener) :
  callbacks s !! type = Some ps ->
  onceCallbacks s !! type = Some os ->
  exists k j : nat,
    log (snd (triggerCallbacks stops type event s))
    = log s ++ callsTo Persistent type event (take k ps)
            ++ callsTo OneShot type event (take j os).
Proof.
  intros Hps Hos. unfold triggerCallbacks. rewrite Hps.
  destruct (runListeners_prefix stops Persistent type event (eventCancelBubble event) ps
              (log s)) as (k & Hk & _).
  destruct (runListeners stops Persistent type event (eventCancelBubble event) ps (log s))
    as [exit lg].
  cbn in Hk. subst lg. exists k. destruct exit.
  - cbn [onceCallbacks with_log log]. rewrite Hos.
    destruct (runListeners_prefix stops OneShot type event (eventCancelBubble event) os
                (log s ++ callsTo Persistent type event (take k ps))) as (j & Hj & _).
    destruct (runListeners stops OneShot type event (eventCancelBubble event) os
                (log s ++ callsTo Persistent type event (take k ps))) as [exit2 lg2].
    cbn in Hj. subst lg2. exists j. destruct exit2; cbn; by rewrite <- app_assoc.
  - exists 0%nat. cbn. by rewrite app_nil_r.
  - exists 0%nat. cbn. by rewrite app_nil_r.
Qed.

Lemma listenersOf_callsTo phase type event (cbs : list Listener) :
  listenersOf (callsTo phase type event cbs) = cbs.
Proof.
  unfold listenersOf, callsTo. rewrite map_map. cbn. apply map_id.
Qed.

(** X9: once [unbind] has removed a listener that was not registered both
    as a persistent and as a one-shot listener of the type, no pass for the
    type calls it. *)
Theorem unbound_listener_not_called
    (type : MotionType) (cb : Listener) (s : MotionObserver) (ps os : list Listener)
    (event : MotionObserverEvent) :
  callbacks s !! type = Some ps ->
  onceCallbacks s !! type = Some os ->
  cb ∉ ps \/ cb ∉ os ->
  let s1 := snd (unbind type cb s) in
  cb ∉ listenersOf (callsSince s1 (snd (triggerCallbacks stops type event s1))).
Proof.
  intros Hc Ho Hnot s1.
  destruct (unbind_sets type cb s ps os Hc Ho) as (_ & Hc1 & Ho1 & _).
  fold s1 in Hc1, Ho1.
  destruct (triggerCallbacks_log_sets type event s1 _ _ Hc1 Ho1) as (k & j & Hlog).
  rewrite (callsSince_app _ _ _ Hlog).
  unfold listenersOf. rewrite map_app. fold (listenersOf (callsTo Persistent type event
    (take k (snd (js_delete cb ps))))).
  fold (listenersOf (callsTo OneShot type event
    (take j (if js_has cb ps then os else snd (js_delete cb os))))).
  rewrite !listenersOf_callsTo.
  intros [Hin|Hin]%elem_of_app.
  - apply subseteq_take in Hin. by apply (js_delete_gone cb ps).
  - apply subseteq_take in Hin. unfold js_has in Hin.
    destruct (decide (cb ∈ ps)) as [Hps|Hps].
    + rewrite bool_decide_eq_true_2 in Hin by done. by destruct Hnot.
    + rewrite bool_decide_eq_false_2 in Hin by done. by apply (js_delete_gone cb os).
Qed.

(** X20: a pass in which every listener, when called, returns without
    stopping the propagation calls every persistent listener of the type
    in insertion order, then every one-shot listener in insertion order,
    returns, and leaves the one-shot set of the type empty and everything
    else but the log as it was.  A pass in which a listener throws is not
    such a pass: it ends at that listener. *)
Theorem pass_calls_persistent_then_one_shot
    (type : MotionType) (event : MotionObserverEvent) (s : MotionObserver)
    (ps os : list Listener) :
  eventCancelBubble event = false ->
  callbacks s !! type = Some ps ->
  onceCallbacks s !! type = Some os ->
  noneStops stops Persistent type event (log s) ps ->
  noneStops stops OneShot type event (log s ++ callsTo Persistent type event ps) os ->
  triggerCallbacks stops type event s
  = (Ok tt,
     with_onceCallbacks (<[type := []]> (onceCallbacks s))
       (with_log (log s ++ callsTo Persistent type event ps
                        ++ callsTo OneShot type event os) s)) /\
  listenersOf (callsSince s (snd (triggerCallbacks stops type event s))) = ps ++ os.
Proof.
  intros Hfresh Hps Hos Hnone Hnone1.
  rewrite (triggerCallbacks_all stops type event s ps os Hfresh Hps Hos Hnone Hnone1).
  split; [done|]. cbn [snd].
  rewrite (callsSince_app s _ (callsTo Persistent type event ps
                                 ++ callsTo OneShot type event os)) by done.
  unfold listenersOf. rewrite map_app.
  fold (listenersOf (callsTo Persistent type event ps)).
  fold (listenersOf (callsTo OneShot type event os)).
  by rewrite !listenersOf_callsTo.
Qed.

(** X17: when every persistent listener returns without stopping the
    propagation and a one-shot listener, after one-shot listeners that did
    the same, returns and stops it, the one-shot listeners registered after
    it are not called, and they are discarded with the rest: the one-shot
    set of the type is left empty. *)
Theorem one_shot_stop_discards_the_rest
    (type : MotionType) (event : MotionObserverEvent) (s : MotionObserver)
    (ps l1 l2 : list Listener) (b : Listener) :
  eventCancelBubble event = false ->
  callbacks s !! type = Some ps ->
  onceCallbacks s !! type = Some (l1 ++ b :: l2) ->
  noneStops stops Persistent type event (log s) ps ->
  noneStops stops OneShot type event (log s ++ callsTo Persistent type event ps) l1 ->
  stops (log s ++ callsTo Persistent type event ps ++ callsTo OneShot type event l1)
        (callOf OneShot type event b) = true ->
  triggerCallbacks stops type event s
  = (Ok tt,
     with_onceCallbacks (<[type := []]> (onceCallbacks s))
       (with_log (log s ++ callsTo Persistent type event ps
                        ++ callsTo OneShot type event (l1 ++ [b])) s)).
Proof.
  intros Hfresh Hps Hos Hnone Hnone1 Hb. unfold triggerCallbacks.
  rewrite Hps, Hfresh. rewrite (runListeners_all _ _ _ _ _ _ Hnone).
  cbn [onceCallbacks with_log log]. rewrite Hos.
  rewrite app_assoc in Hb.
  rewrite (runListeners_stop _ _ _ _ _ _ _ _ Hnone1 Hb). by rewrite <- app_assoc.
Qed.

End PassFacts.

(** Listener 2, registered once, is unbound before the first pass. *)
Lemma unbound_listener_not_called_witness :
  let s := run android (stopsAt 0) [Bind Orientation 1%nat; Once Orientation 2%nat]
             new_MotionObserver in
  let s1 := snd (unbind Orientation 2%nat s) in
  2%nat ∉ listenersOf
            (callsSince s1 (snd (triggerCallbacks (stopsAt 0) Orientation flatEvent s1))).
Proof.
  intros s.
  apply (unbound_listener_not_called (stopsAt 0) Orientation 2%nat s [1%nat] [2%nat]
           flatEvent).
  - reflexivity.
  - reflexivity.
  - left. apply not_elem_of_cons. split; [discriminate | apply not_elem_of_nil].
Defined.

(** Two persistent and two one-shot listeners, none of which stops the
    propagation. *)
Lemma pass_calls_persistent_then_one_shot_witness :
  let s := run android (stopsAt 9)
             [Once Orientation 3%nat; Bind Orientation 1%nat;
              Once Orientation 4%nat; Bind Orientation 2%nat]
             new_MotionObserver in
  listenersOf (callsSince s (snd (triggerCallbacks (stopsAt 9) Orientation flatEvent s)))
  = [1%nat; 2%nat] ++ [3%nat; 4%nat].
Proof.
  intros s.
  apply (pass_calls_persistent_then_one_shot (stopsAt 9) Orientation flatEvent s
           [1%nat; 2%nat] [3%nat; 4%nat]).
  - reflexivity.
  - reflexivity.
  - reflexivity.
  - intros [|[|i]] cb Hi; try discriminate Hi; injection Hi as <-; reflexivity.
  - intros [|[|i]] cb Hi; try discriminate Hi; injection Hi as <-; reflexivity.
Defined.

(** Three one-shot listeners, the second of which stops the propagation:
    the third is discarded uncalled. *)
Lemma one_shot_stop_discards_the_rest_witness :
  let s := run android (stopsAt 2)
             [Once Orientation 1%nat; Once Orientation 2%nat; Once Orientation 3%nat]
             new_MotionObserver in
  let s' := snd (triggerCallbacks (stopsAt 2) Orientation flatEvent s) in
  listenersOf (log s') = [1%nat; 2%nat] /\
  onceCallbacks s' !! Orientation = Some [].
Proof.
  intros s.
  rewrite (one_shot_stop_discards_the_rest (stopsAt 2) Orientation flatEvent s
             [] [1%nat] [3%nat] 2%nat).
  - split; reflexivity.
  - reflexivity.
  - reflexivity.
  - reflexivity.
  - intros i cb Hi. discriminate Hi.
  - intros [|i] cb Hi; try discriminate Hi; injection Hi as <-; reflexivity.
  - reflexivity.
Defined.

(** ** Wiring of the raw handlers *)

Section WiringFacts.

Variable platform : Platform.
Variable stops : Behaviour.

Lemma removeListeners_window (s : MotionObserver) : window (removeListeners s) = [].
Proof.
  unfold removeListeners, removeEventListenerFromWindow, js_delete.
  cbn [window with_window snd].
  induction (window s) as [|[] w IH]; [done| | |];
    rewrite ?filter_cons_True, ?filter_cons_False by (try done; by intros H; apply H);
    exact IH.
Qed.

Lemma fold_addEventListenerToWindow (required : list NativeEventType) :
  forall s : MotionObserver,
    fold_left (fun s e => addEventListenerToWindow e s) required s
    = with_window (fold_left (fun w e => js_add e w) required (window s)) s.
Proof.
  induction required as [|e rest IH]; intros s; [by destruct s|].
  cbn [fold_left]. by rewrite IH.
Qed.

Lemma js_add_NoDup {A : Type} `{EqDecision A} (x : A) (s : list A) :
  NoDup s -> NoDup (js_add x s).
Proof.
  intros Hs. unfold js_add, js_has. case_bool_decide as Hx; [done|].
  apply NoDup_app. split; [done|]. split; [|apply NoDup_singleton].
  intros y Hy ->%list_elem_of_singleton. by apply Hx.
Qed.

Lemma fold_js_add_NoDup {A : Type} `{EqDecision A} (l : list A) :
  forall acc : list A,
    NoDup (acc ++ l) -> fold_left (fun acc e => js_add e acc) l acc = acc ++ l.
Proof.
  induction l as [|x l IH]; intros acc Hnd; [by rewrite app_nil_r|].
  cbn [fold_left].
  assert (Hx : x ∉ acc).
  { apply NoDup_app in Hnd as (_ & Hdisj & _). intros Hin.
    apply (Hdisj x Hin). apply elem_of_cons. by left. }
  rewrite (js_add_new x acc Hx). rewrite IH; rewrite <- app_assoc; done.
Qed.

Lemma elem_of_js_add {A : Type} `{EqDecision A} (e x : A) (w : list A) :
  e ∈ js_add x w <-> e ∈ w \/ e = x.
Proof.
  unfold js_add, js_has. case_bool_decide as Hx.
  - split; [by left|]. by intros [H'| ->].
  - by rewrite elem_of_app, list_elem_of_singleton.
Qed.

Lemma js_has_add {A : Type} `{EqDecision A} (e x : A) (w : list A) :
  js_has e (js_add x w) = js_has e w || bool_decide (e = x).
Proof.
  apply eq_true_iff_eq. unfold js_has at 1 2.
  by rewrite orb_true_iff, !bool_decide_eq_true, elem_of_js_add.
Qed.

Lemma requiredNativeEvents_fold (obs : list MotionType) :
  forall acc : list NativeEventType,
    let f := fun required e =>
               match e with
               | Orientation =>
                   js_add NativeOrientationAbsolute (js_add NativeOrientation required)
               | AccelerationInclGravity => js_add NativeMotion required
               | Acceleration => js_add NativeOrientation (js_add NativeMotion required)
               end in
    (NoDup acc -> NoDup (fold_left f obs acc)) /\
    forall e, js_has e (fold_left f obs acc)
              = js_has e acc || existsb (fun t => requires t e) obs.
Proof.
  induction obs as [|t obs IH]; intros acc f.
  - split; [done|]. intros e. cbn. by rewrite orb_false_r.
  - cbn [fold_left existsb]. destruct (IH (f acc t)) as [Hnd Hhas]. split.
    + intros Hacc. apply Hnd. subst f. destruct t; cbn beta iota; by repeat apply js_add_NoDup.
    + intros e. fold f. rewrite Hhas. rewrite orb_assoc. f_equal.
      subst f. destruct t; cbn beta iota; rewrite ?js_has_add; destruct e; cbn;
        rewrite ?orb_false_r, ?orb_true_r; try done.
Qed.

(** What [#addListeners] leaves on [window]. *)
Lemma addListeners_window (s : MotionObserver) :
  addListeners s = with_window (requiredNativeEvents (observed s)) s.
Proof.
  unfold addListeners. rewrite fold_addEventListenerToWindow.
  rewrite removeListeners_window.
  destruct (requiredNativeEvents_fold (observed s) []) as [Hnd _].
  rewrite (fold_js_add_NoDup _ []) by (cbn; apply Hnd; apply NoDup_nil_2).
  cbn [app]. unfold removeListeners, removeEventListenerFromWindow. by destruct s.
Qed.

Lemma addListeners_has (s : MotionObserver) (e : NativeEventType) :
  js_has e (window (addListeners s)) = existsb (fun t => requires t e) (observed s).
Proof.
  rewrite addListeners_window. cbn [window with_window].
  destruct (requiredNativeEvents_fold (observed s) []) as [_ Hhas].
  unfold requiredNativeEvents. by rewrite Hhas.
Qed.

Lemma existsb_js_has {A : Type} `{EqDecision A} (f : A -> bool) (x : A) (s : list A) :
  js_has x s = true -> f x = true -> existsb f s = true.
Proof.
  intros Hx Hf. apply existsb_exists. exists x. split; [|done].
  apply list_elem_of_In. by apply bool_decide_eq_true_1 in Hx.
Qed.

(** X10: reconciling the wiring leaves on [window] exactly the handlers the
    observed motion types ask for, whatever was there before: the motion
    handler when acceleration or gravity-inclusive acceleration is observed,
    the relative-orientation handler when orientation or acceleration is,
    the absolute-orientation handler when orientation is.  Reconciling a
    second time changes nothing. *)
Theorem addListeners_wires_what_is_observed (s : MotionObserver) :
  addListeners s = with_window (requiredNativeEvents (observed s)) s /\
  js_has NativeMotion (window (addListeners s))
  = js_has AccelerationInclGravity (observed s) || js_has Acceleration (observed s) /\
  js_has NativeOrientation (window (addListeners s))
  = js_has Orientation (observed s) || js_has Acceleration (observed s) /\
  js_has NativeOrientationAbsolute (window (addListeners s))
  = js_has Orientation (observed s) /\
  addListeners (addListeners s) = addListeners s.
Proof.
  assert (Hex : forall (e : NativeEventType) (b : bool),
             (b = true <-> exists t, t ∈ observed s /\ requires t e = true) ->
             js_has e (window (addListeners s)) = b).
  { intros e b Hb. rewrite addListeners_has. apply eq_true_iff_eq.
    rewrite existsb_exists. rewrite Hb. split.
    - intros (t & Hin & Ht). exists t. by apply list_elem_of_In in Hin.
    - intros (t & Hin & Ht). exists t. by apply list_elem_of_In in Hin. }
  split; [apply addListeners_window|]. split; [|split; [|split]].
  - apply Hex. unfold js_has. rewrite orb_true_iff, !bool_decide_eq_true. split.
    + intros [H|H]; eexists; (split; [exact H | done]).
    + intros ([] & Hin & Ht); try discriminate Ht; auto.
  - apply Hex. unfold js_has. rewrite orb_true_iff, !bool_decide_eq_true. split.
    + intros [H|H]; eexists; (split; [exact H | done]).
    + intros ([] & Hin & Ht); try discriminate Ht; auto.
  - apply Hex. unfold js_has. rewrite bool_decide_eq_true. split.
    + intros H; eexists; (split; [exact H | done]).
    + intros ([] & Hin & Ht); try discriminate Ht; auto.
  - rewrite (addListeners_window (addListeners s)). rewrite addListeners_window.
    by cbn.
Qed.

End WiringFacts.

(** ** The observed set *)

Section ObservedSetFacts.

Variable platform : Platform.
Variable stops : Behaviour.

Lemma js_has_delete {A : Type} `{EqDecision A} (e x : A) (w : list A) :
  js_has e (snd (js_delete x w)) = js_has e w && negb (bool_decide (e = x)).
Proof.
  apply eq_true_iff_eq. unfold js_has, js_delete. cbn [snd].
  rewrite andb_true_iff, negb_true_iff, bool_decide_eq_false, !bool_decide_eq_true.
  rewrite list_elem_of_filter. tauto.
Qed.

Lemma fold_js_delete_has {A : Type} `{EqDecision A} (e : A) (l : list A) :
  forall w : list A,
    js_has e (fold_left (fun w x => snd (js_delete x w)) l w)
    = js_has e w && negb (js_has e l).
Proof.
  induction l as [|x l IH]; intros w; [by rewrite andb_true_r|].
  cbn [fold_left]. rewrite IH, js_has_delete, <- andb_assoc. f_equal.
  apply eq_true_iff_eq. unfold js_has.
  rewrite andb_true_iff, !negb_true_iff, !bool_decide_eq_false, elem_of_cons. tauto.
Qed.

Lemma fold_js_add_has_eq {A : Type} `{EqDecision A} (e : A) (l : list A) :
  forall w : list A,
    js_has e (fold_left (fun w x => js_add x w) l w) = js_has e w || js_has e l.
Proof.
  induction l as [|x l IH]; intros w; [by rewrite orb_false_r|].
  cbn [fold_left]. rewrite IH, js_has_add, <- orb_assoc. f_equal.
  apply eq_true_iff_eq. unfold js_has.
  rewrite orb_true_iff, !bool_decide_eq_true, elem_of_cons. tauto.
Qed.

Lemma js_has_none_nil {A : Type} `{EqDecision A} (w : list A) :
  (forall e, js_has e w = false) -> w = [].
Proof.
  destruct w as [|x w]; [done|]. intros H'. specialize (H' x).
  unfold js_has in H'. apply bool_decide_eq_false_1 in H'. destruct H'.
  apply elem_of_cons. by left.
Qed.

Lemma unobserve_eq (filter : option (list MotionType)) (s : MotionObserver) :
  unobserve filter s
  = with_window
      (requiredNativeEvents
         (fold_left (fun obs e => snd (js_delete e obs)) (filterArr filter) (observed s)))
      (with_observed
         (fold_left (fun obs e => snd (js_delete e obs)) (filterArr filter) (observed s)) s).
Proof. unfold unobserve. by rewrite addListeners_window. Qed.

(** X11: [unobserve] takes the types of its filter, and no other, out of
    the observed set, and leaves on [window] the handlers the remaining
    types ask for; the listeners stay registered.  Without a filter
    nothing is observed any more, no handler is left on [window], and no
    raw event is heard. *)
Theorem unobserve_removes_filter (filter : option (list MotionType)) (s : MotionObserver) :
  let s' := unobserve filter s in
  let s0 := unobserve None s in
  (forall type,
      js_has type (observed s')
      = js_has type (observed s) && negb (js_has type (filterArr filter))) /\
  window s' = requiredNativeEvents (observed s') /\
  callbacks s' = callbacks s /\
  onceCallbacks s' = onceCallbacks s /\
  observed s0 = [] /\
  window s0 = [] /\
  (forall now e, fire platform stops now e s0 = (Ok tt, s0)).
Proof.
  intros s' s0. subst s' s0. rewrite !unobserve_eq.
  cbn [observed window callbacks onceCallbacks with_window with_observed].
  split; [intros type; apply fold_js_delete_has|]. split; [done|].
  split; [done|]. split; [done|].
  assert (H0 : fold_left (fun obs e => snd (js_delete e obs)) (filterArr None) (observed s)
               = []).
  { apply js_has_none_nil. intros type. rewrite fold_js_delete_has.
    replace (js_has type (filterArr None)) with true by (by destruct type).
    apply andb_false_r. }
  rewrite H0. split; [done|]. split; [done|].
  intros now e. unfold fire. by cbn [window with_window requiredNativeEvents fold_left].
Qed.

(** X16: when the permission promise resolves, as it does on a platform
    that gates neither event class whatever the prompts would answer, and
    everywhere when both prompts are granted, [observe] resolves, the
    observed set is the one before with the types of the filter added, the
    handlers those types ask for are on [window], and the listeners, the
    capabilities and the last orientation are as before. *)
Theorem observe_granted_wires_filter
    (filter : option (list MotionType)) (orientationAnswer motionAnswer : PermissionAnswer)
    (s : MotionObserver) :
  requestPermissions platform orientationAnswer motionAnswer = Ok tt ->
  let s' := snd (observe platform filter orientationAnswer motionAnswer s) in
  fst (observe platform filter orientationAnswer motionAnswer s) = Ok tt /\
  (forall type,
      js_has type (observed s')
      = js_has type (observed s) || js_has type (filterArr filter)) /\
  window s' = requiredNativeEvents (observed s') /\
  (forall type e,
      js_has type (filterArr filter) = true -> requires type e = true ->
      js_has e (window s') = true) /\
  callbacks s' = callbacks s /\
  onceCallbacks s' = onceCallbacks s /\
  hasAbsoluteOrientation s' = hasAbsoluteOrientation s /\
  hasAccelerationWithoutGravity s' = hasAccelerationWithoutGravity s /\
  lastOrientationQuat s' = lastOrientationQuat s /\
  requestPermissions platform Granted Granted = Ok tt /\
  (IS_IOS platform = false -> motionGated platform = false ->
   forall a1 a2, requestPermissions platform a1 a2 = Ok tt).
Proof.
  intros Hok s'. subst s'. unfold observe. rewrite Hok. cbn [fst snd].
  assert (Hobs : forall type,
             js_has type (observed (addListeners (observeStart filter s)))
             = js_has type (observed s) || js_has type (filterArr filter)).
  { intros type. rewrite addListeners_window.
    cbn [observed with_window observeStart with_observed]. apply fold_js_add_has_eq. }
  split; [done|]. split; [exact Hobs|]. split; [by rewrite addListeners_window|].
  split.
  { intros type e Htype Hreq. rewrite addListeners_has.
    apply (existsb_js_has _ type); [|done].
    rewrite addListeners_window in Hobs. cbn [observed with_window] in Hobs.
    rewrite Hobs, Htype. apply orb_true_r. }
  rewrite addListeners_window.
  cbn [callbacks onceCallbacks hasAbsoluteOrientation hasAccelerationWithoutGravity
       lastOrientationQuat with_window observeStart with_observed].
  repeat (split; [done|]). split.
  - unfold requestPermissions, permissionGranted.
    by destruct (IS_IOS platform), (motionGated platform).
  - intros H1 H2 a1 a2. unfold requestPermissions, permissionGranted. by rewrite H1, H2.
Qed.

End ObservedSetFacts.

(** Acceleration is observed on a platform without gating: the motion
    handler and the relative-orientation handler are wired. *)
Lemma observe_granted_wires_filter_witness :
  let s' := snd (observe android (Some [Acceleration]) Denied Rejected new_MotionObserver) in
  fst (observe android (Some [Acceleration]) Denied Rejected new_MotionObserver) = Ok tt /\
  window s' = [NativeMotion; NativeOrientation].
Proof.
  intros s'.
  destruct (observe_granted_wires_filter android (Some [Acceleration]) Denied Rejected
              new_MotionObserver) as (Hok & _ & Hwindow & _).
  - reflexivity.
  - split; [exact Hok|]. fold s' in Hwindow. rewrite Hwindow. reflexivity.
Defined.

(** ** What a raw event can dispatch *)

Section DispatchableFacts.

Variable platform : Platform.
Variable stops : Behaviour.

Lemma addsOnly_same_log (P : Call -> Prop) (s s' : MotionObserver) :
  log s' = log s -> addsOnly P s s'.
Proof. intros H. exists []. by rewrite app_nil_r. Qed.

Lemma addsOnly_trans (P : Call -> Prop) (s1 s2 s3 : MotionObserver) :
  addsOnly P s1 s2 -> addsOnly P s2 s3 -> addsOnly P s1 s3.
Proof.
  intros (new1 & H1 & Hall1) (new2 & H2 & Hall2). exists (new1 ++ new2). split.
  - by rewrite H2, H1, <- app_assoc.
  - by apply Forall_app.
Qed.

Lemma addsOnly_seq (P : Call -> Prop) (m1 m2 : M unit) (s : MotionObserver) :
  addsOnly P s (snd (m1 s)) ->
  addsOnly P (snd (m1 s)) (snd (m2 (snd (m1 s)))) ->
  addsOnly P s (snd (seq m1 m2 s)).
Proof.
  intros H1 H2. unfold seq. destruct (m1 s) as [[[]|err] s1]; cbn [snd] in *.
  - by apply (addsOnly_trans P s s1).
  - exact H1.
Qed.

(** A pass adds calls for its type that carry its event, provided the
    condition [Q] that the caller checked implies [P] for them. *)
Lemma addsOnly_trigger (P : Call -> Prop) type event (s0 s : MotionObserver) :
  log s = log s0 ->
  (forall c, call_type c = type -> call_event c = event -> P c) ->
  addsOnly P s0 (snd (triggerCallbacks stops type event s)).
Proof.
  intros Hlog HP. destruct (callbacks s !! type) as [ps|] eqn:Hps.
  - destruct (triggerCallbacks_log stops type event s ps Hps)
      as (k & j & os & Hl & _).
    eexists. rewrite Hl, Hlog. split; [done|].
    apply Forall_app. split; apply Forall_forall; intros c Hc;
      apply list_elem_of_In, in_map_iff in Hc as (cb & <- & _); by apply HP.
  - rewrite triggerCallbacks_undefined by done. by apply addsOnly_same_log.
Qed.

Lemma addsOnly_when (P : Call -> Prop) (c : bool) type event (s0 s : MotionObserver) :
  log s = log s0 ->
  (c = true -> forall c', call_type c' = type -> call_event c' = event -> P c') ->
  addsOnly P s0 (snd (when c (triggerCallbacks stops type event) s)).
Proof.
  intros Hlog HP. destruct c; [|by apply addsOnly_same_log].
  apply addsOnly_trigger; [done | by apply HP].
Qed.

(** Every call made while a raw event is handled is a call for an observed
    type with the event the handler builds for that type. *)
Lemma fire_calls_dispatchable now raw (s : MotionObserver) :
  addsOnly (dispatchable platform s raw) s (snd (fire platform stops now raw s)).
Proof.
  unfold fire. destruct (js_has (nativeEventType raw) (window s));
    [|by apply addsOnly_same_log].
  destruct raw as [e|e|e].
  - unfold handleOrientation, dispatchOrientation.
    destruct (hasAbsoluteOrientation s) as [|deadline|[]] eqn:Habs;
      try (by apply addsOnly_same_log).
    + destruct (deadline <? now)%Z; [|by apply addsOnly_same_log].
      apply addsOnly_when; [done|].
      cbn [observed with_lastOrientationQuat with_hasAbsoluteOrientation].
      intros Hobs c Hc He. unfold dispatchable. rewrite Hc, Habs. by rewrite Hobs.
    + apply addsOnly_when; [done|].
      cbn [observed with_lastOrientationQuat].
      intros Hobs c Hc He. unfold dispatchable. rewrite Hc, Habs. by rewrite Hobs.
  - unfold handleOrientationAbsolute.
    set (s1 := match hasAbsoluteOrientation s with
               | CapBool true => s
               | _ => removeEventListenerFromWindow NativeOrientation
                        (with_hasAbsoluteOrientation (CapBool true) s)
               end).
    assert (H1 : observed s1 = observed s /\ log s1 = log s).
    { subst s1. by destruct (hasAbsoluteOrientation s) as [|deadline|[]]. }
    destruct H1 as [Hobs1 Hlog1]. rewrite Hobs1.
    destruct (js_has Orientation (observed s)) eqn:Hobs;
      [|by apply addsOnly_same_log].
    apply addsOnly_trigger; [done|].
    intros c Hc He. unfold dispatchable. rewrite Hc. by rewrite Hobs.
  - unfold handleMotion.
    destruct (hasAccelerationWithoutGravity s) as [|deadline|[]] eqn:Hg.
    + destruct (accelerationNonZero e); by apply addsOnly_same_log.
    + destruct (accelerationNonZero e), (deadline <? now)%Z; by apply addsOnly_same_log.
    + apply addsOnly_seq.
      * apply addsOnly_when; [done|].
        intros Hobs c Hc He. unfold dispatchable. rewrite Hc, Hobs. split; [done|].
        left. by rewrite Hg.
      * destruct (untouchedByDispatch_when stops (js_has Acceleration (observed s))
                    Acceleration
                    (OfAcceleration (accelerationEventFromDevice (IS_IOS platform) e)) s)
          as (Hobs1 & _).
        rewrite Hobs1.
        destruct (addsOnly_when (dispatchable platform s (DeviceMotion e))
                    (js_has AccelerationInclGravity (observed s)) AccelerationInclGravity
                    (OfAcceleration
                       (accelerationInclGravityEventFromDevice (IS_IOS platform) e))
                    (snd (when (js_has Acceleration (observed s))
                            (triggerCallbacks stops Acceleration
                               (OfAcceleration
                                  (accelerationEventFromDevice (IS_IOS platform) e))) s))
                    (snd (when (js_has Acceleration (observed s))
                            (triggerCallbacks stops Acceleration
                               (OfAcceleration
                                  (accelerationEventFromDevice (IS_IOS platform) e))) s))
                    eq_refl) as (new & Hnew & Hall).
        { intros Hobs c Hc He. unfold dispatchable. rewrite Hc, Hobs. split; [done|].
          split; [by exists true | done]. }
        by exists new.
    + destruct (js_has AccelerationInclGravity (observed s)
                || js_has Acceleration (observed s)
                   && bool_decide (is_Some (lastOrientationQuat s)));
        [|by apply addsOnly_same_log].
      apply addsOnly_seq.
      * apply addsOnly_when; [done|].
        intros Hobs c Hc He. unfold dispatchable. rewrite Hc, Hobs. split; [done|].
        split; [by exists false | done].
      * destruct (untouchedByDispatch_when stops
                    (js_has AccelerationInclGravity (observed s)) AccelerationInclGravity
                    (OfAcceleration
                       (accelerationInclGravityEventFromDevice (IS_IOS platform) e)) s)
          as (_ & _ & _ & Hq1 & _).
        destruct (js_has Acceleration (observed s)) eqn:Hobs;
          [|by apply addsOnly_same_log].
        cbn [andb].
        destruct (bool_decide (is_Some (lastOrientationQuat s)));
          [|by apply addsOnly_same_log].
        rewrite Hq1.
        destruct (lastOrientationQuat s) as [q|] eqn:Hq; [|by apply addsOnly_same_log].
        apply addsOnly_trigger; [done|].
        intros c Hc He. unfold dispatchable. rewrite Hc, Hobs. split; [done|].
        right. rewrite Hg. split; [done|]. by exists q.
Qed.

(** X12: a raw event calls no listener of a motion type that is not in the
    observed set, registered or not; so it is for the type that
    [unobserve] has just been called for. *)
Theorem unobserved_type_never_dispatched
    (type : MotionType) (now : Z) (raw : NativeEvent) (s : MotionObserver) :
  (js_has type (observed s) = false ->
   callsOfType type (callsSince s (snd (fire platform stops now raw s))) = []) /\
  (let s' := unobserve (Some [type]) s in
   callsOfType type (callsSince s' (snd (fire platform stops now raw s'))) = []).
Proof.
  assert (H : forall s0 : MotionObserver,
             js_has type (observed s0) = false ->
             callsOfType type (callsSince s0 (snd (fire platform stops now raw s0))) = []).
  { intros s0 Hoff.
    destruct (fire_calls_dispatchable now raw s0) as (new & Hlog & Hall).
    rewrite (callsSince_app _ _ _ Hlog). apply callsOfType_other.
    eapply Forall_impl; [exact Hall|].
    intros c [Hobs _] Htype. rewrite Htype in Hobs. by rewrite Hoff in Hobs. }
  split; [apply H|]. intros s'. apply H. subst s'.
  rewrite unobserve_eq. cbn [observed with_window with_observed].
  rewrite fold_js_delete_has. cbn [filterArr].
  replace (js_has type [type]) with true; [apply andb_false_r|].
  symmetry. apply bool_decide_eq_true_2, elem_of_cons. by left.
Qed.

(** The calls a session makes carry events of the kind of their type. *)
Lemma run_wellTypedCall (ops : list Op) :
  forall s : MotionObserver,
    Forall wellTypedCall (log s) ->
    Forall wellTypedCall (log (run platform stops ops s)).
Proof.
  induction ops as [|op rest IH]; intros s Hs; [done|].
  cbn [run fold_left]. apply IH.
  destruct op as [now raw| | | | | | |].
  2-8: match goal with
       | |- context [step _ _ _ ?op] =>
           destruct (step_method_frame platform stops op s ltac:(done)) as (_ & _ & -> & _)
       end; exact Hs.
  cbn [step]. destruct (fire_calls_dispatchable now raw s) as (new & -> & Hall).
  apply Forall_app. split; [exact Hs|].
  eapply Forall_impl; [exact Hall|].
  intros c [_ Hc]. unfold wellTypedCall.
  destruct raw as [e|e|e], (call_type c); try done.
  - destruct Hc as [_ ->]. done.
  - rewrite Hc. done.
  - destruct Hc as [_ ->]. done.
  - destruct Hc as [[_ ->]|[_ (q & _ & ->)]]; done.
Qed.

(** X15: in every session of a new observer, every call made to a listener
    carries an event of the kind and name of the motion type the listener
    was called for, and no event handed to a listener of gravity-inclusive
    acceleration is marked inaccurate.  An acceleration event handed to a
    listener while a raw motion event is handled is marked inaccurate
    exactly when the gravity-exclusion capability is false. *)
Theorem dispatched_events_match_their_type :
  (forall ops : list Op,
      Forall wellTypedCall (log (run platform stops ops new_MotionObserver))) /\
  (forall now e (s : MotionObserver) (c : Call) (ev : AccelerationEvent),
      c ∈ callsSince s (snd (fire platform stops now (DeviceMotion e) s)) ->
      call_type c = Acceleration ->
      call_event c = OfAcceleration ev ->
      (inaccurate (detail ev) = true
       <-> hasAccelerationWithoutGravity s = CapBool false)).
Proof.
  split.
  - intros ops. by apply run_wellTypedCall.
  - intros now e s c ev Hin Htype Hev.
    destruct (fire_calls_dispatchable now (DeviceMotion e) s) as (new & Hlog & Hall).
    rewrite (callsSince_app _ _ _ Hlog) in Hin.
    rewrite Forall_forall in Hall. destruct (Hall c Hin) as [_ Hc].
    rewrite Htype in Hc.
    destruct Hc as [[Hg Hc]|[Hg (q & _ & Hc)]]; rewrite Hg;
      rewrite Hev in Hc; injection Hc as ->; by cbn.
Qed.

End DispatchableFacts.

(** Acceleration is observed, orientation is not: a relative-orientation
    event calls no orientation listener. *)
Lemma unobserved_type_never_dispatched_witness :
  let s := run android (stopsAt 0)
             [ObserveStart (Some [Acceleration]); ObserveResume; Bind Orientation 1%nat;
              Fire 0 (DeviceOrientation flat)]
             new_MotionObserver in
  callsOfType Orientation
    (callsSince s (snd (fire android (stopsAt 0) 21 (DeviceOrientation flat) s))) = [].
Proof.
  intros s.
  apply (proj1 (unobserved_type_never_dispatched android (stopsAt 0) Orientation 21%Z
                  (DeviceOrientation flat) s)).
  reflexivity.
Defined.

(** A motion event on a platform that reports gravity-exclusive
    acceleration: the event handed to listener 1 is not marked inaccurate. *)
Lemma dispatched_events_match_their_type_witness :
  let s := with_hasAccelerationWithoutGravity (CapBool true)
             (run android (stopsAt 0)
                [ObserveStart (Some [Acceleration]); ObserveResume; Bind Acceleration 1%nat]
                new_MotionObserver) in
  inaccurate (detail (accelerationEventFromDevice false atRest)) = true
  <-> hasAccelerationWithoutGravity s = CapBool false.
Proof.
  intros s.
  apply (proj2 (dispatched_events_match_their_type android (stopsAt 0)) 0%Z atRest s
           (callOf Persistent Acceleration
              (OfAcceleration (accelerationEventFromDevice false atRest)) 1%nat)).
  - change (callsSince s (snd (fire android (stopsAt 0) 0 (DeviceMotion atRest) s)))
      with [callOf Persistent Acceleration
              (OfAcceleration (accelerationEventFromDevice false atRest)) 1%nat].
    apply elem_of_cons. left. reflexivity.
  - reflexivity.
  - reflexivity.
Defined.

(** ** Resolution of the gravity-exclusion capability *)

Section MotionFacts.

Variable platform : Platform.
Variable stops : Behaviour.

Lemma with_hasAccelerationWithoutGravity_same (s : MotionObserver) :
  with_hasAccelerationWithoutGravity (hasAccelerationWithoutGravity s) s = s.
Proof. by destruct s. Qed.

(** X13: while the gravity-exclusion capability is not yet a boolean, a
    motion event is never dispatched, not even the one that resolves the
    capability: the handler returns, calls no listener and changes nothing
    but the capability.  A non-zero reading resolves it to true at any
    time; an all-zero reading opens the measurement window, leaves it open
    up to and including the deadline, and resolves to false only after
    it. *)
Theorem motion_event_dropped_until_resolved
    (now : Z) (e : DeviceMotionEvent) (s : MotionObserver) :
  (forall b : bool, hasAccelerationWithoutGravity s ≠ CapBool b) ->
  exists cap : Capability,
    handleMotion platform stops now e s
    = (Ok tt, with_hasAccelerationWithoutGravity cap s) /\
    log (snd (handleMotion platform stops now e s)) = log s /\
    (accelerationNonZero e = true -> cap = CapBool true) /\
    (accelerationNonZero e = false ->
     hasAccelerationWithoutGravity s = CapNull ->
     cap = CapNumber (now + MEASUREMENT_EPSILON)) /\
    (accelerationNonZero e = false ->
     forall deadline : Z,
       hasAccelerationWithoutGravity s = CapNumber deadline ->
       ((now <= deadline)%Z -> cap = CapNumber deadline) /\
       ((deadline < now)%Z -> cap = CapBool false)).
Proof.
  intros Hun. unfold handleMotion.
  destruct (hasAccelerationWithoutGravity s) as [|deadline|b] eqn:Hg;
    [| |by destruct (Hun b)].
  - destruct (accelerationNonZero e); eexists; (split; [reflexivity|]); by repeat split.
  - destruct (accelerationNonZero e).
    + eexists; (split; [reflexivity|]); by repeat split.
    + destruct (deadline <? now)%Z eqn:Hlt.
      * eexists; (split; [reflexivity|]). apply Z.ltb_lt in Hlt.
        repeat split; try done; intros; simplify_eq; exfalso; lia.
      * exists (CapNumber deadline). rewrite <- Hg at 1.
        rewrite with_hasAccelerationWithoutGravity_same. apply Z.ltb_ge in Hlt.
        repeat split; try done; intros; simplify_eq; try done; exfalso; lia.
Qed.

(** With the capability resolved to true and both acceleration types
    observed, the handler runs the acceleration pass and, when that pass
    returns, the gravity-inclusive one; what the first pass throws leaves
    the handler. *)
Lemma handleMotion_both (now : Z) (e : DeviceMotionEvent) (s : MotionObserver) :
  hasAccelerationWithoutGravity s = CapBool true ->
  js_has Acceleration (observed s) = true ->
  js_has AccelerationInclGravity (observed s) = true ->
  handleMotion platform stops now e s
  = match triggerCallbacks stops Acceleration
            (OfAcceleration (accelerationEventFromDevice (IS_IOS platform) e)) s with
    | (Ok _, s1) =>
        triggerCallbacks stops AccelerationInclGravity
          (OfAcceleration (accelerationInclGravityEventFromDevice (IS_IOS platform) e)) s1
    | (Throw err, s1) => (Throw err, s1)
    end.
Proof.
  intros Hg HobsA HobsG.
  destruct (triggerCallbacks_frame stops Acceleration
              (OfAcceleration (accelerationEventFromDevice (IS_IOS platform) e)) s)
    as (Hobs1 & _).
  unfold handleMotion. rewrite Hg, HobsA. unfold seq. cbn [when].
  destruct (triggerCallbacks stops Acceleration _ s) as [[[]|err] s1]; [|done].
  cbn [snd] in Hobs1. by rewrite Hobs1, HobsG.
Qed.

(** X14: on a platform that reports gravity-exclusive acceleration, with
    both acceleration types observed, a motion event is dispatched first to
    the listeners of acceleration, then, with an event of its own, to those
    of gravity-inclusive acceleration.  When a persistent acceleration
    listener stops its event, after listeners that returned without
    stopping it, the gravity-inclusive pass runs all the same and its first
    listener is called; so it is whenever the acceleration pass returns.
    When the acceleration pass throws, the handler ends with what was
    thrown and the gravity-inclusive pass does not run: a persistent
    acceleration listener that throws is the last listener called. *)
Theorem stop_on_acceleration_keeps_gravity_pass
    (now : Z) (e : DeviceMotionEvent) (s : MotionObserver)
    (g : Listener) (gs : list Listener) :
  hasAccelerationWithoutGravity s = CapBool true ->
  js_has Acceleration (observed s) = true ->
  js_has AccelerationInclGravity (observed s) = true ->
  callbacks s !! AccelerationInclGravity = Some (g :: gs) ->
  let evA := OfAcceleration (accelerationEventFromDevice (IS_IOS platform) e) in
  let evG := OfAcceleration (accelerationInclGravityEventFromDevice (IS_IOS platform) e) in
  let s1 := snd (triggerCallbacks stops Acceleration evA s) in
  (forall (l1 l2 : list Listener) (b : Listener),
      callbacks s !! Acceleration = Some (l1 ++ b :: l2) ->
      noneStops stops Persistent Acceleration evA (log s) l1 ->
      stops (log s ++ callsTo Persistent Acceleration evA l1)
        (callOf Persistent Acceleration evA b) = true ->
      log s1 = log s ++ callsTo Persistent Acceleration evA (l1 ++ [b]) /\
      handleMotion platform stops now e s
      = triggerCallbacks stops AccelerationInclGravity evG s1 /\
      head (callsSince s1 (snd (handleMotion platform stops now e s)))
      = Some (callOf Persistent AccelerationInclGravity evG g)) /\
  (fst (triggerCallbacks stops Acceleration evA s) = Ok tt ->
   handleMotion platform stops now e s
   = triggerCallbacks stops AccelerationInclGravity evG s1 /\
   head (callsSince s1 (snd (handleMotion platform stops now e s)))
   = Some (callOf Persistent AccelerationInclGravity evG g)) /\
  (forall err : Error,
      fst (triggerCallbacks stops Acceleration evA s) = Throw err ->
      handleMotion platform stops now e s = (Throw err, s1)) /\
  (forall (l1 l2 : list Listener) (b : Listener),
      callbacks s !! Acceleration = Some (l1 ++ b :: l2) ->
      noneStops stops Persistent Acceleration evA (log s) l1 ->
      outcome stops (log s ++ callsTo Persistent Acceleration evA l1)
        (callOf Persistent Acceleration evA b) = Throws ->
      handleMotion platform stops now e s
      = (Throw ListenerError,
         with_log (log s ++ callsTo Persistent Acceleration evA (l1 ++ [b])) s)).
Proof.
  intros Hg HobsA HobsG Hgs evA evG s1.
  pose proof (handleMotion_both now e s Hg HobsA HobsG) as Hboth.
  fold evA evG in Hboth.
  destruct (triggerCallbacks_frame stops Acceleration evA s) as (_ & _ & _ & _ & Hc1 & _).
  fold s1 in Hc1.
  assert (Hret : fst (triggerCallbacks stops Acceleration evA s) = Ok tt ->
                 handleMotion platform stops now e s
                 = triggerCallbacks stops AccelerationInclGravity evG s1 /\
                 head (callsSince s1 (snd (handleMotion platform stops now e s)))
                 = Some (callOf Persistent AccelerationInclGravity evG g)).
  { intros Hok.
    assert (Heq : handleMotion platform stops now e s
                  = triggerCallbacks stops AccelerationInclGravity evG s1).
    { rewrite Hboth. subst s1.
      destruct (triggerCallbacks stops Acceleration evA s) as [[[]|err] s1];
        [done|discriminate Hok]. }
    split; [exact Heq|]. rewrite Heq.
    apply (triggerCallbacks_first stops AccelerationInclGravity evG s1 g gs).
    by rewrite Hc1. }
  split; [|split; [exact Hret|split]].
  - intros l1 l2 b Hps Hnone Hb.
    pose proof (triggerCallbacks_stopped stops Acceleration evA s l1 l2 b eq_refl
                  Hps Hnone Hb) as Hstop.
    split; [subst s1; by rewrite Hstop|].
    apply Hret. by rewrite Hstop.
  - intros err Herr. rewrite Hboth. subst s1.
    destruct (triggerCallbacks stops Acceleration evA s) as [[[]|err'] s1];
      [discriminate Herr|]. cbn in Herr. by injection Herr as ->.
  - intros l1 l2 b Hps Hnone Hb. rewrite Hboth.
    by rewrite (triggerCallbacks_thrown stops Acceleration evA s l1 l2 b eq_refl
                  Hps Hnone Hb).
Qed.

End MotionFacts.

(** The first motion event of the device at rest: it opens the window and
    is not dispatched. *)
Lemma motion_event_dropped_until_resolved_witness :
  let s := run android (stopsAt 0)
             [ObserveStart None; ObserveResume; Bind Acceleration 1%nat]
             new_MotionObserver in
  log (snd (handleMotion android (stopsAt 0) 5 atRest s)) = log s.
Proof.
  intros s.
  destruct (motion_event_dropped_until_resolved android (stopsAt 0) 5%Z atRest s)
    as (cap & _ & Hlog & _).
  - intros b. discriminate.
  - exact Hlog.
Defined.

(** Listener 1 of acceleration stops its event; listener 2 of
    gravity-inclusive acceleration is called all the same. *)
Lemma stop_on_acceleration_keeps_gravity_pass_witness :
  let s := with_hasAccelerationWithoutGravity (CapBool true)
             (run android (stopsAt 1)
                [ObserveStart None; ObserveResume;
                 Bind Acceleration 1%nat; Bind AccelerationInclGravity 2%nat]
                new_MotionObserver) in
  listenersOf (log (snd (handleMotion android (stopsAt 1) 0 atRest s))) = [1%nat; 2%nat].
Proof.
  intros s.
  destruct (proj1 (stop_on_acceleration_keeps_gravity_pass android (stopsAt 1) 0%Z atRest s
                     2%nat [] eq_refl eq_refl eq_refl eq_refl) [] [] 1%nat)
    as (_ & Heq & _).
  - reflexivity.
  - intros i cb Hi. destruct i; discriminate Hi.
  - reflexivity.
  - rewrite Heq. reflexivity.
Defined.

(** ** The last known orientation *)

Section LastOrientationFacts.

Variable platform : Platform.
Variable stops : Behaviour.

(** What an operation can do to the last known orientation: keep it, clear
    it, or replace it by the quaternion of an orientation reading. *)
Lemma step_lastOrientationQuat (op : Op) (s : MotionObserver) :
  let s' := step platform stops s op in
  lastOrientationQuat s' = lastOrientationQuat s \/
  lastOrientationQuat s' = None \/
  exists e, lastOrientationQuat s' = Some (quat (detail (orientationEventFromDevice e))).
Proof.
  cbv zeta. destruct op as [now [e|e|e]| | | | | | |].
  4-10: match goal with
        | |- context [step _ _ _ ?op] =>
            destruct (step_method_frame platform stops op s ltac:(done))
              as (_ & _ & _ & [-> | ->]); auto
        end.
  all: cbn [step]; unfold fire; cbn [nativeEventType];
    (destruct (js_has _ (window s)); [|by left]).
  - unfold handleOrientation.
    destruct (hasAbsoluteOrientation s) as [|deadline|[]]; try (by left).
    + destruct (deadline <? now)%Z; [|by left].
      right. right. exists e. apply dispatchOrientation_lastOrientationQuat.
    + right. right. exists e. apply dispatchOrientation_lastOrientationQuat.
  - unfold handleOrientationAbsolute.
    set (s1 := match hasAbsoluteOrientation s with
               | CapBool true => s
               | _ => removeEventListenerFromWindow NativeOrientation
                        (with_hasAbsoluteOrientation (CapBool true) s)
               end).
    assert (H1 : lastOrientationQuat s1 = lastOrientationQuat s).
    { subst s1. by destruct (hasAbsoluteOrientation s) as [|deadline|[]]. }
    destruct (js_has Orientation (observed s1)); [|by left].
    right. right. exists e.
    by destruct (triggerCallbacks_frame stops Orientation
                   (OfOrientation (orientationEventFromDevice e))
                   (with_lastOrientationQuat
                      (Some (quat (detail (orientationEventFromDevice e)))) s1))
      as (_ & _ & _ & -> & _).
  - left. by destruct (handleMotion_frame platform stops now e s) as (_ & _ & -> & _).
Qed.

Lemma run_lastOrientationQuat_unit (ops : list Op) :
  forall s : MotionObserver,
    (forall q, lastOrientationQuat s = Some q -> quatNormSq q = 1%R) ->
    forall q, lastOrientationQuat (run platform stops ops s) = Some q ->
              quatNormSq q = 1%R.
Proof.
  induction ops as [|op rest IH]; intros s Hs; [exact Hs|].
  cbn [run fold_left]. apply IH. intros q Hq.
  destruct (step_lastOrientationQuat op s) as [H|[H|[e H]]]; rewrite H in Hq.
  - by apply Hs.
  - discriminate Hq.
  - injection Hq as <-. cbn [orientationEventFromDevice createEvent detail quat].
    apply orientationToQuat_unit.
Qed.

(** X18: in exact real arithmetic (the rounding of doubles is not
    modelled), in every session of a new observer the last known
    orientation, when there is one, is a quaternion of squared-component
    sum 1; the vector that the derived acceleration subtracts from the
    reading, the reference vector rotated by it, has the squared length of
    the constant of gravity. *)
Theorem last_orientation_is_unit (ops : list Op) (q : Quaternion) :
  lastOrientationQuat (run platform stops ops new_MotionObserver) = Some q ->
  quatNormSq q = 1%R /\
  vecNormSq (vecApplyQuat (0, - GRAVITY, 0)%R q) = (GRAVITY * GRAVITY)%R.
Proof.
  intros Hq.
  assert (Hunit : quatNormSq q = 1%R).
  { apply (run_lastOrientationQuat_unit ops new_MotionObserver); [|exact Hq].
    intros q' Hq'. discriminate Hq'. }
  split; [exact Hunit|].
  rewrite (vecApplyQuat_length _ q Hunit). unfold vecNormSq. ring.
Qed.

(** X19: once the absolute-orientation capability is true, while
    orientation is not observed, no raw event and no registration changes
    the last known orientation: the relative events that acceleration
    alone keeps wired are ignored, so the derived acceleration goes on
    with the orientation it has. *)
Theorem last_orientation_stale_after_absolute (ops : list Op) (s : MotionObserver) :
  hasAbsoluteOrientation s = CapBool true ->
  js_has Orientation (observed s) = false ->
  forallb keepsObservedSet ops = true ->
  lastOrientationQuat (run platform stops ops s) = lastOrientationQuat s.
Proof.
  revert s. induction ops as [|op rest IH]; intros s Habs Hobs Hops; [done|].
  cbn [forallb] in Hops. apply andb_true_iff in Hops as [Hop Hrest].
  cbn [run fold_left].
  assert (Hstep : lastOrientationQuat (step platform stops s op) = lastOrientationQuat s).
  { destruct op as [now [e|e|e]|filter| |filter| |type cb|type cb|type cb];
      try discriminate Hop; cbn [step].
    - by rewrite fire_relative_superseded.
    - unfold fire. cbn [nativeEventType].
      destruct (js_has _ (window s)); [|done].
      unfold handleOrientationAbsolute. rewrite Habs. by rewrite Hobs.
    - unfold fire. cbn [nativeEventType].
      destruct (js_has _ (window s)); [|done].
      by destruct (handleMotion_frame platform stops now e s) as (_ & _ & -> & _).
    - by destruct (addListeners_frame s) as (_ & _ & _ & -> & _).
    - unfold bind. by destruct (callbacks s !! type).
    - unfold once. by destruct (onceCallbacks s !! type).
    - unfold unbind. destruct (callbacks s !! type) as [cbs|]; [|done].
      destruct (js_delete cb cbs) as [[] cbs']; [done|].
      cbn [onceCallbacks with_callbacks].
      destruct (onceCallbacks s !! type) as [os|]; [|done].
      by destruct (js_delete cb os) as [found os']. }
  rewrite <- Hstep. apply IH; [| |exact Hrest].
  - destruct (run_absolute_capability platform stops [op] s true Habs)
      as (b & Hb & Htrue & _).
    cbn [run fold_left] in Hb. rewrite Hb. by rewrite Htrue.
  - pose proof (run_keeps_observed platform stops [op] s) as Hkeep.
    cbn [run fold_left forallb] in Hkeep. rewrite Hkeep; [done|].
    by rewrite Hop.
Qed.

End LastOrientationFacts.

(** The orientation a relative event leaves after the measurement window
    has elapsed without an absolute event. *)
Lemma last_orientation_is_unit_witness :
  quatNormSq (quat (detail (orientationEventFromDevice flat))) = 1%R.
Proof.
  apply (last_orientation_is_unit android (stopsAt 0)
           [ObserveStart (Some [Acceleration]); ObserveResume;
            Fire 0 (DeviceOrientation flat); Fire 21 (DeviceOrientation flat)]
           (quat (detail (orientationEventFromDevice flat)))).
  reflexivity.
Defined.

(** Orientation and acceleration are observed, an absolute event arrives,
    orientation is unobserved: the relative events that follow leave the
    last orientation as the absolute event set it. *)
Lemma last_orientation_stale_after_absolute_witness :
  let s := run android (stopsAt 0)
             [ObserveStart (Some [Orientation; Acceleration]); ObserveResume;
              Fire 0 (DeviceOrientationAbsolute flatAbsolute);
              Unobserve (Some [Orientation])]
             new_MotionObserver in
  lastOrientationQuat
    (run android (stopsAt 0)
       [Fire 100 (DeviceOrientation flat); Fire 200 (DeviceOrientation flat)] s)
  = lastOrientationQuat s.
Proof.
  intros s.
  apply (last_orientation_stale_after_absolute android (stopsAt 0)
           [Fire 100 (DeviceOrientation flat); Fire 200 (DeviceOrientation flat)] s);
    reflexivity.
Defined.
